(** * newscrapy: the article extraction pipeline, embedded and verified

    The development follows the Python sources module by module:
    - [utility.py]   : [datespan];
    - [parser.py]    : [get_page_html], the fetch primitive (external, a
                       variable of the model);
    - [article.py]   : [Article], [LaRepubblicaArticle] with [download] and
                       [parse];
    - [extractor.py] : [LaRepubblicaExtractor] with [archive_size] and the
                       three traversal modes of [extract_articles].

    Python exceptions are modelled by a [result] type, mutation of [self] by
    explicit state passing in a state-and-exception monad, the markup tree of
    the HTML library by an inductive [node]. *)

From Stdlib Require Import ZArith List Sorted String Ascii Bool Lia DecimalString.
Import ListNotations.

Open Scope string_scope.
Open Scope list_scope.
Open Scope Z_scope.

(* ================================================================== *)
(** * Python strings *)

(** Strings are sequences of characters; slices are written with explicit
    take and drop. *)

Notation "a +++ b" := (String.append a b) (at level 60, right associativity).

Fixpoint take_str (n : nat) (s : string) : string :=
  match n, s with
  | S n', String c r => String c (take_str n' r)
  | _, _ => EmptyString
  end.

Fixpoint drop_str (n : nat) (s : string) : string :=
  match n, s with
  | S n', String _ r => drop_str n' r
  | _, _ => s
  end.

(** [s[:-k]] for a positive literal [k]. *)
Definition slice_drop_last (k : nat) (s : string) : string :=
  take_str (String.length s - k) s.

(** [s[-k:]] for a positive literal [k]. *)
Definition slice_last (k : nat) (s : string) : string :=
  drop_str (String.length s - k) s.

(** [s[k:]]. *)
Definition slice_from (k : nat) (s : string) : string := drop_str k s.

(** [len(s)]. *)
Definition len (s : string) : Z := Z.of_nat (String.length s).

(** The one-character string holding a double quote. *)
Definition dquote : string := String (ascii_of_nat 34) EmptyString.

(** ['%d' % z]. *)
Definition fmt_d (z : Z) : string := NilZero.string_of_int (Z.to_int z).

Definition is_digit (c : ascii) : bool :=
  let n := nat_of_ascii c in (48 <=? n)%nat && (n <=? 57)%nat.

(** Whitespace as [\s] reads it on ASCII text. *)
Definition is_space (c : ascii) : bool :=
  let n := nat_of_ascii c in ((9 <=? n)%nat && (n <=? 13)%nat) || (n =? 32)%nat.

(** The maximal runs of characters satisfying [p], left to right: what
    [re.findall] returns for a pattern [c+] over a character class [c].
    [cur] is the run being read. *)
Fixpoint runs (p : ascii -> bool) (cur : option string) (s : string) : list string :=
  match s with
  | EmptyString => match cur with Some r => [r] | None => [] end
  | String c rest =>
      if p c then
        runs p (Some (match cur with
                      | Some r => r +++ String c EmptyString
                      | None => String c EmptyString
                      end)) rest
      else
        match cur with
        | Some r => r :: runs p None rest
        | None => runs p None rest
        end
  end.

(** [re.findall(r'\d+', s)]. *)
Definition re_findall_digits (s : string) : list string := runs is_digit None s.

Definition digit_value (c : ascii) : Z := Z.of_nat (nat_of_ascii c) - 48.

Fixpoint int_acc (acc : Z) (s : string) : Z :=
  match s with
  | EmptyString => acc
  | String c r => int_acc (10 * acc + digit_value c) r
  end.

(** [int(s)] on a string of decimal digits. *)
Definition py_int (s : string) : Z := int_acc 0 s.

(* ================================================================== *)
(** * Exceptions *)

Inductive exn : Type :=
| ArticleException (msg : string)
| AttributeError
| TypeError
| KeyError
| IndexError
| ValueError
| OverflowError.

Inductive result (A : Type) : Type :=
| Return (a : A)
| Raise (e : exn).

Arguments Return {A} a.
Arguments Raise {A} e.

Definition rbind {A B} (r : result A) (k : A -> result B) : result B :=
  match r with
  | Return a => k a
  | Raise e => Raise e
  end.

(** Attribute access on a value that may be [None]: [None.attr] raises
    [AttributeError]. *)
Definition deref {A} (o : option A) : result A :=
  match o with
  | Some a => Return a
  | None => Raise AttributeError
  end.

(** [l[-1]]. *)
Definition last_item {A} (l : list A) : result A :=
  match rev l with
  | x :: _ => Return x
  | [] => Raise IndexError
  end.

(** ** State and exceptions

    A method that mutates [self] and may raise: the state reached when the
    exception is raised is kept, as in Python. *)

Definition M (S A : Type) : Type := S -> result A * S.

Definition ret {S A} (a : A) : M S A := fun s => (Return a, s).

Definition raise {S A} (e : exn) : M S A := fun s => (Raise e, s).

Definition bind {S A B} (c : M S A) (k : A -> M S B) : M S B :=
  fun s =>
    match c s with
    | (Return a, s') => k a s'
    | (Raise e, s') => (Raise e, s')
    end.

Definition lift {S A} (r : result A) : M S A := fun s => (r, s).

Definition get {S} : M S S := fun s => (Return s, s).

Definition modify {S} (f : S -> S) : M S unit := fun s => (Return tt, f s).

Notation "x <- c ;; k" := (bind c (fun x => k))
  (at level 61, c at next level, right associativity).
Notation "c ;;; k" := (bind c (fun _ => k))
  (at level 61, right associativity).

(** [for x in l: body(x)]. *)
Fixpoint for_each {S A} (l : list A) (body : A -> M S unit) : M S unit :=
  match l with
  | [] => ret tt
  | x :: r => body x ;;; for_each r body
  end.

(* ================================================================== *)
(** * The markup tree *)

#[local] Set Warnings "-register-all".

(** A parsed document: text leaves and tags with their attributes and
    children.  The document object itself is a tag. *)
Inductive node : Type :=
| NavigableString (s : string)
| Tag (name : string) (attrs : list (string * string)) (contents : list node).

(** All nodes below [n], in document order. *)
Fixpoint descendants (n : node) : list node :=
  match n with
  | NavigableString _ => []
  | Tag _ _ cs =>
      (fix walk (l : list node) : list node :=
         match l with
         | [] => []
         | c :: r => c :: descendants c ++ walk r
         end) cs
  end.

(** [n.text]: the text leaves of the subtree, concatenated. *)
Fixpoint get_text (n : node) : string :=
  match n with
  | NavigableString s => s
  | Tag _ _ cs =>
      (fix cat (l : list node) : string :=
         match l with
         | [] => EmptyString
         | c :: r => get_text c +++ cat r
         end) cs
  end.

Fixpoint lookup {V : Type} (key : string) (attrs : list (string * V)) : option V :=
  match attrs with
  | [] => None
  | (k, v) :: r => if (k =? key)%string then Some v else lookup key r
  end.

Definition node_attrs (n : node) : list (string * string) :=
  match n with
  | Tag _ a _ => a
  | NavigableString _ => []
  end.

(** An attribute filter [{key: value}].  The class attribute is a list of
    whitespace-separated tokens and matches when one token is [value]; any
    other attribute matches on its whole value. *)
Definition attr_matches (flt : string * string) (attrs : list (string * string)) : bool :=
  let (key, value) := flt in
  match lookup key attrs with
  | None => false
  | Some v =>
      if (key =? "class")%string
      then existsb (String.eqb value) (runs (fun c => negb (is_space c)) None v)
      else (v =? value)%string
  end.

Definition tag_matches (name : string) (flt : option (string * string)) (n : node) : bool :=
  match n with
  | NavigableString _ => false
  | Tag nm attrs _ =>
      (nm =? name)%string &&
      match flt with
      | None => true
      | Some f => attr_matches f attrs
      end
  end.

(** [n.find(name, {key: value})], and [n.name] when [flt] is [None]: the
    first matching descendant, or [None]. *)
Definition find (name : string) (flt : option (string * string)) (n : node) : option node :=
  List.find (tag_matches name flt) (descendants n).

(** [n.find_all(name)]. *)
Definition find_all (name : string) (n : node) : list node :=
  List.filter (tag_matches name None) (descendants n).

(** [n[key]]. *)
Definition getitem (key : string) (n : node) : result string :=
  match lookup key (node_attrs n) with
  | Some v => Return v
  | None => Raise KeyError
  end.

(** [o[key]] where [o] may be [None]: subscripting [None] is a [TypeError]. *)
Definition getitem_opt (key : string) (o : option node) : result string :=
  match o with
  | Some n => getitem key n
  | None => Raise TypeError
  end.

(* ================================================================== *)
(** * utility.py *)

Module datetime.

(** A calendar date, as [datetime.date]. *)
Record date : Type := mkdate { year : Z; month : Z; day : Z }.

Definition is_leap (y : Z) : bool :=
  (y mod 4 =? 0) && (negb (y mod 100 =? 0) || (y mod 400 =? 0)).

Definition days_in_month (y m : Z) : Z :=
  if m =? 2 then (if is_leap y then 29 else 28)
  else if (m =? 4) || (m =? 6) || (m =? 9) || (m =? 11) then 30
  else 31.

Definition valid (d : date) : bool :=
  (1 <=? year d) && (year d <=? 9999) &&
  (1 <=? month d) && (month d <=? 12) &&
  (1 <=? day d) && (day d <=? days_in_month (year d) (month d)).

(** The integer fits the C [int] the constructor converts its arguments
    to. *)
Definition fits_c_int (z : Z) : bool := (- 2 ^ 31 <=? z) && (z <? 2 ^ 31).

(** [date(year, month, day)]: [OverflowError] when an argument does not
    fit a C [int], [ValueError] when the three are not a date of the
    calendar. *)
Definition new (y m d : Z) : result date :=
  if fits_c_int y && fits_c_int m && fits_c_int d then
    if valid (mkdate y m d) then Return (mkdate y m d) else Raise ValueError
  else Raise OverflowError.

(** [a < b]: dates compare as (year, month, day). *)
Definition ltb (a b : date) : bool :=
  (year a <? year b) ||
  ((year a =? year b) &&
   ((month a <? month b) || ((month a =? month b) && (day a <? day b)))).

Definition lt (a b : date) : Prop := ltb a b = true.

Definition le (a b : date) : Prop := lt a b \/ a = b.

(** [d + timedelta(days=1)]: the next calendar day.  Python raises
    [OverflowError] past 9999-12-31; [datespan] adds a day only to a date
    that lies before its end date, which is never the last date. *)
Definition next_day (d : date) : date :=
  if day d <? days_in_month (year d) (month d) then mkdate (year d) (month d) (day d + 1)
  else if month d <? 12 then mkdate (year d) (month d + 1) 1
  else mkdate (year d + 1) 1 1.

(** A count that grows with the calendar: it bounds the number of days
    between two dates. *)
Definition rank (d : date) : Z := 372 * year d + 31 * month d + day d.

End datetime.

(** The loop of [datespan], [fuel] bounding its iterations. *)
Fixpoint datespan_loop (fuel : nat) (current_date end_date : datetime.date)
  : list datetime.date :=
  match fuel with
  | O => []
  | S fuel' =>
      if datetime.ltb current_date end_date
      then current_date :: datespan_loop fuel' (datetime.next_day current_date) end_date
      else []
  end.

(** [datespan(start_date, end_date, delta=timedelta(days=1))], consumed as
    the list of the dates it yields. *)
Definition datespan (start_date end_date : datetime.date) : list datetime.date :=
  datespan_loop (Z.to_nat (datetime.rank end_date - datetime.rank start_date))
                start_date end_date.

(* ================================================================== *)
(** * article.py *)

(** The attributes of an [Article] object. *)
Record Article : Type := mkArticle {
  url : string;
  title : string;
  description : string;
  authors : string;
  publish_date : string;
  text : string;
  section : string;
  subsection : string;
  keywords : list string;
  characters : list string;
  image_url : string;
  html : string
}.

(** Attribute assignment, [self.f = v]. *)
Definition set_url (v : string) (a : Article) : Article :=
  mkArticle v (title a) (description a) (authors a) (publish_date a) (text a)
            (section a) (subsection a) (keywords a) (characters a) (image_url a) (html a).
Definition set_title (v : string) (a : Article) : Article :=
  mkArticle (url a) v (description a) (authors a) (publish_date a) (text a)
            (section a) (subsection a) (keywords a) (characters a) (image_url a) (html a).
Definition set_description (v : string) (a : Article) : Article :=
  mkArticle (url a) (title a) v (authors a) (publish_date a) (text a)
            (section a) (subsection a) (keywords a) (characters a) (image_url a) (html a).
Definition set_authors (v : string) (a : Article) : Article :=
  mkArticle (url a) (title a) (description a) v (publish_date a) (text a)
            (section a) (subsection a) (keywords a) (characters a) (image_url a) (html a).
Definition set_publish_date (v : string) (a : Article) : Article :=
  mkArticle (url a) (title a) (description a) (authors a) v (text a)
            (section a) (subsection a) (keywords a) (characters a) (image_url a) (html a).
Definition set_text (v : string) (a : Article) : Article :=
  mkArticle (url a) (title a) (description a) (authors a) (publish_date a) v
            (section a) (subsection a) (keywords a) (characters a) (image_url a) (html a).
Definition set_section (v : string) (a : Article) : Article :=
  mkArticle (url a) (title a) (description a) (authors a) (publish_date a) (text a)
            v (subsection a) (keywords a) (characters a) (image_url a) (html a).
Definition set_subsection (v : string) (a : Article) : Article :=
  mkArticle (url a) (title a) (description a) (authors a) (publish_date a) (text a)
            (section a) v (keywords a) (characters a) (image_url a) (html a).
Definition set_image_url (v : string) (a : Article) : Article :=
  mkArticle (url a) (title a) (description a) (authors a) (publish_date a) (text a)
            (section a) (subsection a) (keywords a) (characters a) v (html a).
Definition set_html (v : string) (a : Article) : Article :=
  mkArticle (url a) (title a) (description a) (authors a) (publish_date a) (text a)
            (section a) (subsection a) (keywords a) (characters a) (image_url a) v.

(** [self.keywords.append(v)] and [self.characters.append(v)]. *)
Definition keywords_append (v : string) (a : Article) : Article :=
  mkArticle (url a) (title a) (description a) (authors a) (publish_date a) (text a)
            (section a) (subsection a) (keywords a ++ [v]) (characters a) (image_url a) (html a).
Definition characters_append (v : string) (a : Article) : Article :=
  mkArticle (url a) (title a) (description a) (authors a) (publish_date a) (text a)
            (section a) (subsection a) (keywords a) (characters a ++ [v]) (image_url a) (html a).

(** [Article.__init__(self, url)]; [None] is Python's [None]. *)
Definition Article_init (u : option string) : result Article :=
  match u with
  | None => Raise (ArticleException "ArticleException: Invalid URL")
  | Some s =>
      if (s =? EmptyString)%string
      then Raise (ArticleException "ArticleException: Invalid URL")
      else Return (mkArticle s EmptyString EmptyString EmptyString EmptyString
                             EmptyString EmptyString EmptyString [] []
                             EmptyString EmptyString)
  end.

(** [LaRepubblicaArticle.__init__(self, url)]: the base initializer, then
    [self.url = url[:-10]]. *)
Definition LaRepubblicaArticle_init (u : option string) : result Article :=
  rbind (Article_init u) (fun a =>
    match u with
    | Some s => Return (set_url (slice_drop_last 10 s) a)
    | None => Raise TypeError
    end).

(** ['Error: Invalid parsing of article' '"%s" (%s)' % (title, url)]. *)
Definition parse_error_msg (a : Article) : string :=
  "Error: Invalid parsing of article" +++ dquote +++ title a +++ dquote +++
  " (" +++ url a +++ ")".

(* ================================================================== *)
(** * extractor.py: what a run leaves behind *)

(** A call of [extract_articles], by the mode its arguments select. *)
Inductive call : Type :=
| PageCall (day month year page_num : Z)
| DayCall (day month year : Z)
| RangeCall (day month year day_end month_end year_end : Z).

(** What a run records besides the articles: the calls of
    [extract_articles] as they are entered, and the lines handed to the
    logger. *)
Inductive event : Type :=
| Enter (c : call)
| Debug (msg : string)
| Info (msg : string).

(** The extractor object: [self.articles], and the journal of the run. *)
Record Extractor : Type := mkExtractor {
  articles : list Article;
  journal : list event
}.

(** [Extractor.__init__]. *)
Definition Extractor_init : Extractor := mkExtractor [] [].

(** [self.articles.append(article)]. *)
Definition articles_append (a : Article) (self : Extractor) : Extractor :=
  mkExtractor (articles self ++ [a]) (journal self).

Definition record (e : event) : M Extractor unit :=
  modify (fun self => mkExtractor (articles self) (journal self ++ [e])).

(** ['http://ricerca.repubblica.it/repubblica/archivio/'
     'repubblica/%d/%d/%d?page=%d' % (year, month, day, page_num)]. *)
Definition archive_url (year month day page_num : Z) : string :=
  "http://ricerca.repubblica.it/repubblica/archivio/repubblica/" +++
  fmt_d year +++ "/" +++ fmt_d month +++ "/" +++ fmt_d day +++
  "?page=" +++ fmt_d page_num.

(** ['Extracting articles for %d-%d-%d...' % (day, month, year)]. *)
Definition extracting_msg (day month year : Z) : string :=
  "Extracting articles for " +++ fmt_d day +++ "-" +++ fmt_d month +++ "-" +++
  fmt_d year +++ "...".

(** [range(a, b)]. *)
Definition py_range (a b : Z) : list Z :=
  map (fun k => a + Z.of_nat k) (seq 0 (Z.to_nat (b - a))).

(** [a and b], [b] evaluated only when [a] holds. *)
Definition and_then (a b : result bool) : result bool :=
  rbind a (fun x => if x then b else Return false).

Definition is_none {A} (o : option A) : bool :=
  match o with Some _ => false | None => true end.

(** The condition guarding the [try] block in page mode: the exclusion
    rules, in the order the source writes them.  Each conjunct may raise. *)
Definition accepts (art_html : node) : result bool :=
  and_then
    (rbind (deref (find "p" None art_html))
           (fun p => Return (is_none (find "span" None p))))
  (and_then
    (rbind (deref (find "span" None art_html))
           (fun span =>
              Return (negb (slice_from 5 (get_text span) =? "Il Cruciverba")%string)))
  (and_then
    (rbind (getitem_opt "href" (find "a" None art_html))
           (fun href =>
              Return (negb (slice_last 16 href =? ".html?ref=search")%string)))
  (and_then
    (rbind (getitem_opt "href" (find "a" None art_html))
           (fun href =>
              Return (negb (href =?
                "https://quotidiano.repubblica.it/edicola/catalogogenerale.jsp?ref=search")%string)))
  (and_then
    (Return (negb (is_none (find "p" None art_html))))
    (rbind (deref (find "p" None art_html))
           (fun p => Return (5 <? len (get_text p)))))))).

(** A method run on a local object: the object is dropped when the method
    raises. *)
Definition exec {S} (c : M S unit) (s : S) : result S :=
  match c s with
  | (Return _, s') => Return s'
  | (Raise e, _) => Raise e
  end.

(** [data != ''] for the data of an answer: the data are bytes, and a
    bytes object is never equal to a str, the empty ones included. *)
Definition differs_from_empty_str (data : string) : bool := true.

Section Scraper.

(** [parser.get_page_html]: the content at an address, [None] when the
    request fails. *)
Variable get_page_html : string -> option string.

(** [BeautifulSoup(data, 'html.parser')]: the document parsed from [data]. *)
Variable BeautifulSoup : string -> node.

(** [Article.download(self)]: any content that is fetched is stored, an
    empty one included. *)
Definition download : M Article unit :=
  self <- get ;;
  match get_page_html (url self) with
  | Some h =>
      if differs_from_empty_str h
      then modify (set_html h)
      else raise (ArticleException "ArticleException: Article HTML is empty.")
  | None => raise (ArticleException "ArticleException: Article HTML is empty.")
  end.

(** The body of the [try] block of [LaRepubblicaArticle.parse], one
    definition per commented block of the source.  [soup] is the parsed
    page; [preview_soup] is [None] for the default [''] and [Some n] for a
    tag of the listing. *)

(* Title *)
Definition parse_title (soup : node) : M Article unit :=
  article <- lift (deref (find "article" None soup)) ;;
  h1 <- lift (deref (find "h1" None article)) ;;
  modify (set_title (get_text h1)).

(* Description: the preview paragraph is read into a local name only. *)
Definition parse_description (soup : node) (preview_soup : option node) : M Article unit :=
  match find "p" (Some ("itemprop", "description")) soup with
  | Some description => modify (set_description (get_text description))
  | None =>
      match preview_soup with
      | Some preview => let description := find "p" None preview in ret tt
      | None => ret tt
      end
  end.

(* Authors: the preview marker is read into a local name only. *)
Definition parse_authors (soup : node) (preview_soup : option node) : M Article unit :=
  match find "em" (Some ("itemprop", "author")) soup with
  | Some authors => modify (set_authors (get_text authors))
  | None =>
      match preview_soup with
      | Some preview =>
          let authors := find "em" (Some ("class", "author")) preview in ret tt
      | None => ret tt
      end
  end.

(* Date *)
Definition parse_date (soup : node) (preview_soup : option node) : M Article unit :=
  match preview_soup with
  | Some preview =>
      time <- lift (deref (find "time" None preview)) ;;
      modify (set_publish_date (get_text time))
  | None =>
      time <- lift (deref (find "time" (Some ("itemprop", "datePublished")) soup)) ;;
      modify (set_publish_date (get_text time))
  end.

(** The container the body text is read from: the first of the three that
    is present ([is None] tests); the third lookup raises when its outer
    containers are missing and may itself find no paragraph. *)
Definition article_body (soup : node) : result (option node) :=
  match find "span" (Some ("itemprop", "articleBody")) soup with
  | Some b => Return (Some b)
  | None =>
      match find "div" (Some ("class", "detail_body")) soup with
      | Some b => Return (Some b)
      | None =>
          rbind (deref (find "div" (Some ("class", "body-text")) soup)) (fun body_text =>
          rbind (deref (find "div" (Some ("class", "content")) body_text)) (fun content =>
          Return (find "p" None content)))
      end
  end.

(* Text *)
Definition parse_text (soup : node) : M Article unit :=
  body <- lift (article_body soup) ;;
  match body with
  | Some b => modify (set_text (get_text b))
  | None => ret tt
  end.

(* Section *)
Definition parse_section (soup : node) : M Article unit :=
  match find "a" (Some ("class", "section-logo")) soup,
        find "a" (Some ("class", "sport-logo")) soup with
  | Some section_logo, _ => modify (set_section (get_text section_logo))
  | None, Some sport_logo => modify (set_section (get_text sport_logo))
  | None, None => ret tt
  end.

(* Subsection *)
Definition parse_subsection (preview_soup : option node) : M Article unit :=
  match preview_soup with
  | Some preview =>
      span <- lift (deref (find "span" None preview)) ;;
      modify (set_subsection (slice_from 5 (get_text span)))
  | None => ret tt
  end.

(* Keywords *)
Definition parse_keywords (soup : node) : M Article unit :=
  match find "dl" (Some ("class", "args")) soup with
  | None =>
      match find "div" (Some ("class", "detail_tag")) soup with
      | Some kws =>
          for_each (find_all "a" kws)
                   (fun keyword => modify (keywords_append (get_text keyword)))
      | None => ret tt
      end
  | Some kws =>
      for_each (find_all "dd" kws)
               (fun keyword => modify (keywords_append (get_text keyword)))
  end.

(* Characters *)
Definition parse_characters (soup : node) : M Article unit :=
  match find "dl" (Some ("class", "character")) soup with
  | Some chars =>
      for_each (find_all "dd" chars)
               (fun character => modify (characters_append (get_text character)))
  | None => ret tt
  end.

(* Image *)
Definition parse_image (soup : node) : M Article unit :=
  match find "figure" None soup with
  | Some image =>
      match find "img" None image with
      | Some img =>
          src <- lift (getitem "src" img) ;;
          modify (set_image_url src)
      | None => ret tt
      end
  | None => ret tt
  end.

Definition parse_steps (soup : node) (preview_soup : option node) : M Article unit :=
  parse_title soup ;;;
  parse_description soup preview_soup ;;;
  parse_authors soup preview_soup ;;;
  parse_date soup preview_soup ;;;
  parse_text soup ;;;
  parse_section soup ;;;
  parse_subsection preview_soup ;;;
  parse_keywords soup ;;;
  parse_characters soup ;;;
  parse_image soup.

Definition parse_fields (preview_soup : option node) : M Article unit :=
  fun self => parse_steps (BeautifulSoup (html self)) preview_soup self.

(** [LaRepubblicaArticle.parse(self, preview_soup)]: any exception of the
    body becomes an [ArticleException] naming the title and url reached. *)
Definition parse (preview_soup : option node) : M Article unit :=
  fun self =>
    match parse_fields preview_soup self with
    | (Return _, self') => (Return tt, self')
    | (Raise _, self') => (Raise (ArticleException (parse_error_msg self')), self')
    end.

(** The statements of the [try] block before the append: construct the
    article from the entry's link, download it, parse it with the entry as
    preview. *)
Definition build_article (art_html : node) : result Article :=
  rbind (getitem_opt "href" (find "a" None art_html)) (fun href =>
  rbind (LaRepubblicaArticle_init (Some href)) (fun article =>
  rbind (exec download article) (fun article =>
  exec (parse (Some art_html)) article))).

(** The [try] block with its handler: only [ArticleException] is caught. *)
Definition try_article (art_html : node) : M Extractor unit :=
  match build_article art_html with
  | Return article => modify (articles_append article)
  | Raise (ArticleException msg) => record (Debug msg)
  | Raise e => raise e
  end.

(** [LaRepubblicaExtractor.archive_size(self, day, month, year)]. *)
Definition archive_size (day month year : Z) : result Z :=
  match get_page_html (archive_url year month day 1) with
  | None => Return (-1)
  | Some data =>
      let soup := BeautifulSoup data in
      rbind (deref (find "div" (Some ("class", "pagination")) soup)) (fun pagination =>
      rbind (deref (find "p" None pagination)) (fun p =>
      rbind (last_item (re_findall_digits (get_text p))) (fun tok =>
      Return (py_int tok))))
  end.

(** [extract_articles], branch [page_num is not None]. *)
Definition extract_page (day month year page_num : Z) : M Extractor unit :=
  record (Enter (PageCall day month year page_num)) ;;;
  match get_page_html (archive_url year month day page_num) with
  | None => ret tt
  | Some data =>
      let soup := BeautifulSoup data in
      for_each (find_all "article" soup) (fun art_html =>
        keep <- lift (accepts art_html) ;;
        if keep then try_article art_html else ret tt)
  end.

(** [extract_articles], last branch: a whole day. *)
Definition extract_day (day month year : Z) : M Extractor unit :=
  record (Enter (DayCall day month year)) ;;;
  pages <- lift (archive_size day month year) ;;
  record (Info (extracting_msg day month year)) ;;;
  for_each (py_range 1 (pages + 1)) (fun i => extract_page day month year i).

(** [extract_articles], branch with the three end arguments given. *)
Definition extract_range (day month year day_end month_end year_end : Z)
  : M Extractor unit :=
  record (Enter (RangeCall day month year day_end month_end year_end)) ;;;
  start_date <- lift (datetime.new year month day) ;;
  end_date <- lift (datetime.new year_end month_end day_end) ;;
  for_each (datespan start_date end_date) (fun curr =>
    extract_day (datetime.day curr) (datetime.month curr) (datetime.year curr)).

(** [LaRepubblicaExtractor.extract_articles(self, day, month, year,
    page_num=None, day_end=None, month_end=None, year_end=None)]. *)
Definition extract_articles (day month year : Z)
           (page_num day_end month_end year_end : option Z) : M Extractor unit :=
  match page_num with
  | Some p => extract_page day month year p
  | None =>
      match day_end, month_end, year_end with
      | Some de, Some me, Some ye => extract_range day month year de me ye
      | _, _, _ => extract_day day month year
      end
  end.

(** The extractors a program can reach: a fresh one, and whatever a call of
    [extract_articles] leaves, whether it returns or raises. *)
Inductive reachable : Extractor -> Prop :=
| reachable_init : reachable Extractor_init
| reachable_call (self : Extractor) (day month year : Z)
                 (page_num day_end month_end year_end : option Z) :
    reachable self ->
    reachable (snd (extract_articles day month year page_num
                                     day_end month_end year_end self)).

End Scraper.

(* ================================================================== *)
(** * A sample archive

    A small web and the documents its pages parse to, for running the
    model: four listing pages and three article pages.  Attribute values
    are written without quotes in the markup. *)

Module Sample.

Definition document (contents : list node) : node := Tag "[document]" [] contents.

(** A listing entry: label, link, preview paragraph, date stamp. *)
Definition entry (label href preview stamp : string) : node :=
  Tag "article" []
      [ Tag "span" [] [NavigableString label];
        Tag "h1" [] [Tag "a" [("href", href)] [NavigableString "Leggi"]];
        Tag "p" [] [NavigableString preview];
        Tag "time" [] [NavigableString stamp] ].

Definition entry_one : node :=
  entry "Sez. Politica" "http://www.repubblica.it/politica/a1/?ref=search"
        "Anteprima del primo articolo" "04 marzo 2015".

Definition entry_two : node :=
  entry "Sez. Cronaca" "http://www.repubblica.it/cronaca/a2/?ref=search"
        "Anteprima del secondo articolo" "04 marzo 2015".

(** Its article page is not served. *)
Definition entry_three : node :=
  entry "Sez. Esteri" "http://www.repubblica.it/esteri/a3/?ref=search"
        "Anteprima del terzo articolo" "04 marzo 2015".

(** An entry with a preview paragraph but neither label nor link. *)
Definition entry_bare : node :=
  Tag "article" [] [Tag "p" [] [NavigableString "Solo un paragrafo di anteprima"]].

Definition pagination (line : string) : node :=
  Tag "div" [("class", "pagination")] [Tag "p" [] [NavigableString line]].

Definition listing_4_html : string :=
  "<div class=pagination><p>Pagina 1 di 1</p></div>" +++
  "<article><span>Sez. Politica</span><h1><a href=http://www.repubblica.it/politica/a1/?ref=search>Leggi</a></h1><p>Anteprima del primo articolo</p><time>04 marzo 2015</time></article>" +++
  "<article><span>Sez. Cronaca</span><h1><a href=http://www.repubblica.it/cronaca/a2/?ref=search>Leggi</a></h1><p>Anteprima del secondo articolo</p><time>04 marzo 2015</time></article>" +++
  "<article><span>Sez. Esteri</span><h1><a href=http://www.repubblica.it/esteri/a3/?ref=search>Leggi</a></h1><p>Anteprima del terzo articolo</p><time>04 marzo 2015</time></article>".

Definition listing_4 : node :=
  document [pagination "Pagina 1 di 1"; entry_one; entry_two; entry_three].

Definition listing_7_html : string :=
  "<div class=pagination><p>Pagina 1 di 1</p></div>" +++
  "<article><p>Solo un paragrafo di anteprima</p></article>" +++
  "<article><span>Sez. Politica</span><h1><a href=http://www.repubblica.it/politica/a1/?ref=search>Leggi</a></h1><p>Anteprima del primo articolo</p><time>04 marzo 2015</time></article>".

Definition listing_7 : node :=
  document [pagination "Pagina 1 di 1"; entry_bare; entry_one].

Definition listing_8_html : string :=
  "<div class=pagination><p>Risultati 1 - 10 di 57, pagina 1 di 6</p></div>".

Definition listing_8 : node :=
  document [pagination "Risultati 1 - 10 di 57, pagina 1 di 6"].

(** A listing page without the pagination container. *)
Definition listing_9_html : string := "<p>Nessun risultato</p>".

Definition listing_9 : node :=
  document [Tag "p" [] [NavigableString "Nessun risultato"]].

Definition page_one_html : string :=
  "<article><h1>Titolo uno</h1><span itemprop=articleBody>Testo uno</span>" +++
  "<dl class=args><dd>politica</dd><dd>governo</dd></dl></article>".

Definition page_one : node :=
  document
    [ Tag "article" []
        [ Tag "h1" [] [NavigableString "Titolo uno"];
          Tag "span" [("itemprop", "articleBody")] [NavigableString "Testo uno"];
          Tag "dl" [("class", "args")]
              [ Tag "dd" [] [NavigableString "politica"];
                Tag "dd" [] [NavigableString "governo"] ] ] ].

(** A page whose heading is empty. *)
Definition page_two_html : string :=
  "<article><h1></h1><span itemprop=articleBody>Testo due</span></article>".

Definition page_two : node :=
  document
    [ Tag "article" []
        [ Tag "h1" [] [];
          Tag "span" [("itemprop", "articleBody")] [NavigableString "Testo due"] ] ].

(** A page whose article body marker is present and empty, followed by a
    detail body container with text. *)
Definition page_bodies_html : string :=
  "<article><h1>Titolo</h1><time itemprop=datePublished>2015-03-04</time>" +++
  "<span itemprop=articleBody></span><div class=detail_body>Hello world</div></article>".

Definition page_bodies : node :=
  document
    [ Tag "article" []
        [ Tag "h1" [] [NavigableString "Titolo"];
          Tag "time" [("itemprop", "datePublished")] [NavigableString "2015-03-04"];
          Tag "span" [("itemprop", "articleBody")] [];
          Tag "div" [("class", "detail_body")] [NavigableString "Hello world"] ] ].

(** The sample web: the content served at each address. *)
Definition web : list (string * string) :=
  [ (archive_url 2015 3 4 1, listing_4_html);
    (archive_url 2015 3 7 1, listing_7_html);
    (archive_url 2015 3 8 1, listing_8_html);
    (archive_url 2015 3 9 1, listing_9_html);
    ("http://www.repubblica.it/politica/a1/?", page_one_html);
    ("http://www.repubblica.it/cronaca/a2/?", page_two_html);
    ("http://www.repubblica.it/bodies/?", page_bodies_html) ].

Definition get_page_html (address : string) : option string := lookup address web.

(** The document each served content parses to. *)
Definition documents : list (string * node) :=
  [ (listing_4_html, listing_4);
    (listing_7_html, listing_7);
    (listing_8_html, listing_8);
    (listing_9_html, listing_9);
    (page_one_html, page_one);
    (page_two_html, page_two);
    (page_bodies_html, page_bodies) ].

Definition BeautifulSoup (data : string) : node :=
  match lookup data documents with
  | Some d => d
  | None => document []
  end.

(** A fetch primitive that serves the first article page at every
    address, the empty one included. *)
Definition get_any (address : string) : option string := Some page_one_html.

(** A fetch primitive that answers every request with an empty body. *)
Definition get_empty (address : string) : option string := Some EmptyString.

(** An entry whose link has ten characters. *)
Definition entry_short : node :=
  entry "Sez. Politica" "index.html" "Anteprima del primo articolo" "04 marzo 2015".

(** An article object at [address] holding [content], every other
    attribute at its default. *)
Definition blank (address content : string) : Article :=
  mkArticle address EmptyString EmptyString EmptyString EmptyString EmptyString
            EmptyString EmptyString [] [] EmptyString content.

End Sample.

(** ** Words of the specification, for comparison with the code *)

(** The largest page-number token of a text. *)
Definition largest_token (s : string) : Z :=
  fold_right Z.max 0 (map py_int (re_findall_digits s)).

(** An address carries a query suffix when it holds a question mark. *)
Fixpoint carries_query (s : string) : bool :=
  match s with
  | EmptyString => false
  | String c r => (nat_of_ascii c =? 63)%nat || carries_query r
  end.

(** The first, in the fixed order, of the three content containers whose
    text is not empty. *)
Definition first_nonempty_body (soup : node) : option string :=
  let candidates :=
    [ find "span" (Some ("itemprop", "articleBody")) soup;
      find "div" (Some ("class", "detail_body")) soup;
      match find "div" (Some ("class", "body-text")) soup with
      | Some bt =>
          match find "div" (Some ("class", "content")) bt with
          | Some c => find "p" None c
          | None => None
          end
      | None => None
      end ] in
  List.find (fun t => negb (t =? EmptyString)%string)
            (flat_map (fun o => match o with Some n => [get_text n] | None => [] end)
                      candidates).

(** ** The effect of [parse] as a list of updates *)

(** The attributes [parse] writes. *)
Inductive slot : Type :=
| STitle | SDescription | SAuthors | SPublishDate | SText
| SSection | SSubsection | SImageUrl | SKeywords | SCharacters.

(** One write to an article: an assignment or an append. *)
Inductive update : Type :=
| Assign (s : slot) (v : string)
| AppendKeyword (v : string)
| AppendCharacter (v : string).

Definition target (u : update) : slot :=
  match u with
  | Assign s _ => s
  | AppendKeyword _ => SKeywords
  | AppendCharacter _ => SCharacters
  end.

Definition apply_update (u : update) (a : Article) : Article :=
  match u with
  | Assign STitle v => set_title v a
  | Assign SDescription v => set_description v a
  | Assign SAuthors v => set_authors v a
  | Assign SPublishDate v => set_publish_date v a
  | Assign SText v => set_text v a
  | Assign SSection v => set_section v a
  | Assign SSubsection v => set_subsection v a
  | Assign SImageUrl v => set_image_url v a
  | Assign SKeywords _ => a
  | Assign SCharacters _ => a
  | AppendKeyword v => keywords_append v a
  | AppendCharacter v => characters_append v a
  end.

Definition apply_updates (us : list update) (a : Article) : Article :=
  fold_left (fun a u => apply_update u a) us a.

(** The value held in a slot, a sequence for the two list attributes. *)
Definition slot_get (s : slot) (a : Article) : list string :=
  match s with
  | STitle => [title a]
  | SDescription => [description a]
  | SAuthors => [authors a]
  | SPublishDate => [publish_date a]
  | SText => [text a]
  | SSection => [section a]
  | SSubsection => [subsection a]
  | SImageUrl => [image_url a]
  | SKeywords => keywords a
  | SCharacters => characters a
  end.

Definition scalar (s : slot) : Prop := s <> SKeywords /\ s <> SCharacters.

(** What a list of updates appends to a list slot. *)
Definition appended (s : slot) (us : list update) : list string :=
  flat_map (fun u =>
              match u, s with
              | AppendKeyword v, SKeywords => [v]
              | AppendCharacter v, SCharacters => [v]
              | _, _ => []
              end) us.

(** A computation whose outcome and writes do not depend on the article it
    runs on, all writes being of the kinds [U] allows. *)
Definition acts {A : Type} (U : update -> Prop) (c : M Article A) : Prop :=
  exists r us, Forall U us /\ forall a, c a = (r, apply_updates us a).

(** A computation that never ends in an [ArticleException]. *)
Definition contained {S A : Type} (c : M S A) : Prop :=
  forall s, forall msg, fst (c s) <> Raise (ArticleException msg).

(** The new day calls of a journal. *)
Definition day_calls (j : list event) : list (Z * Z * Z) :=
  flat_map (fun e => match e with
                     | Enter (DayCall d m y) => [(d, m, y)]
                     | _ => []
                     end) j.

Definition page_calls (j : list event) : list (Z * Z * Z * Z) :=
  flat_map (fun e => match e with
                     | Enter (PageCall d m y p) => [(d, m, y, p)]
                     | _ => []
                     end) j.

Definition ymd (d : datetime.date) : Z * Z * Z :=
  (datetime.day d, datetime.month d, datetime.year d).

(** ** Reading the outcome of a run *)

(** A fresh article object for the address [s]: what [Article.__init__]
    leaves. *)
Definition defaults (s : string) : Article :=
  mkArticle s EmptyString EmptyString EmptyString EmptyString EmptyString
            EmptyString EmptyString [] [] EmptyString EmptyString.

Section Outcome.

Variable get_page_html : string -> option string.
Variable BeautifulSoup : string -> node.

(** The entries of a listing page, none when the page is not served. *)
Definition listing_entries (day month year page_num : Z) : list node :=
  match get_page_html (archive_url year month day page_num) with
  | Some data => find_all "article" (BeautifulSoup data)
  | None => []
  end.

(** The exclusion rules evaluate on the entry, to whatever verdict. *)
Definition evaluable (art_html : node) : Prop :=
  exists keep, accepts art_html = Return keep.

Definition accepted (art_html : node) : bool :=
  match accepts art_html with
  | Return true => true
  | _ => false
  end.

(** The records the accepted entries of a list yield, in order. *)
Definition extracted (entries : list node) : list Article :=
  flat_map (fun e => match build_article get_page_html BeautifulSoup e with
                     | Return a => [a]
                     | Raise _ => []
                     end) (filter accepted entries).

(** The log lines of the accepted entries whose article fails, in order. *)
Definition logged (entries : list node) : list event :=
  flat_map (fun e => match build_article get_page_html BeautifulSoup e with
                     | Raise (ArticleException msg) => [Debug msg]
                     | _ => []
                     end) (filter accepted entries).

(** The article comes from an entry of a listing page that the exclusion
    rules accept: its url is the link of the entry without its last ten
    characters. *)
Definition from_listing (a : Article) : Prop :=
  exists day month year page_num art_html href,
    In art_html (listing_entries day month year page_num) /\
    accepts art_html = Return true /\
    getitem_opt "href" (find "a" None art_html) = Return href /\
    href <> EmptyString /\
    url a = slice_drop_last 10 href.

(** What holds of every article in the result set: it comes from an
    accepted entry of a listing page, it holds the content served at its
    url, and its title is the text of the heading of the first article
    element of that content. *)
Definition accumulated_ok (a : Article) : Prop :=
  get_page_html (url a) = Some (html a) /\
  (exists article h1,
    find "article" None (BeautifulSoup (html a)) = Some article /\
    find "h1" None article = Some h1 /\
    title a = get_text h1) /\
  from_listing a.

(** The outcome is not an [ArticleException] that was raised. *)
Definition no_article_exception {A : Type} (r : result A) : Prop :=
  forall msg, r <> Raise (ArticleException msg).

(** The result set holds such articles only. *)
Definition all_ok (self : Extractor) : Prop :=
  Forall accumulated_ok (articles self).

End Outcome.

(* ================================================================== *)
(** * The rest of the sources *)

(** ** article.py: [as_dict] *)

(** A value of the dictionary: a string, or a list of strings. *)
Inductive value : Type :=
| Str (s : string)
| Strs (l : list string).

(** [LaRepubblicaArticle.as_dict(self)]: the attributes but [html], in
    the order the source writes them. *)
Definition as_dict (self : Article) : list (string * value) :=
  [ ("url", Str (url self));
    ("title", Str (title self));
    ("description", Str (description self));
    ("authors", Str (authors self));
    ("publish_date", Str (publish_date self));
    ("text", Str (text self));
    ("section", Str (section self));
    ("subsection", Str (subsection self));
    ("keywords", Strs (keywords self));
    ("characters", Strs (characters self));
    ("image_url", Str (image_url self)) ].

(** The texts the keywords block of [parse] appends for a page: the
    entries of the definition list when there is one, else the links of
    the tag container. *)
Definition page_keywords (soup : node) : list string :=
  match find "dl" (Some ("class", "args")) soup with
  | None =>
      match find "div" (Some ("class", "detail_tag")) soup with
      | Some kws => map get_text (find_all "a" kws)
      | None => []
      end
  | Some kws => map get_text (find_all "dd" kws)
  end.

(** The texts the characters block appends. *)
Definition page_characters (soup : node) : list string :=
  match find "dl" (Some ("class", "character")) soup with
  | Some chars => map get_text (find_all "dd" chars)
  | None => []
  end.

(** ** parser.py *)

Module parser.

Section Request.

(** [HTTP.request('GET', url)]: the status and the data of the answer, or
    the exception the request raises. *)
Variable request : string -> result (Z * string).

(** [get_page_html(url)]: the data of an answer with status 200; [None]
    for any other status and, the [except] clause returning nothing, for
    any exception. *)
Definition get_page_html (url : string) : option string :=
  match request url with
  | Return (status, data) => if status =? 200 then Some data else None
  | Raise _ => None
  end.

End Request.

End parser.

(** ** run.py *)

(** What leaves [run]: the exception of [run] itself, or one raised by
    the calls it makes. *)
Inductive run_exn : Type :=
| ExtractorException (msg : string)
| Propagated (e : exn).

(** What [run] sends out: the usage message for an argument count, the
    table written by [articles_to_csv], the closing message. *)
Inductive output : Type :=
| Usage (arg_len : Z)
| Csv (filename : string) (records : list (list (string * value)))
| Completed.

Record Outcome : Type := mkOutcome {
  raised : option run_exn;
  outputs : list output;
  extractor_left : option Extractor
}.

(** [choose_extractor(newspaper_name)]. *)
Definition choose_extractor (newspaper_name : string) : option Extractor :=
  if (newspaper_name =? "LaRepubblica")%string then Some Extractor_init else None.

(** [Extractor.articles_to_csv(self, filename)]: the records handed to the
    table writer, one per article, in order. *)
Definition articles_to_csv (filename : string) (self : Extractor) : output :=
  Csv filename (map as_dict (articles self)).

(** [sys.argv[i]], read after the argument count is checked. *)
Definition argv_at (argv : list string) (i : nat) : string := nth i argv EmptyString.

Section Run.

Variable get_page_html : string -> option string.
Variable BeautifulSoup : string -> node.

(** The builtin [int] on a command-line argument. *)
Variable int : string -> result Z.

(** The numbers [run] reads, in the order it reads them, and the call of
    [extract_articles] they give. *)
Definition run_arguments (argv : list string)
  : result (Z * Z * Z * (option Z * option Z * option Z * option Z)) :=
  let arg_len := Z.of_nat (List.length argv) in
  rbind (int (argv_at argv 3)) (fun day =>
  rbind (int (argv_at argv 4)) (fun month =>
  rbind (int (argv_at argv 5)) (fun year =>
    if arg_len =? 6 then Return (day, month, year, (None, None, None, None))
    else if arg_len =? 7 then
      rbind (int (argv_at argv 6)) (fun page_num =>
        Return (day, month, year, (Some page_num, None, None, None)))
    else
      rbind (int (argv_at argv 6)) (fun day_end =>
      rbind (int (argv_at argv 7)) (fun month_end =>
      rbind (int (argv_at argv 8)) (fun year_end =>
        Return (day, month, year,
                (None, Some day_end, Some month_end, Some year_end)))))))).

(** [run()], on the arguments [sys.argv]. *)
Definition run (argv : list string) : Outcome :=
  let arg_len := Z.of_nat (List.length argv) in
  if negb ((arg_len =? 6) || (arg_len =? 7) || (arg_len =? 9)) then
    mkOutcome None [Usage arg_len] None
  else
    let filename := argv_at argv 1 in
    let newspaper := argv_at argv 2 in
    match choose_extractor newspaper with
    | None =>
        mkOutcome
          (Some (ExtractorException
                   "ExtractorException: Selected newspaperis not supported (yet!)"))
          [] None
    | Some extractor =>
        match run_arguments argv with
        | Raise e => mkOutcome (Some (Propagated e)) [] (Some extractor)
        | Return (day, month, year, (page_num, day_end, month_end, year_end)) =>
            match extract_articles get_page_html BeautifulSoup day month year
                                   page_num day_end month_end year_end extractor with
            | (Return _, extractor') =>
                mkOutcome None [articles_to_csv filename extractor'; Completed]
                          (Some extractor')
            | (Raise e, extractor') =>
                mkOutcome (Some (Propagated e)) [] (Some extractor')
            end
        end
    end.

End Run.

(** ** Reading journals and tokens *)

(** The address of the catalogue placeholder, as the exclusion rules
    spell it. *)
Definition catalogue : string :=
  "https://quotidiano.repubblica.it/edicola/catalogogenerale.jsp?ref=search".

(** The calls of [extract_articles] a journal records, in order. *)
Definition calls_of (j : list event) : list call :=
  flat_map (fun e => match e with
                     | Enter c => [c]
                     | _ => []
                     end) j.

(** Every character of the string satisfies [p]. *)
Fixpoint all_chars (p : ascii -> bool) (s : string) : bool :=
  match s with
  | EmptyString => true
  | String c r => p c && all_chars p r
  end.

(** The extractor [s'] holds what [s] held, and possibly more after it. *)
Definition extends (s s' : Extractor) : Prop :=
  exists new evs,
    articles s' = articles s ++ new /\ journal s' = journal s ++ evs.

(** ** A page with every marker *)

Module Sample2.

Definition page_full_html : string :=
  "<article><h1>Titolo</h1><p itemprop=description>Sommario</p>" +++
  "<em itemprop=author>Mario Rossi</em>" +++
  "<time itemprop=datePublished>2015-03-04</time>" +++
  "<div class=detail_body>Corpo</div><a class=sport-logo>Sport</a>" +++
  "<div class=detail_tag><a>calcio</a><a>serie a</a></div>" +++
  "<dl class=character><dd>Totti</dd></dl>" +++
  "<figure><img src=http://img.repubblica.it/1.jpg></figure></article>".

Definition page_full : node :=
  Sample.document
    [ Tag "article" []
        [ Tag "h1" [] [NavigableString "Titolo"];
          Tag "p" [("itemprop", "description")] [NavigableString "Sommario"];
          Tag "em" [("itemprop", "author")] [NavigableString "Mario Rossi"];
          Tag "time" [("itemprop", "datePublished")] [NavigableString "2015-03-04"];
          Tag "div" [("class", "detail_body")] [NavigableString "Corpo"];
          Tag "a" [("class", "sport-logo")] [NavigableString "Sport"];
          Tag "div" [("class", "detail_tag")]
              [ Tag "a" [] [NavigableString "calcio"];
                Tag "a" [] [NavigableString "serie a"] ];
          Tag "dl" [("class", "character")] [Tag "dd" [] [NavigableString "Totti"]];
          Tag "figure" [] [Tag "img" [("src", "http://img.repubblica.it/1.jpg")] []] ] ].

(** A page with both logos, the sport logo first. *)
Definition page_logos_html : string :=
  "<article><h1>Derby</h1><time itemprop=datePublished>2015-03-04</time>" +++
  "<a class=sport-logo>Sport</a><a class=section-logo>Cronaca</a>" +++
  "<div class=detail_body>Corpo</div></article>".

Definition page_logos : node :=
  Sample.document
    [ Tag "article" []
        [ Tag "h1" [] [NavigableString "Derby"];
          Tag "time" [("itemprop", "datePublished")] [NavigableString "2015-03-04"];
          Tag "a" [("class", "sport-logo")] [NavigableString "Sport"];
          Tag "a" [("class", "section-logo")] [NavigableString "Cronaca"];
          Tag "div" [("class", "detail_body")] [NavigableString "Corpo"] ] ].

(** A parser that knows these two pages only. *)
Definition BeautifulSoup (data : string) : node :=
  if (data =? page_full_html)%string then page_full
  else if (data =? page_logos_html)%string then page_logos
  else Sample.document [].

Definition article : Article :=
  Sample.blank "http://www.repubblica.it/sport/a9/?" page_full_html.

(** A request primitive: the first listing page of 4 March 2015 answers
    with status 200, the one of 5 March with status 404, and any other
    request raises. *)
Definition request (url : string) : result (Z * string) :=
  if (url =? archive_url 2015 3 4 1)%string then Return (200, Sample.listing_4_html)
  else if (url =? archive_url 2015 3 5 1)%string then Return (404, "Not Found")
  else Raise ValueError.

(** The builtin [int] on the decimal arguments of the examples. *)
Definition int (s : string) : result Z :=
  if all_chars is_digit s && negb (s =? EmptyString)%string
  then Return (py_int s) else Raise ValueError.

End Sample2.

(* ================================================================== *)
(** * Properties *)

(** ** Strings *)

Lemma take_str_app (a b : string) : take_str (String.length a) (a +++ b) = a.
Proof.
  induction a as [|c a IH]; simpl.
  - destruct b; reflexivity.
  - now rewrite IH.
Qed.

Lemma str_length_app (a b : string) :
  String.length (a +++ b) = (String.length a + String.length b)%nat.
Proof. induction a as [|c a IH]; simpl; [reflexivity | now rewrite IH]. Qed.

Lemma take_str_0 (s : string) : take_str 0 s = EmptyString.
Proof. destruct s; reflexivity. Qed.

Lemma slice_drop_last_app (k : nat) (base suffix : string) :
  String.length suffix = k -> slice_drop_last k (base +++ suffix) = base.
Proof.
  intros Hk. unfold slice_drop_last.
  rewrite str_length_app, Hk, Nat.add_sub. apply take_str_app.
Qed.

Lemma slice_drop_last_short (k : nat) (s : string) :
  (String.length s <= k)%nat -> slice_drop_last k s = EmptyString.
Proof.
  intros H. unfold slice_drop_last.
  replace (String.length s - k)%nat with 0%nat by lia. apply take_str_0.
Qed.

Lemma eqb_empty (s : string) : (s =? EmptyString)%string = false <-> s <> EmptyString.
Proof.
  destruct (String.eqb_spec s EmptyString) as [->|H]; split; congruence.
Qed.

(** ** Article construction *)

Lemma Article_init_ok (s : string) :
  s <> EmptyString -> Article_init (Some s) = Return (defaults s).
Proof.
  intros H. unfold Article_init. apply eqb_empty in H. now rewrite H.
Qed.

(** C10. [Article.__init__] raises [ArticleException] exactly when the url
    is [None] or the empty string; on any other string it returns the
    object with that url and every other attribute at its empty default.
    The initializer of [LaRepubblicaArticle] raises in the same cases. *)
Theorem C10_article_init_raises_iff_invalid :
  (forall u : option string,
      (exists e, Article_init u = Raise e) <-> (u = None \/ u = Some EmptyString)) /\
  (forall u : option string,
      u = None \/ u = Some EmptyString ->
      Article_init u = Raise (ArticleException "ArticleException: Invalid URL")) /\
  (forall s : string,
      s <> EmptyString ->
      Article_init (Some s) = Return (defaults s)) /\
  (forall u : option string,
      (exists e, LaRepubblicaArticle_init u = Raise e) <->
      (u = None \/ u = Some EmptyString)).
Proof.
  assert (Hbase : forall u : option string,
             (exists e, Article_init u = Raise e) <-> (u = None \/ u = Some EmptyString)).
  { intros [s|]; split.
    - intros [e He]. destruct (String.eqb_spec s EmptyString) as [->|Hne].
      + now right.
      + rewrite (Article_init_ok _ Hne) in He. discriminate.
    - intros [H|H]; [discriminate|]. injection H as ->. simpl. eauto.
    - now left.
    - intros _. simpl. eauto. }
  split; [exact Hbase|]. split; [|split].
  - intros u [->| ->]; reflexivity.
  - intros s Hs. now apply Article_init_ok.
  - intros u. rewrite <- Hbase. unfold LaRepubblicaArticle_init.
    destruct u as [s|]; simpl.
    + destruct (s =? EmptyString)%string; simpl; split; intros [e He];
        try discriminate; eauto.
    + split; eauto.
Qed.

Lemma C10_witness :
  Article_init (Some "http://www.repubblica.it/politica/a1/?ref=search") =
  Return (defaults "http://www.repubblica.it/politica/a1/?ref=search").
Proof.
  apply (proj1 (proj2 (proj2 C10_article_init_raises_iff_invalid))).
  discriminate.
Defined.

(** What [LaRepubblicaArticle.__init__] stores for an address that is not
    empty: the address without its last ten characters, whatever they
    are.  An address that ends in a ten-character suffix is stored as what
    precedes the suffix, and one of at most ten characters as the empty
    string. *)
Lemma stored_url_drops_last_ten (s : string) :
  s <> EmptyString ->
  exists a, LaRepubblicaArticle_init (Some s) = Return a /\
            a = set_url (slice_drop_last 10 s) (defaults s) /\
            (forall base suffix, s = base +++ suffix ->
                                 String.length suffix = 10%nat -> url a = base) /\
            ((String.length s <= 10)%nat -> url a = EmptyString).
Proof.
  intros Hs. unfold LaRepubblicaArticle_init.
  rewrite (Article_init_ok _ Hs). simpl.
  eexists. split; [reflexivity|]. split; [reflexivity|]. simpl. split.
  - intros base suffix -> Hlen. now apply slice_drop_last_app.
  - apply slice_drop_last_short.
Qed.

Lemma stored_url_drops_last_ten_witness :
  exists a, LaRepubblicaArticle_init
              (Some "http://www.repubblica.it/politica/a1/?ref=search") = Return a /\
            url a = "http://www.repubblica.it/politica/a1/?".
Proof.
  destruct (@stored_url_drops_last_ten
              "http://www.repubblica.it/politica/a1/?ref=search")
    as [a [Ha [_ [Hsuffix _]]]]; [discriminate|].
  exists a. split; [exact Ha|].
  apply (Hsuffix "http://www.repubblica.it/politica/a1/?" "ref=search"); reflexivity.
Defined.

(** C9 (the code departs from its own description).  The initializer is
    documented to filter out the search query after the url, and the base
    initializer refuses an empty url.  On the address of an article that
    carries no query, the stored url is not the address: its last ten
    characters, [index.html], are cut.  On the ten-character address
    [index.html], which the base initializer accepts, the stored url is
    the empty string. *)
Lemma C9_plain_address_is_truncated :
  carries_query "http://www.repubblica.it/politica/a1/index.html" = false /\
  LaRepubblicaArticle_init (Some "http://www.repubblica.it/politica/a1/index.html") =
  Return (set_url "http://www.repubblica.it/politica/a1/"
                  (defaults "http://www.repubblica.it/politica/a1/index.html")) /\
  url (set_url "http://www.repubblica.it/politica/a1/"
               (defaults "http://www.repubblica.it/politica/a1/index.html")) <>
  "http://www.repubblica.it/politica/a1/index.html" /\
  carries_query "index.html" = false /\
  option_map url
    (match LaRepubblicaArticle_init (Some "index.html") with
     | Return a => Some a
     | Raise _ => None
     end) = Some EmptyString.
Proof. repeat split; discriminate. Qed.

(** ** The monad *)

Lemma bind_Return {S A B} (c : M S A) (k : A -> M S B) (s s' : S) (y : B) :
  bind c k s = (Return y, s') ->
  exists x s1, c s = (Return x, s1) /\ k x s1 = (Return y, s').
Proof.
  unfold bind. destruct (c s) as [[x|e] s1]; intros H.
  - now exists x, s1.
  - discriminate.
Qed.

Lemma lift_Return {S A} (r : result A) (s s' : S) (x : A) :
  lift r s = (Return x, s') -> r = Return x /\ s' = s.
Proof. unfold lift. intros H. injection H as -> ->. now split. Qed.

(** ** Updates *)

Lemma apply_updates_app (us vs : list update) (a : Article) :
  apply_updates (us ++ vs) a = apply_updates vs (apply_updates us a).
Proof. apply fold_left_app. Qed.

Lemma apply_update_other (s : slot) (u : update) (a : Article) :
  target u <> s -> slot_get s (apply_update u a) = slot_get s a.
Proof.
  destruct u as [t v | v | v]; [destruct t|..]; destruct s; simpl;
    intros H; try reflexivity; congruence.
Qed.

Lemma apply_update_url (u : update) (a : Article) :
  url (apply_update u a) = url a /\ html (apply_update u a) = html a.
Proof. destruct u as [t v | v | v]; [destruct t|..]; now split. Qed.

Lemma apply_updates_url (us : list update) (a : Article) :
  url (apply_updates us a) = url a /\ html (apply_updates us a) = html a.
Proof.
  revert a. induction us as [|u us IH]; intros a; simpl; [now split|].
  destruct (IH (apply_update u a)) as [-> ->]. apply apply_update_url.
Qed.

Lemma apply_updates_other (s : slot) (us : list update) (a : Article) :
  Forall (fun u => target u <> s) us ->
  slot_get s (apply_updates us a) = slot_get s a.
Proof.
  intros H. revert a. induction H as [|u us Hu _ IH]; intros a; simpl.
  - reflexivity.
  - unfold apply_updates in IH. rewrite IH. now apply apply_update_other.
Qed.

(** A scalar attribute after a list of updates is either what it was or a
    value the updates fix. *)
Lemma apply_updates_scalar (s : slot) (us : list update) :
  scalar s ->
  (forall a, slot_get s (apply_updates us a) = slot_get s a) \/
  (exists v, forall a, slot_get s (apply_updates us a) = v).
Proof.
  intros [Hk Hc]. induction us as [|u us IH]; [now left|].
  destruct IH as [IH | [v IH]].
  - assert (Hu : (forall a, slot_get s (apply_update u a) = slot_get s a) \/
                 (exists v, forall a, slot_get s (apply_update u a) = v)).
    { destruct u as [t v | v | v]; [destruct t|..]; destruct s;
        try congruence; simpl; (now left) || (right; eexists; reflexivity). }
    destruct Hu as [Hu | [v Hu]].
    + left. intros a. simpl. unfold apply_updates in IH. now rewrite IH.
    + right. exists v. intros a. simpl. unfold apply_updates in IH. now rewrite IH.
  - right. exists v. intros a. simpl. apply IH.
Qed.

Lemma apply_updates_twice (s : slot) (us : list update) (a : Article) :
  scalar s ->
  slot_get s (apply_updates us (apply_updates us a)) = slot_get s (apply_updates us a).
Proof.
  intros Hs. destruct (@apply_updates_scalar s us Hs) as [H | [v H]].
  - apply H.
  - now rewrite !H.
Qed.

Lemma apply_updates_appended (s : slot) (us : list update) (a : Article) :
  s = SKeywords \/ s = SCharacters ->
  slot_get s (apply_updates us a) = slot_get s a ++ appended s us.
Proof.
  intros Hs. revert a. induction us as [|u us IH]; intros a.
  - simpl. now rewrite app_nil_r.
  - change (apply_updates (u :: us) a) with (apply_updates us (apply_update u a)).
    rewrite IH. unfold appended. simpl flat_map.
    destruct Hs as [-> | ->]; destruct u as [t v | v | v]; try destruct t; simpl;
      try reflexivity; now rewrite <- app_assoc.
Qed.

(** ** Computations that act by updates *)

Lemma acts_weaken {A} (U V : update -> Prop) (c : M Article A) :
  (forall u, U u -> V u) -> acts U c -> acts V c.
Proof.
  intros HUV (r & us & HU & Hc). exists r, us. split; [|exact Hc].
  eapply Forall_impl; eauto.
Qed.

Lemma acts_ret {A} (U : update -> Prop) (x : A) : acts U (ret x).
Proof. exists (Return x), []. now split. Qed.

Lemma acts_lift {A} (U : update -> Prop) (r : result A) : acts U (lift r).
Proof. exists r, []. now split. Qed.

Lemma acts_update (U : update -> Prop) (u : update) :
  U u -> acts U (modify (apply_update u)).
Proof. intros Hu. exists (Return tt), [u]. split; [now constructor | reflexivity]. Qed.

Lemma acts_bind {A B} (U : update -> Prop) (c : M Article A) (k : A -> M Article B) :
  acts U c -> (forall x, acts U (k x)) -> acts U (bind c k).
Proof.
  intros (r & us & HU & Hc) Hk. destruct r as [x|e].
  - destruct (Hk x) as (r' & vs & HV & Hkx).
    exists r', (us ++ vs). split; [now apply Forall_app|].
    intros a. unfold bind. now rewrite Hc, Hkx, apply_updates_app.
  - exists (Raise e), us. split; [exact HU|].
    intros a. unfold bind. now rewrite Hc.
Qed.

Lemma acts_for_each {A} (U : update -> Prop) (l : list A) (body : A -> M Article unit) :
  (forall x, acts U (body x)) -> acts U (for_each l body).
Proof.
  intros Hb. induction l as [|x l IH]; simpl.
  - apply acts_ret.
  - apply acts_bind; [apply Hb | intros _; exact IH].
Qed.

(** One step of a proof that a block acts by updates. *)
Ltac acts_step :=
  match goal with
  | |- acts _ (ret _) => apply acts_ret
  | |- acts _ (lift _) => apply acts_lift
  | |- acts _ (bind _ _) => apply acts_bind; [|intros ?]
  | |- acts _ (for_each _ _) => apply acts_for_each; intros ?
  | |- acts _ (modify (set_title ?v)) => apply (acts_update _ (Assign STitle v))
  | |- acts _ (modify (set_description ?v)) => apply (acts_update _ (Assign SDescription v))
  | |- acts _ (modify (set_authors ?v)) => apply (acts_update _ (Assign SAuthors v))
  | |- acts _ (modify (set_publish_date ?v)) => apply (acts_update _ (Assign SPublishDate v))
  | |- acts _ (modify (set_text ?v)) => apply (acts_update _ (Assign SText v))
  | |- acts _ (modify (set_section ?v)) => apply (acts_update _ (Assign SSection v))
  | |- acts _ (modify (set_subsection ?v)) => apply (acts_update _ (Assign SSubsection v))
  | |- acts _ (modify (set_image_url ?v)) => apply (acts_update _ (Assign SImageUrl v))
  | |- acts _ (modify (keywords_append ?v)) => apply (acts_update _ (AppendKeyword v))
  | |- acts _ (modify (characters_append ?v)) => apply (acts_update _ (AppendCharacter v))
  | |- acts _ (match ?x with _ => _ end) => destruct x
  | |- target _ = _ => reflexivity
  end.

Ltac acts_auto := repeat acts_step.

Lemma parse_title_acts (soup : node) :
  acts (fun u => target u = STitle) (parse_title soup).
Proof. unfold parse_title. acts_auto. Qed.

Lemma parse_description_acts (soup : node) (preview : option node) :
  acts (fun u => target u = SDescription) (parse_description soup preview).
Proof. unfold parse_description. acts_auto. Qed.

Lemma parse_authors_acts (soup : node) (preview : option node) :
  acts (fun u => target u = SAuthors) (parse_authors soup preview).
Proof. unfold parse_authors. acts_auto. Qed.

Lemma parse_date_acts (soup : node) (preview : option node) :
  acts (fun u => target u = SPublishDate) (parse_date soup preview).
Proof. unfold parse_date. acts_auto. Qed.

Lemma parse_text_acts (soup : node) :
  acts (fun u => target u = SText) (parse_text soup).
Proof. unfold parse_text. acts_auto. Qed.

Lemma parse_section_acts (soup : node) :
  acts (fun u => target u = SSection) (parse_section soup).
Proof. unfold parse_section. acts_auto. Qed.

Lemma parse_subsection_acts (preview : option node) :
  acts (fun u => target u = SSubsection) (parse_subsection preview).
Proof. unfold parse_subsection. acts_auto. Qed.

Lemma parse_keywords_acts (soup : node) :
  acts (fun u => target u = SKeywords) (parse_keywords soup).
Proof. unfold parse_keywords. acts_auto. Qed.

Lemma parse_characters_acts (soup : node) :
  acts (fun u => target u = SCharacters) (parse_characters soup).
Proof. unfold parse_characters. acts_auto. Qed.

Lemma parse_image_acts (soup : node) :
  acts (fun u => target u = SImageUrl) (parse_image soup).
Proof. unfold parse_image. acts_auto. Qed.

Lemma parse_steps_acts (soup : node) (preview : option node) :
  acts (fun _ => True) (parse_steps soup preview).
Proof.
  unfold parse_steps.
  repeat (apply acts_bind; [|intros _]);
    eapply acts_weaken;
    eauto using parse_title_acts, parse_description_acts, parse_authors_acts,
      parse_date_acts, parse_text_acts, parse_section_acts, parse_subsection_acts,
      parse_keywords_acts, parse_characters_acts, parse_image_acts.
Qed.

(** A step leaves alone every slot it does not target, and the url and
    content of the article. *)
Lemma step_frame {A} (s : slot) (U : update -> Prop) (c : M Article A)
      (a a' : Article) (r : result A) :
  acts U c -> (forall u, U u -> target u <> s) ->
  c a = (r, a') -> slot_get s a' = slot_get s a.
Proof.
  intros (r0 & us & HU & Hc) Hs H. rewrite Hc in H. injection H as _ <-.
  apply apply_updates_other. eapply Forall_impl; eauto.
Qed.

Lemma step_url {A} (U : update -> Prop) (c : M Article A)
      (a a' : Article) (r : result A) :
  acts U c -> c a = (r, a') -> url a' = url a /\ html a' = html a.
Proof.
  intros (r0 & us & _ & Hc) H. rewrite Hc in H. injection H as _ <-.
  apply apply_updates_url.
Qed.

(** ** Field extraction *)

Section ParseProperties.

Variable BeautifulSoup : string -> node.

(** On articles holding the same content, [parse_fields] has one outcome
    and performs one list of updates. *)
Lemma parse_fields_updates (preview : option node) (h : string) :
  exists r us, forall a,
      html a = h -> parse_fields BeautifulSoup preview a = (r, apply_updates us a).
Proof.
  destruct (parse_steps_acts (BeautifulSoup h) preview) as (r & us & _ & H).
  exists r, us. intros a <-. apply H.
Qed.

(** The same for [parse], whose exception names the title and url the
    updates leave. *)
Lemma parse_updates (preview : option node) (h : string) :
  exists (r : result unit) us, forall a,
      html a = h ->
      parse BeautifulSoup preview a =
      (match r with
       | Return _ => Return tt
       | Raise _ => Raise (ArticleException (parse_error_msg (apply_updates us a)))
       end, apply_updates us a).
Proof.
  destruct (parse_fields_updates preview h) as (r & us & H).
  exists r, us. intros a Ha. unfold parse. rewrite (H a Ha). now destruct r.
Qed.

Lemma slot_get_title (a b : Article) :
  slot_get STitle a = slot_get STitle b -> title a = title b.
Proof. simpl. congruence. Qed.

Ltac scalar_slot := split; discriminate.

(** C2 (as the code has it). Running [parse] a second time on the same
    article object, with the same content and preview, ends the same way
    and leaves every scalar attribute as the first run left it; the
    keywords and characters are appended to again: after the second run
    each sequence is what the first run left followed by the same entries
    the first run added. *)
Theorem C2_parse_twice_appends_again (preview : option node) (a : Article) :
  let once := parse BeautifulSoup preview a in
  let twice := parse BeautifulSoup preview (snd once) in
  fst twice = fst once /\
  url (snd twice) = url (snd once) /\
  title (snd twice) = title (snd once) /\
  description (snd twice) = description (snd once) /\
  authors (snd twice) = authors (snd once) /\
  publish_date (snd twice) = publish_date (snd once) /\
  text (snd twice) = text (snd once) /\
  section (snd twice) = section (snd once) /\
  subsection (snd twice) = subsection (snd once) /\
  image_url (snd twice) = image_url (snd once) /\
  html (snd twice) = html (snd once) /\
  exists added_keywords added_characters,
    keywords (snd once) = keywords a ++ added_keywords /\
    keywords (snd twice) = keywords (snd once) ++ added_keywords /\
    characters (snd once) = characters a ++ added_characters /\
    characters (snd twice) = characters (snd once) ++ added_characters.
Proof.
  destruct (parse_updates preview (html a)) as (r & us & H).
  pose proof (H a eq_refl) as E1.
  pose proof (H (apply_updates us a) (proj2 (apply_updates_url us a))) as E2.
  assert (Hs : forall s, scalar s ->
                         slot_get s (apply_updates us (apply_updates us a))
                         = slot_get s (apply_updates us a))
    by (intros s Hs; now apply apply_updates_twice).
  assert (Hu : url (apply_updates us (apply_updates us a)) = url (apply_updates us a))
    by (rewrite !(proj1 (apply_updates_url _ _)); reflexivity).
  assert (Hh : html (apply_updates us (apply_updates us a)) = html (apply_updates us a))
    by (rewrite !(proj2 (apply_updates_url _ _)); reflexivity).
  assert (Ht : title (apply_updates us (apply_updates us a)) = title (apply_updates us a))
    by (apply slot_get_title, Hs; scalar_slot).
  cbv zeta. rewrite E1. cbn [fst snd]. rewrite E2. cbn [fst snd].
  split.
  { destruct r; [reflexivity|]. unfold parse_error_msg. now rewrite Ht, Hu. }
  split; [exact Hu|]. split; [exact Ht|].
  repeat (split; [first [ exact Hh
                        | injection (Hs SDescription ltac:(scalar_slot)); tauto
                        | injection (Hs SAuthors ltac:(scalar_slot)); tauto
                        | injection (Hs SPublishDate ltac:(scalar_slot)); tauto
                        | injection (Hs SText ltac:(scalar_slot)); tauto
                        | injection (Hs SSection ltac:(scalar_slot)); tauto
                        | injection (Hs SSubsection ltac:(scalar_slot)); tauto
                        | injection (Hs SImageUrl ltac:(scalar_slot)); tauto ]|]).
  exists (appended SKeywords us), (appended SCharacters us).
  repeat split.
  - apply (apply_updates_appended SKeywords us a (or_introl eq_refl)).
  - apply (apply_updates_appended SKeywords us (apply_updates us a) (or_introl eq_refl)).
  - apply (apply_updates_appended SCharacters us a (or_intror eq_refl)).
  - apply (apply_updates_appended SCharacters us (apply_updates us a) (or_intror eq_refl)).
Qed.

Lemma parse_Return (preview : option node) (a a' : Article) :
  parse BeautifulSoup preview a = (Return tt, a') ->
  parse_steps (BeautifulSoup (html a)) preview a = (Return tt, a').
Proof.
  unfold parse, parse_fields.
  destruct (parse_steps (BeautifulSoup (html a)) preview a) as [[[]|e] s]; intros H;
    now inversion H.
Qed.

(** A successful run went through the ten blocks in order. *)
Lemma parse_steps_Return (soup : node) (preview : option node) (a a' : Article) :
  parse_steps soup preview a = (Return tt, a') ->
  exists a1 a2 a3 a4 a5 a6 a7 a8 a9,
    parse_title soup a = (Return tt, a1) /\
    parse_description soup preview a1 = (Return tt, a2) /\
    parse_authors soup preview a2 = (Return tt, a3) /\
    parse_date soup preview a3 = (Return tt, a4) /\
    parse_text soup a4 = (Return tt, a5) /\
    parse_section soup a5 = (Return tt, a6) /\
    parse_subsection preview a6 = (Return tt, a7) /\
    parse_keywords soup a7 = (Return tt, a8) /\
    parse_characters soup a8 = (Return tt, a9) /\
    parse_image soup a9 = (Return tt, a').
Proof.
  unfold parse_steps. intros H.
  repeat (apply bind_Return in H; destruct H as ([] & ? & ? & H)).
  do 9 eexists. repeat split; eassumption.
Qed.

(** [frame s H F]: from a run [H] of a block that does not target [s],
    the fact [F] that the slot is left as it was. *)
Ltac frame s H F :=
  pose proof H as F;
  eapply (@step_frame _ s) in F;
  [ | solve [ apply parse_title_acts | apply parse_description_acts
            | apply parse_authors_acts | apply parse_date_acts
            | apply parse_text_acts | apply parse_section_acts
            | apply parse_subsection_acts | apply parse_keywords_acts
            | apply parse_characters_acts | apply parse_image_acts ]
    | simpl; intros ? ->; discriminate ].

Lemma parse_text_Return (soup : node) (a a' : Article) :
  parse_text soup a = (Return tt, a') ->
  exists body, article_body soup = Return body /\
               text a' = match body with
                         | Some b => get_text b
                         | None => text a
                         end.
Proof.
  unfold parse_text. intros H.
  apply bind_Return in H. destruct H as (body & s1 & Hl & H).
  apply lift_Return in Hl. destruct Hl as [Hb ->].
  exists body. split; [exact Hb|].
  destruct body; unfold modify, ret in H; injection H as <-; reflexivity.
Qed.

(** The body text a successful run leaves is the one [parse_text] wrote. *)
Lemma parse_text_final (preview : option node) (a a' : Article) :
  parse BeautifulSoup preview a = (Return tt, a') ->
  exists body, article_body (BeautifulSoup (html a)) = Return body /\
               text a' = match body with
                         | Some b => get_text b
                         | None => text a
                         end.
Proof.
  intros H. apply parse_Return, parse_steps_Return in H.
  destruct H as (a1 & a2 & a3 & a4 & a5 & a6 & a7 & a8 & a9 &
                 H1 & H2 & H3 & H4 & H5 & H6 & H7 & H8 & H9 & H10).
  frame SText H1 F1. frame SText H2 F2. frame SText H3 F3. frame SText H4 F4.
  frame SText H6 F6. frame SText H7 F7. frame SText H8 F8. frame SText H9 F9.
  frame SText H10 F10.
  simpl in *.
  apply parse_text_Return in H5. destruct H5 as (body & Hb & Ht).
  exists body. split; [exact Hb|].
  assert (E : text a' = text a5) by congruence.
  assert (E0 : text a4 = text a) by congruence.
  rewrite E, Ht. destruct body; congruence.
Qed.

(** C6 (as the code has it). After a successful [parse] the body text is
    the text of the first content container that is present, in the order
    article body marker, detail body container, nested content paragraph,
    whether or not that text is empty; a later container is consulted only
    when the earlier ones are absent.  With the first two absent the
    nested containers exist (the run would have failed otherwise) and the
    text stays as it was when they hold no paragraph. *)
Theorem C6_body_from_first_present_container
        (preview : option node) (a a' : Article) :
  parse BeautifulSoup preview a = (Return tt, a') ->
  let soup := BeautifulSoup (html a) in
  match find "span" (Some ("itemprop", "articleBody")) soup with
  | Some b => text a' = get_text b
  | None =>
      match find "div" (Some ("class", "detail_body")) soup with
      | Some b => text a' = get_text b
      | None =>
          exists body_text content,
            find "div" (Some ("class", "body-text")) soup = Some body_text /\
            find "div" (Some ("class", "content")) body_text = Some content /\
            text a' = match find "p" None content with
                      | Some p => get_text p
                      | None => text a
                      end
      end
  end.
Proof.
  intros H. apply parse_text_final in H. destruct H as (body & Hb & Ht).
  cbv zeta. unfold article_body in Hb.
  destruct (find "span" (Some ("itemprop", "articleBody")) (BeautifulSoup (html a))).
  { injection Hb as <-. exact Ht. }
  destruct (find "div" (Some ("class", "detail_body")) (BeautifulSoup (html a))).
  { injection Hb as <-. exact Ht. }
  destruct (find "div" (Some ("class", "body-text")) (BeautifulSoup (html a)))
    as [bt|]; [|discriminate].
  simpl in Hb.
  destruct (find "div" (Some ("class", "content")) bt) as [c|] eqn:Hc; [|discriminate].
  simpl in Hb. injection Hb as <-.
  exists bt, c. split; [reflexivity|]. split; [exact Hc | exact Ht].
Qed.

(** A page without the description metadata: no block of [parse] writes
    the description. *)
Lemma parse_steps_without_description (soup : node) (preview : option node) :
  find "p" (Some ("itemprop", "description")) soup = None ->
  acts (fun u => target u <> SDescription) (parse_steps soup preview).
Proof.
  intros Hn. unfold parse_steps.
  repeat (apply acts_bind; [|intros _]).
  2: { unfold parse_description. rewrite Hn. destruct preview; apply acts_ret. }
  all: eapply acts_weaken;
    [| first [ apply parse_title_acts | apply parse_authors_acts
             | apply parse_date_acts | apply parse_text_acts
             | apply parse_section_acts | apply parse_subsection_acts
             | apply parse_keywords_acts | apply parse_characters_acts
             | apply parse_image_acts ] ];
    simpl; intros u ->; discriminate.
Qed.

(** Whatever the preview holds, [parse] leaves the description of such a
    page as it was, whether it returns or raises. *)
Lemma parse_description_not_backfilled
      (preview : option node) (a a' : Article) (r : result unit) :
  find "p" (Some ("itemprop", "description")) (BeautifulSoup (html a)) = None ->
  parse BeautifulSoup preview a = (r, a') ->
  description a' = description a.
Proof.
  intros Hn H.
  assert (E : snd (parse_fields BeautifulSoup preview a) = a').
  { unfold parse in H.
    destruct (parse_fields BeautifulSoup preview a) as [[[]|e] s];
      now inversion H. }
  unfold parse_fields in E.
  destruct (parse_steps (BeautifulSoup (html a)) preview a) as [r0 s] eqn:Hr.
  simpl in E. subst s.
  pose proof (@step_frame _ SDescription _ _ _ _ _
                          (parse_steps_without_description _ preview Hn)
                          (fun u Hu => Hu) Hr) as F.
  simpl in F. congruence.
Qed.

(** The title a successful run leaves is the text of the heading; the url
    and the content are as before. *)
Lemma parse_title_final (preview : option node) (a a' : Article) :
  parse BeautifulSoup preview a = (Return tt, a') ->
  url a' = url a /\ html a' = html a /\
  exists article h1,
    find "article" None (BeautifulSoup (html a)) = Some article /\
    find "h1" None article = Some h1 /\
    title a' = get_text h1.
Proof.
  intros H. apply parse_Return in H.
  destruct (@step_url _ _ _ _ _ _ (parse_steps_acts _ _) H) as [Hu Hh].
  apply parse_steps_Return in H.
  destruct H as (a1 & a2 & a3 & a4 & a5 & a6 & a7 & a8 & a9 &
                 H1 & H2 & H3 & H4 & H5 & H6 & H7 & H8 & H9 & H10).
  frame STitle H2 F2. frame STitle H3 F3. frame STitle H4 F4. frame STitle H5 F5.
  frame STitle H6 F6. frame STitle H7 F7. frame STitle H8 F8. frame STitle H9 F9.
  frame STitle H10 F10.
  simpl in *.
  split; [exact Hu|]. split; [exact Hh|].
  unfold parse_title in H1.
  apply bind_Return in H1. destruct H1 as (article & s1 & Hl1 & H1).
  apply lift_Return in Hl1. destruct Hl1 as [Ha ->].
  apply bind_Return in H1. destruct H1 as (h1 & s2 & Hl2 & H1).
  apply lift_Return in Hl2. destruct Hl2 as [Hh1 ->].
  unfold modify in H1. injection H1 as <-.
  exists article, h1.
  destruct (find "article" None (BeautifulSoup (html a))); [|discriminate].
  injection Ha as ->.
  destruct (find "h1" None article); [|discriminate].
  injection Hh1 as ->.
  repeat split. simpl in *. congruence.
Qed.

End ParseProperties.

(** ** Field extraction on the sample pages *)

(** C2, the claim as stated fails: on a page with two keywords the second
    run of [parse] on the same object leaves four keywords where the first
    left two. *)
Lemma C2_second_run_doubles_keywords :
  let a := Sample.blank "http://www.repubblica.it/politica/a1/?" Sample.page_one_html in
  let once := parse Sample.BeautifulSoup (Some Sample.entry_one) a in
  let twice := parse Sample.BeautifulSoup (Some Sample.entry_one) (snd once) in
  fst once = Return tt /\
  fst twice = Return tt /\
  keywords (snd once) = ["politica"; "governo"] /\
  keywords (snd twice) = ["politica"; "governo"; "politica"; "governo"] /\
  keywords (snd twice) <> keywords (snd once).
Proof. vm_compute. repeat split. discriminate. Qed.

Lemma C2_witness :
  let a := Sample.blank "http://www.repubblica.it/politica/a1/?" Sample.page_one_html in
  let once := parse Sample.BeautifulSoup (Some Sample.entry_one) a in
  let twice := parse Sample.BeautifulSoup (Some Sample.entry_one) (snd once) in
  title (snd twice) = title (snd once) /\ text (snd twice) = text (snd once).
Proof.
  pose proof (C2_parse_twice_appends_again Sample.BeautifulSoup
                (Some Sample.entry_one)
                (Sample.blank "http://www.repubblica.it/politica/a1/?"
                              Sample.page_one_html)) as H.
  cbv zeta in *. tauto.
Defined.

(** C6, the claim as stated fails: the article body marker is present with
    empty text and the detail body container holds text; the first
    container with non-empty text is the second one, yet the extracted
    text is the empty text of the first. *)
Lemma C6_empty_article_body_is_kept :
  let a := Sample.blank "http://www.repubblica.it/bodies/?" Sample.page_bodies_html in
  let soup := Sample.BeautifulSoup (html a) in
  first_nonempty_body soup = Some "Hello world" /\
  fst (parse Sample.BeautifulSoup None a) = Return tt /\
  text (snd (parse Sample.BeautifulSoup None a)) = EmptyString /\
  Some (text (snd (parse Sample.BeautifulSoup None a))) <> first_nonempty_body soup.
Proof. vm_compute. repeat split. discriminate. Qed.

Lemma C6_witness :
  text (snd (parse Sample.BeautifulSoup (Some Sample.entry_one)
                   (Sample.blank "http://www.repubblica.it/politica/a1/?"
                                 Sample.page_one_html)))
  = "Testo uno".
Proof.
  pose proof (@C6_body_from_first_present_container Sample.BeautifulSoup
                (Some Sample.entry_one)
                (Sample.blank "http://www.repubblica.it/politica/a1/?"
                              Sample.page_one_html)
                (snd (parse Sample.BeautifulSoup (Some Sample.entry_one)
                            (Sample.blank "http://www.repubblica.it/politica/a1/?"
                                          Sample.page_one_html)))
                eq_refl) as H.
  vm_compute in H. vm_compute. exact H.
Defined.

(** C7, the code at the failing input: the page has no description
    metadata, the preview has a first paragraph with text, the run
    succeeds, and the description is still the empty default. *)
Theorem C7_description_stays_empty :
  let a := Sample.blank "http://www.repubblica.it/politica/a1/?" Sample.page_one_html in
  let run := parse Sample.BeautifulSoup (Some Sample.entry_one) a in
  find "p" (Some ("itemprop", "description")) (Sample.BeautifulSoup (html a)) = None /\
  option_map get_text (find "p" None Sample.entry_one)
  = Some "Anteprima del primo articolo" /\
  fst run = Return tt /\
  description (snd run) = EmptyString.
Proof. vm_compute. repeat split. Qed.

(** ** The extractor *)

Lemma page_calls_app (j k : list event) :
  page_calls (j ++ k) = page_calls j ++ page_calls k.
Proof. apply flat_map_app. Qed.

Lemma day_calls_app (j k : list event) :
  day_calls (j ++ k) = day_calls j ++ day_calls k.
Proof. apply flat_map_app. Qed.

Lemma and_then_true (a b : result bool) :
  and_then a b = Return true -> a = Return true /\ b = Return true.
Proof.
  unfold and_then, rbind. destruct a as [[|]|e]; intros H; try discriminate.
  now split.
Qed.

(** An accepted entry has a link with an address. *)
Lemma accepts_href (art_html : node) :
  accepts art_html = Return true ->
  exists href, getitem_opt "href" (find "a" None art_html) = Return href.
Proof.
  unfold accepts. intros H.
  apply and_then_true in H. destruct H as [_ H].
  apply and_then_true in H. destruct H as [_ H].
  apply and_then_true in H. destruct H as [H _].
  destruct (getitem_opt "href" (find "a" None art_html)) as [href|e];
    [now exists href | discriminate].
Qed.

Section ExtractorProperties.

Variable get_page_html : string -> option string.
Variable BeautifulSoup : string -> node.

(** C4 (as the code has it). When the first listing page of the date is
    fetched and holds a pagination container with a paragraph whose text
    has a digit run, [archive_size] returns the number written by the last
    digit run of that paragraph. *)
Theorem C4_archive_size_last_token
        (day month year : Z) (data : string) (pagination p : node)
        (tokens : list string) (tok : string) :
  get_page_html (archive_url year month day 1) = Some data ->
  find "div" (Some ("class", "pagination")) (BeautifulSoup data) = Some pagination ->
  find "p" None pagination = Some p ->
  re_findall_digits (get_text p) = tokens ++ [tok] ->
  archive_size get_page_html BeautifulSoup day month year = Return (py_int tok).
Proof.
  intros Hd Hp Hq Ht. unfold archive_size.
  rewrite Hd. cbv zeta. rewrite Hp. simpl. rewrite Hq. simpl.
  unfold last_item. rewrite Ht, rev_app_distr. reflexivity.
Qed.

(** C5. When the fetch of the first listing page of a date fails,
    [archive_size] returns [-1], which is not zero, without raising; the
    day-mode call then returns normally, enters page mode for no page,
    and leaves the articles as they were. *)
Theorem C5_unavailable_page_count
        (day month year : Z) (self : Extractor) :
  get_page_html (archive_url year month day 1) = None ->
  archive_size get_page_html BeautifulSoup day month year = Return (-1) /\
  -1 <> 0 /\
  exists self',
    extract_articles get_page_html BeautifulSoup day month year None None None None self = (Return tt, self') /\
    articles self' = articles self /\
    page_calls (journal self') = page_calls (journal self) /\
    journal self' = journal self ++ [Enter (DayCall day month year);
                                     Info (extracting_msg day month year)].
Proof.
  intros Hf.
  assert (Hs : archive_size get_page_html BeautifulSoup day month year = Return (-1))
    by (unfold archive_size; now rewrite Hf).
  split; [exact Hs|]. split; [discriminate|].
  eexists. split.
  { unfold extract_articles, extract_day, bind, record, modify, lift.
    rewrite Hs. simpl. reflexivity. }
  simpl. split; [reflexivity|]. split.
  - rewrite <- app_assoc. rewrite page_calls_app. simpl. now rewrite app_nil_r.
  - now rewrite <- app_assoc.
Qed.

Lemma download_Return (a a' : Article) :
  exec (download get_page_html) a = Return a' ->
  exists h, get_page_html (url a) = Some h /\ a' = set_html h a.
Proof.
  unfold exec, download, bind, get, raise, modify, differs_from_empty_str.
  destruct (get_page_html (url a)) as [h|]; [|discriminate].
  intros H. injection H as <-. now exists h.
Qed.

Lemma download_Raise (a : Article) (e : exn) :
  exec (download get_page_html) a = Raise e -> exists msg, e = ArticleException msg.
Proof.
  unfold exec, download, bind, get, raise, modify, differs_from_empty_str.
  destruct (get_page_html (url a)) as [h|]; intros H; inversion H; eauto.
Qed.

Lemma parse_Raise (preview : option node) (a : Article) (e : exn) :
  exec (parse BeautifulSoup preview) a = Raise e -> exists msg, e = ArticleException msg.
Proof.
  unfold exec, parse.
  destruct (parse_fields BeautifulSoup preview a) as [[[]|e2] a2];
    intros H; inversion H; eauto.
Qed.

Lemma init_Raise (href : string) (e : exn) :
  LaRepubblicaArticle_init (Some href) = Raise e -> exists msg, e = ArticleException msg.
Proof.
  unfold LaRepubblicaArticle_init, Article_init.
  destruct (href =? EmptyString)%string; simpl; intros H; inversion H; eauto.
Qed.

Lemma rbind_Raise {A B} (r : result A) (k : A -> result B) (e : exn) :
  rbind r k = Raise e -> r = Raise e \/ exists x, r = Return x /\ k x = Raise e.
Proof. destruct r as [x|e']; simpl; intros H; [right; eauto | left; congruence]. Qed.

Lemma rbind_Return {A B} (r : result A) (k : A -> result B) (y : B) :
  rbind r k = Return y -> exists x, r = Return x /\ k x = Return y.
Proof. destruct r as [x|e']; simpl; intros H; [eauto | discriminate]. Qed.

(** The article built from an accepted entry either is returned or fails
    with an [ArticleException]. *)
Lemma build_article_raises (art_html : node) (e : exn) :
  accepts art_html = Return true ->
  build_article get_page_html BeautifulSoup art_html = Raise e ->
  exists msg, e = ArticleException msg.
Proof.
  intros Ha. destruct (accepts_href _ Ha) as [href Hh].
  unfold build_article. rewrite Hh. simpl. intros H.
  apply rbind_Raise in H. destruct H as [H | (a0 & _ & H)];
    [now apply init_Raise in H|].
  apply rbind_Raise in H. destruct H as [H | (a1 & _ & H)];
    [now apply download_Raise in H|].
  now apply parse_Raise in H.
Qed.

(** The loop of page mode over entries on which the rules evaluate. *)
Lemma page_loop (entries : list node) (self : Extractor) :
  Forall evaluable entries ->
  for_each entries
           (fun art_html =>
              keep <- lift (accepts art_html) ;;
              if keep then try_article get_page_html BeautifulSoup art_html else ret tt) self
  = (Return tt, mkExtractor (articles self ++ extracted get_page_html BeautifulSoup entries)
                            (journal self ++ logged get_page_html BeautifulSoup entries)).
Proof.
  intros H. revert self. induction H as [|e l [keep He] _ IH]; intros self.
  - simpl. unfold ret. rewrite !app_nil_r. now destruct self.
  - simpl. unfold bind at 1 2. unfold lift at 1. rewrite He.
    unfold extracted, logged, accepted. simpl. rewrite He.
    destruct keep.
    + unfold try_article. simpl.
      destruct (build_article get_page_html BeautifulSoup e) as [a|ex] eqn:Hb.
      * unfold modify. rewrite IH. simpl.
        unfold extracted, logged, accepted.
        now rewrite <- app_assoc.
      * destruct (build_article_raises _ _ He Hb) as [msg ->].
        unfold record, modify. rewrite IH. simpl.
        unfold extracted, logged, accepted.
        now rewrite <- app_assoc.
    + unfold ret. rewrite IH. reflexivity.
Qed.

(** The same loop when the rules raise on an entry: the entries before it
    are handled, the exception leaves the loop, and the entries after it
    are not visited. *)
Lemma page_loop_raise (before after : list node) (art_html : node) (ex : exn)
      (self : Extractor) :
  Forall evaluable before ->
  accepts art_html = Raise ex ->
  for_each (before ++ art_html :: after)
           (fun art_html =>
              keep <- lift (accepts art_html) ;;
              if keep then try_article get_page_html BeautifulSoup art_html else ret tt) self
  = (Raise ex, mkExtractor (articles self ++ extracted get_page_html BeautifulSoup before)
                           (journal self ++ logged get_page_html BeautifulSoup before)).
Proof.
  intros H Hex. revert self. induction H as [|e l [keep He] _ IH]; intros self.
  - simpl. unfold bind at 1 2. unfold lift at 1. rewrite Hex.
    unfold extracted, logged. simpl. rewrite !app_nil_r. now destruct self.
  - simpl. unfold bind at 1 2. unfold lift at 1. rewrite He.
    unfold extracted, logged, accepted. simpl. rewrite He.
    destruct keep.
    + unfold try_article. simpl.
      destruct (build_article get_page_html BeautifulSoup e) as [a|ex'] eqn:Hb.
      * unfold modify. rewrite IH. simpl.
        unfold extracted, logged, accepted.
        now rewrite <- app_assoc.
      * destruct (build_article_raises _ _ He Hb) as [msg ->].
        unfold record, modify. rewrite IH. simpl.
        unfold extracted, logged, accepted.
        now rewrite <- app_assoc.
    + unfold ret. rewrite IH. reflexivity.
Qed.

Lemma extracted_or_logged (entries : list node) :
  (List.length (extracted get_page_html BeautifulSoup entries) + List.length (logged get_page_html BeautifulSoup entries))%nat
  = List.length (filter accepted entries).
Proof.
  unfold extracted, logged.
  induction entries as [|e l IH]; [reflexivity|].
  simpl. destruct (accepted e) eqn:Ha; [|exact IH].
  simpl. unfold accepted in Ha.
  destruct (accepts e) as [[|]|] eqn:He; try discriminate.
  destruct (build_article get_page_html BeautifulSoup e) as [a|ex] eqn:Hb.
  - simpl. now rewrite <- IH.
  - destruct (build_article_raises _ _ He Hb) as [msg ->].
    rewrite !List.length_app. simpl. rewrite <- IH. lia.
Qed.

End ExtractorProperties.

(** ** The calendar *)

Import datetime.

Lemma days_in_month_bounds (y m : Z) : 28 <= days_in_month y m <= 31.
Proof.
  unfold days_in_month.
  destruct (m =? 2); [destruct (is_leap y); lia|].
  destruct ((m =? 4) || (m =? 6) || (m =? 9) || (m =? 11))%bool; lia.
Qed.

Lemma valid_iff (d : date) :
  valid d = true <->
  1 <= year d <= 9999 /\ 1 <= month d <= 12 /\
  1 <= day d <= days_in_month (year d) (month d).
Proof.
  unfold valid. rewrite !andb_true_iff, !Z.leb_le. tauto.
Qed.

Lemma ltb_iff (a b : date) :
  ltb a b = true <->
  year a < year b \/
  (year a = year b /\ (month a < month b \/ (month a = month b /\ day a < day b))).
Proof.
  unfold ltb.
  rewrite !orb_true_iff, !andb_true_iff, !orb_true_iff, !andb_true_iff,
    !Z.ltb_lt, !Z.eqb_eq.
  tauto.
Qed.

Lemma ltb_false_iff (a b : date) :
  ltb a b = false <->
  year b < year a \/
  (year a = year b /\ (month b < month a \/ (month a = month b /\ day b <= day a))).
Proof.
  rewrite <- not_true_iff_false, ltb_iff. lia.
Qed.

Lemma date_eq (a b : date) :
  year a = year b -> month a = month b -> day a = day b -> a = b.
Proof. destruct a, b; simpl; congruence. Qed.

Lemma lt_trans {a b c : date} : lt a b -> lt b c -> lt a c.
Proof. unfold lt. rewrite !ltb_iff. lia. Qed.

Lemma lt_irrefl {a : date} : ~ lt a a.
Proof. unfold lt. rewrite ltb_iff. lia. Qed.

Lemma le_lt_trans {a b c : date} : le a b -> lt b c -> lt a c.
Proof. intros [H | ->] Hbc; [eapply lt_trans; eauto | exact Hbc]. Qed.

(** Dates are totally ordered. *)
Lemma lt_total (a b : date) : lt a b \/ a = b \/ lt b a.
Proof.
  unfold lt. rewrite !ltb_iff.
  destruct (Z.lt_trichotomy (year a) (year b)) as [?|[?|?]];
    destruct (Z.lt_trichotomy (month a) (month b)) as [?|[?|?]];
    destruct (Z.lt_trichotomy (day a) (day b)) as [?|[?|?]];
    try (left; lia); try (right; right; lia).
  right; left. now apply date_eq.
Qed.

Lemma rank_lt (a b : date) :
  valid a = true -> valid b = true -> lt a b -> rank a < rank b.
Proof.
  unfold lt, rank. rewrite !valid_iff, ltb_iff.
  pose proof (days_in_month_bounds (year a) (month a)).
  pose proof (days_in_month_bounds (year b) (month b)).
  lia.
Qed.

(** The day after [d], when a later date [e] exists: it is a date, it
    comes after [d], nothing lies strictly between, and it is [e] or lies
    before [e]. *)
Lemma next_day_spec (d e : date) :
  valid d = true -> valid e = true -> lt d e ->
  valid (next_day d) = true /\
  lt d (next_day d) /\
  rank d < rank (next_day d) /\
  le (next_day d) e.
Proof.
  intros Hd He Hlt.
  assert (Hle : forall x, valid x = true ->
                  (year x < year e \/
                   (year x = year e /\
                    (month x < month e \/ (month x = month e /\ day x <= day e)))) ->
                  le x e).
  { intros x Hx H. destruct (lt_total x e) as [Hc|[Hc|Hc]].
    - now left.
    - now right.
    - unfold lt in Hc. rewrite ltb_iff in Hc. lia. }
  unfold lt, rank in *. rewrite valid_iff in Hd, He. rewrite ltb_iff in Hlt.
  pose proof (days_in_month_bounds (year d) (month d)) as Bd.
  pose proof (days_in_month_bounds (year d) (month d + 1)) as Bd1.
  pose proof (days_in_month_bounds (year d + 1) 1) as Bd2.
  assert (Hsame : year d = year e -> month d = month e ->
                  day e <= days_in_month (year d) (month d)).
  { intros Hy Hm. rewrite Hy, Hm. lia. }
  assert (Hyear : month d = 12 -> day d = days_in_month (year d) (month d) ->
                  year d < year e).
  { intros Hm Hday.
    destruct (Z.eq_dec (year d) (year e)) as [Hy|Hy]; [|lia].
    destruct (Z.eq_dec (month d) (month e)) as [Hm'|Hm'];
      [specialize (Hsame Hy Hm'); lia | lia]. }
  assert (Hmonth : year d = year e -> day d = days_in_month (year d) (month d) ->
                   month d < month e).
  { intros Hy Hday.
    destruct (Z.eq_dec (month d) (month e)) as [Hm'|Hm'];
      [specialize (Hsame Hy Hm'); lia | lia]. }
  assert (Hv : valid (next_day d) = true).
  { rewrite valid_iff. unfold next_day.
    destruct (Z.ltb_spec (day d) (days_in_month (year d) (month d)));
      [|destruct (Z.ltb_spec (month d) 12)]; cbn [year month day]; lia. }
  split; [exact Hv|].
  split; [|split].
  - rewrite ltb_iff. unfold next_day.
    destruct (Z.ltb_spec (day d) (days_in_month (year d) (month d)));
      [|destruct (Z.ltb_spec (month d) 12)]; cbn [year month day]; lia.
  - unfold next_day.
    destruct (Z.ltb_spec (day d) (days_in_month (year d) (month d)));
      [|destruct (Z.ltb_spec (month d) 12)]; cbn [year month day]; lia.
  - apply Hle; [exact Hv|]. unfold next_day.
    destruct (Z.ltb_spec (day d) (days_in_month (year d) (month d)));
      [|destruct (Z.ltb_spec (month d) 12)]; cbn [year month day]; lia.
Qed.

(** The loop of [datespan] with enough fuel yields the dates from
    [current_date] up to, not including, [end_date], in ascending order. *)
Lemma datespan_loop_spec (fuel : nat) (current_date end_date : date) :
  valid current_date = true -> valid end_date = true ->
  rank end_date - rank current_date <= Z.of_nat fuel ->
  (forall x, In x (datespan_loop fuel current_date end_date) ->
             valid x = true /\ le current_date x /\ lt x end_date) /\
  (forall x, valid x = true -> le current_date x -> lt x end_date ->
             In x (datespan_loop fuel current_date end_date)) /\
  StronglySorted lt (datespan_loop fuel current_date end_date).
Proof.
  revert current_date.
  induction fuel as [|fuel IH]; intros cur Hc He Hf.
  - simpl. split; [intros x []|]. split; [|constructor].
    intros x Hx Hle Hlt.
    pose proof (rank_lt _ _ Hc He (le_lt_trans Hle Hlt)). lia.
  - simpl. destruct (ltb cur end_date) eqn:Hlt.
    + destruct (next_day_spec _ _ Hc He Hlt) as (Hv & Hn & Hr & Hne).
      destruct (IH (next_day cur) Hv He ltac:(lia)) as (I1 & I2 & I3).
      assert (Htail : forall x, In x (datespan_loop fuel (next_day cur) end_date) ->
                                lt cur x).
      { intros x Hx. destruct (I1 x Hx) as (_ & Hlx & _).
        destruct Hlx as [Hlx | <-]; [eapply lt_trans; eauto | exact Hn]. }
      split; [|split].
      * intros x [<- | Hx].
        -- split; [exact Hc|]. split; [now right | exact Hlt].
        -- destruct (I1 x Hx) as (Hvx & _ & Hxe).
           split; [exact Hvx|]. split; [left; now apply Htail | exact Hxe].
      * intros x Hx [Hcx | <-] Hxe; [right | now left].
        apply I2; [exact Hx | | exact Hxe].
        now destruct (next_day_spec _ _ Hc Hx Hcx) as (_ & _ & _ & Hle).
      * constructor; [exact I3|]. apply Forall_forall. exact Htail.
    + split; [intros x []|]. split; [|constructor].
      intros x Hx Hle Hxe.
      pose proof (le_lt_trans Hle Hxe) as Hce. unfold lt in Hce. congruence.
Qed.

(** More fuel than the bound changes nothing: the loop has ended. *)
Lemma datespan_loop_fuel (fuel fuel' : nat) (current_date end_date : date) :
  valid current_date = true -> valid end_date = true ->
  rank end_date - rank current_date <= Z.of_nat fuel ->
  rank end_date - rank current_date <= Z.of_nat fuel' ->
  datespan_loop fuel current_date end_date = datespan_loop fuel' current_date end_date.
Proof.
  revert fuel' current_date.
  induction fuel as [|fuel IH]; intros fuel' cur Hc He Hf Hf'.
  - destruct fuel' as [|fuel']; [reflexivity|]. simpl.
    destruct (ltb cur end_date) eqn:Hlt; [|reflexivity].
    pose proof (rank_lt _ _ Hc He Hlt). lia.
  - simpl. destruct (ltb cur end_date) eqn:Hlt.
    + destruct (next_day_spec _ _ Hc He Hlt) as (Hv & _ & Hr & _).
      destruct fuel' as [|fuel'].
      * pose proof (rank_lt _ _ Hc He Hlt). lia.
      * simpl. rewrite Hlt. f_equal. apply IH; auto; lia.
    + destruct fuel' as [|fuel']; [reflexivity|]. simpl. now rewrite Hlt.
Qed.

Lemma datespan_spec (start_date end_date : date) :
  valid start_date = true -> valid end_date = true ->
  (forall x, In x (datespan start_date end_date) <->
             valid x = true /\ le start_date x /\ lt x end_date) /\
  StronglySorted lt (datespan start_date end_date) /\
  NoDup (datespan start_date end_date).
Proof.
  intros Hs He. unfold datespan.
  destruct (datespan_loop_spec
              (Z.to_nat (rank end_date - rank start_date)) _ _ Hs He ltac:(lia))
    as (H1 & H2 & H3).
  split; [|split].
  - intros x. split; [apply H1 | intros (Hx & Hl & Hlt); now apply H2].
  - exact H3.
  - clear H1 H2. induction H3 as [|x l _ IH Hx]; constructor; [|exact IH].
    intros Hin. rewrite Forall_forall in Hx. exact (lt_irrefl (Hx x Hin)).
Qed.

Lemma new_valid (y m d : Z) (D : date) :
  new y m d = Return D -> valid D = true /\ D = mkdate y m d.
Proof.
  unfold new. destruct (fits_c_int y && fits_c_int m && fits_c_int d); [|discriminate].
  destruct (valid (mkdate y m d)) eqn:Hv; intros H; [|discriminate].
  injection H as <-. now split.
Qed.

(** ** Traversal *)

(** A loop whose body extends the journal, each round entering day mode
    for the dates [g x]: the loop enters day mode for the rounds it ran, in
    order, and it ran them all when it returned. *)
Lemma for_each_calls {A} (g : A -> list (Z * Z * Z)) (l : list A)
      (body : A -> M Extractor unit) :
  (forall x self, exists evs,
        journal (snd (body x self)) = journal self ++ evs /\ day_calls evs = g x) ->
  forall self, exists visited rest evs,
      l = visited ++ rest /\
      journal (snd (for_each l body self)) = journal self ++ evs /\
      day_calls evs = flat_map g visited /\
      (fst (for_each l body self) = Return tt -> rest = []).
Proof.
  intros Hb. induction l as [|x l IH]; intros self.
  - exists [], [], []. simpl. now rewrite app_nil_r.
  - simpl. unfold bind.
    destruct (Hb x self) as (evs1 & Hj1 & Hc1).
    destruct (body x self) as [[[]|e] s1]; simpl in Hj1.
    + destruct (IH s1) as (visited & rest & evs & -> & Hj & Hc & Hr).
      exists (x :: visited), rest, (evs1 ++ evs). split; [reflexivity|].
      split; [now rewrite Hj, Hj1, app_assoc|]. split; [|exact Hr].
      rewrite day_calls_app, Hc1, Hc. reflexivity.
    + exists [x], l, evs1. simpl. split; [reflexivity|].
      split; [exact Hj1|]. split; [now rewrite app_nil_r | discriminate].
Qed.

Lemma flat_map_nil {A B} (l : list A) : flat_map (fun _ : A => @nil B) l = [].
Proof. induction l; simpl; auto. Qed.

(** What a loop keeps true of the extractor, whether it returns or raises. *)
Lemma for_each_keeps {A} (P : Extractor -> Prop) (l : list A)
      (body : A -> M Extractor unit) :
  (forall x self, P self -> P (snd (body x self))) ->
  forall self, P self -> P (snd (for_each l body self)).
Proof.
  intros Hb. induction l as [|x l IH]; intros self HP; [exact HP|].
  simpl. unfold bind. pose proof (Hb x self HP) as H1.
  destruct (body x self) as [[[]|e] s1]; simpl in *; auto.
Qed.

(** The same, for what holds of the elements of the list only. *)
Lemma for_each_keeps_in {A} (P : Extractor -> Prop) (l : list A)
      (body : A -> M Extractor unit) :
  (forall x, In x l -> forall self, P self -> P (snd (body x self))) ->
  forall self, P self -> P (snd (for_each l body self)).
Proof.
  induction l as [|x l IH]; intros Hb self HP; [exact HP|].
  simpl. unfold bind. pose proof (Hb x (or_introl eq_refl) self HP) as H1.
  destruct (body x self) as [[[]|e] s1]; simpl in H1 |- *; [|exact H1].
  apply IH; [|exact H1]. intros y Hy. apply Hb. now right.
Qed.

(** How a loop ends.  Either every round returns, and so does the loop; or
    the rounds before some element return, the round of that element
    raises, and the loop raises the same exception in the state that round
    left, the elements after it not being visited.  [proj] reads the
    journal: the rounds that ran are the ones recorded. *)
Lemma for_each_outcome {A T} (proj : list event -> list T) (g : A -> list T)
      (l : list A) (body : A -> M Extractor unit) :
  (forall j k, proj (j ++ k) = proj j ++ proj k) ->
  (forall x self, exists evs,
        journal (snd (body x self)) = journal self ++ evs /\ proj evs = g x) ->
  forall self,
    (exists self',
        for_each l body self = (Return tt, self') /\
        proj (journal self') = proj (journal self) ++ flat_map g l) \/
    (exists before x after s1 e s2,
        l = before ++ x :: after /\
        for_each before body self = (Return tt, s1) /\
        body x s1 = (Raise e, s2) /\
        for_each l body self = (Raise e, s2) /\
        proj (journal s2) = proj (journal self) ++ flat_map g (before ++ [x])).
Proof.
  intros Happ Hb. induction l as [|x l IH]; intros self.
  - left. exists self. simpl. now rewrite app_nil_r.
  - destruct (Hb x self) as (evs1 & Hj1 & Hc1).
    destruct (body x self) as [[[]|e] s1] eqn:Hx; simpl in Hj1.
    + destruct (IH s1) as [(self' & Hr & Hp)
                          | (before & y & after & s1' & e & s2 & -> & Hr & Hy & Hl & Hp)].
      * left. exists self'. simpl. unfold bind. rewrite Hx. split; [exact Hr|].
        now rewrite Hp, Hj1, Happ, Hc1, <- app_assoc.
      * right. exists (x :: before), y, after, s1', e, s2.
        split; [reflexivity|]. simpl. unfold bind. rewrite Hx.
        split; [exact Hr|]. split; [exact Hy|]. split; [exact Hl|].
        now rewrite Hp, Hj1, Happ, Hc1, <- app_assoc.
    + right. exists [], x, l, self, e, s1.
      split; [reflexivity|]. split; [reflexivity|]. split; [exact Hx|].
      simpl. unfold bind. rewrite Hx. split; [reflexivity|].
      now rewrite Hj1, Happ, Hc1, app_nil_r.
Qed.

Lemma flat_map_singleton {A B} (f : A -> B) (l : list A) :
  flat_map (fun x => [f x]) l = map f l.
Proof. induction l; simpl; congruence. Qed.

Section TraversalProperties.

Variable get_page_html : string -> option string.
Variable BeautifulSoup : string -> node.

Lemma try_article_journal (art_html : node) (self : Extractor) :
  exists evs,
    journal (snd (try_article get_page_html BeautifulSoup art_html self))
    = journal self ++ evs /\ day_calls evs = [].
Proof.
  unfold try_article.
  destruct (build_article get_page_html BeautifulSoup art_html) as [a|[msg| | | | | |]].
  2: { exists [Debug msg]. now split. }
  all: exists []; simpl; now rewrite app_nil_r.
Qed.

Lemma extract_page_journal (day month year page_num : Z) (self : Extractor) :
  exists evs,
    journal (snd (extract_page get_page_html BeautifulSoup day month year page_num self))
    = journal self ++ evs /\ day_calls evs = [].
Proof.
  unfold extract_page, bind at 1, record, modify.
  destruct (get_page_html (archive_url year month day page_num)) as [data|].
  - cbv zeta.
    match goal with
    | |- context [for_each ?l ?b ?s] =>
        destruct (for_each_calls (fun _ => []) l b) with (self := s)
          as (visited & rest & evs & _ & Hj & Hc & _)
    end.
    + intros e s. unfold bind, lift.
      destruct (accepts e) as [[|]|ex]; simpl.
      * apply try_article_journal.
      * exists []. now rewrite app_nil_r.
      * exists []. now rewrite app_nil_r.
    + exists (Enter (PageCall day month year page_num) :: evs).
      rewrite Hj. simpl. rewrite <- app_assoc. split; [reflexivity|].
      now rewrite Hc, flat_map_nil.
  - exists [Enter (PageCall day month year page_num)]. now split.
Qed.

Lemma extract_day_journal (day month year : Z) (self : Extractor) :
  exists evs,
    journal (snd (extract_day get_page_html BeautifulSoup day month year self))
    = journal self ++ evs /\ day_calls evs = [(day, month, year)].
Proof.
  unfold extract_day, bind at 1 2, record at 1, modify, lift.
  destruct (archive_size get_page_html BeautifulSoup day month year) as [pages|e]; simpl.
  - unfold bind at 1, record, modify.
    match goal with
    | |- context [for_each ?l ?b ?s] =>
        destruct (for_each_calls (fun _ => []) l b) with (self := s)
          as (visited & rest & evs & _ & Hj & Hc & _)
    end.
    + intros i s. apply extract_page_journal.
    + exists (Enter (DayCall day month year) :: Info (extracting_msg day month year) :: evs).
      rewrite Hj. simpl. rewrite <- !app_assoc. split; [reflexivity|].
      simpl. now rewrite Hc, flat_map_nil.
  - exists [Enter (DayCall day month year)]. now split.
Qed.

(** C8 (as the code has it). Range mode over two dates iterates day mode
    over [datespan], which holds every calendar date from the first date
    up to, not including, the second, once each and in ascending order,
    and no other date.  The run ends in one of two ways.  Either the
    day-mode call of every date of the sequence returns: then the run
    returns, and the day-mode calls it entered are all the dates of the
    sequence, in order.  Or the day-mode calls of the dates before some
    date return and the call of that date raises: then the run raises the
    same exception in the state that call left, and the day-mode calls it
    entered are the dates up to and including that one, none after it.  In
    particular, when no day-mode call of a date of the sequence raises,
    the run returns and has entered day mode for every date. *)
Theorem C8_range_mode_enters_days_in_order
        (day month year day_end month_end year_end : Z)
        (start_date end_date : date) (self : Extractor) :
  new year month day = Return start_date ->
  new year_end month_end day_end = Return end_date ->
  let run := extract_articles get_page_html BeautifulSoup day month year None
                              (Some day_end) (Some month_end) (Some year_end) self in
  let entered := mkExtractor
                   (articles self)
                   (journal self ++
                    [Enter (RangeCall day month year day_end month_end year_end)]) in
  let day_mode := fun d : date =>
                    extract_articles get_page_html BeautifulSoup
                                     (datetime.day d) (datetime.month d) (datetime.year d)
                                     None None None None in
  (forall d, In d (datespan start_date end_date) <->
             valid d = true /\ le start_date d /\ lt d end_date) /\
  StronglySorted lt (datespan start_date end_date) /\
  NoDup (datespan start_date end_date) /\
  ((exists self',
       for_each (datespan start_date end_date) day_mode entered = (Return tt, self') /\
       run = (Return tt, self') /\
       day_calls (journal self')
       = day_calls (journal self) ++ map ymd (datespan start_date end_date)) \/
   (exists before d after s1 e s2,
       datespan start_date end_date = before ++ d :: after /\
       for_each before day_mode entered = (Return tt, s1) /\
       day_mode d s1 = (Raise e, s2) /\
       run = (Raise e, s2) /\
       day_calls (journal s2)
       = day_calls (journal self) ++ map ymd (before ++ [d]))) /\
  ((forall d s e, In d (datespan start_date end_date) ->
                  fst (day_mode d s) <> Raise e) ->
   fst run = Return tt /\
   day_calls (journal (snd run))
   = day_calls (journal self) ++ map ymd (datespan start_date end_date)).
Proof.
  intros H1 H2. cbv zeta.
  destruct (new_valid _ _ _ _ H1) as [V1 _]. destruct (new_valid _ _ _ _ H2) as [V2 _].
  destruct (datespan_spec _ _ V1 V2) as (S1 & S2 & S3).
  split; [exact S1|]. split; [exact S2|]. split; [exact S3|].
  assert (Hrun : extract_articles get_page_html BeautifulSoup day month year None
                   (Some day_end) (Some month_end) (Some year_end) self
                 = for_each (datespan start_date end_date)
                     (fun d : date =>
                        extract_articles get_page_html BeautifulSoup
                          (datetime.day d) (datetime.month d) (datetime.year d)
                          None None None None)
                     (mkExtractor
                        (articles self)
                        (journal self ++
                         [Enter (RangeCall day month year day_end month_end year_end)]))).
  { unfold extract_articles, extract_range, bind at 1 2 3, record, modify.
    rewrite H1, H2. reflexivity. }
  rewrite Hrun.
  match goal with
  | |- context [for_each ?l ?b ?s] =>
      destruct (@for_each_outcome _ _ day_calls (fun d => [ymd d]) l b day_calls_app)
        with (self := s)
        as [(self' & Hr & Hp)
           | (before & d & after & s1 & e & s2 & Hl & Hr & Hd & Hf & Hp)]
  end.
  - intros d s. unfold extract_articles. apply extract_day_journal.
  - simpl journal in Hp. rewrite day_calls_app, flat_map_singleton in Hp.
    simpl in Hp. rewrite app_nil_r in Hp.
    split.
    + left. exists self'. split; [exact Hr|]. split; [exact Hr | exact Hp].
    + intros _. rewrite Hr. simpl. split; [reflexivity | exact Hp].
  - simpl journal in Hp. rewrite day_calls_app, flat_map_singleton in Hp.
    simpl in Hp. rewrite app_nil_r in Hp.
    split.
    + right. exists before, d, after, s1, e, s2.
      split; [exact Hl|]. split; [exact Hr|]. split; [exact Hd|].
      split; [exact Hf | exact Hp].
    + intros Hno. exfalso. apply (Hno d s1 e).
      * rewrite Hl. apply in_or_app. right. now left.
      * now rewrite Hd.
Qed.

(** The article built from an accepted entry of a listing page holds the
    content served at its url, which is the link of the entry without its
    last ten characters, and the heading of that content as title. *)
Lemma build_article_ok (day month year page_num : Z) (art_html : node) (a : Article) :
  In art_html (listing_entries get_page_html BeautifulSoup day month year page_num) ->
  accepts art_html = Return true ->
  build_article get_page_html BeautifulSoup art_html = Return a ->
  accumulated_ok get_page_html BeautifulSoup a.
Proof.
  unfold build_article. intros Hin Hacc H.
  apply rbind_Return in H. destruct H as (href & Hhref & H).
  apply rbind_Return in H. destruct H as (a0 & Hinit & H).
  apply rbind_Return in H. destruct H as (a1 & Hd & H).
  apply download_Return in Hd. destruct Hd as (h & Hf & ->).
  unfold LaRepubblicaArticle_init, Article_init in Hinit.
  destruct (href =? EmptyString)%string eqn:Hne; [discriminate|].
  simpl in Hinit. injection Hinit as <-.
  unfold exec in H.
  destruct (parse BeautifulSoup (Some art_html) _) as [[[]|e] a2] eqn:Hp;
    [|discriminate].
  injection H as ->.
  apply parse_title_final in Hp. destruct Hp as (Hu & Hh & article & h1 & Ha & Hh1 & Ht).
  simpl in Hu, Hh, Ha, Hf.
  unfold accumulated_ok. rewrite Hu, Hh. split; [exact Hf|].
  split; [now exists article, h1|].
  exists day, month, year, page_num, art_html, href.
  split; [exact Hin|]. split; [exact Hacc|]. split; [exact Hhref|].
  split; [|exact Hu].
  intros ->. discriminate.
Qed.

Lemma try_article_keeps (day month year page_num : Z) (art_html : node)
      (self : Extractor) :
  In art_html (listing_entries get_page_html BeautifulSoup day month year page_num) ->
  accepts art_html = Return true ->
  all_ok get_page_html BeautifulSoup self ->
  all_ok get_page_html BeautifulSoup
         (snd (try_article get_page_html BeautifulSoup art_html self)).
Proof.
  unfold try_article, all_ok. intros Hin Hacc H.
  destruct (build_article get_page_html BeautifulSoup art_html) as [a|[msg| | | | | |]] eqn:Hb;
    simpl; try exact H.
  apply Forall_app. split; [exact H|]. constructor; [|constructor].
  exact (build_article_ok _ _ _ _ _ _ Hin Hacc Hb).
Qed.

Lemma extract_page_keeps (day month year page_num : Z) (self : Extractor) :
  all_ok get_page_html BeautifulSoup self ->
  all_ok get_page_html BeautifulSoup (snd (extract_page get_page_html BeautifulSoup day month year page_num self)).
Proof.
  intros H. unfold extract_page, bind at 1, record, modify.
  pose proof (fun e => try_article_keeps day month year page_num e) as Hk.
  unfold listing_entries in Hk.
  destruct (get_page_html (archive_url year month day page_num)) as [data|].
  - cbv zeta. apply for_each_keeps_in; [|exact H].
    intros e Hin s Hs. unfold bind, lift.
    destruct (accepts e) as [[|]|ex] eqn:Hacc; simpl; auto.
  - exact H.
Qed.

Lemma extract_day_keeps (day month year : Z) (self : Extractor) :
  all_ok get_page_html BeautifulSoup self ->
  all_ok get_page_html BeautifulSoup (snd (extract_day get_page_html BeautifulSoup day month year self)).
Proof.
  intros H. unfold extract_day, bind at 1 2, record at 1, modify, lift.
  destruct (archive_size get_page_html BeautifulSoup day month year) as [pages|e];
    simpl; [|exact H].
  unfold bind at 1, record, modify.
  apply for_each_keeps; [|exact H].
  intros i s. apply extract_page_keeps.
Qed.

Lemma extract_range_keeps (day month year day_end month_end year_end : Z)
      (self : Extractor) :
  all_ok get_page_html BeautifulSoup self ->
  all_ok get_page_html BeautifulSoup (snd (extract_range get_page_html BeautifulSoup
                             day month year day_end month_end year_end self)).
Proof.
  intros H. unfold extract_range, bind at 1 2 3, record, modify, lift.
  destruct (new year month day) as [d1|e]; simpl; [|exact H].
  destruct (new year_end month_end day_end) as [d2|e]; simpl; [|exact H].
  apply for_each_keeps; [|exact H].
  intros d s. apply extract_day_keeps.
Qed.

Lemma reachable_all_ok (self : Extractor) :
  reachable get_page_html BeautifulSoup self -> all_ok get_page_html BeautifulSoup self.
Proof.
  induction 1 as [|self day month year page_num day_end month_end year_end _ IH].
  - constructor.
  - unfold extract_articles.
    destruct page_num; [now apply extract_page_keeps|].
    destruct day_end; [|now apply extract_day_keeps].
    destruct month_end; [|now apply extract_day_keeps].
    destruct year_end; [|now apply extract_day_keeps].
    now apply extract_range_keeps.
Qed.

(** C1 (as the code has it). Every article in the result set, after any
    sequence of calls of [extract_articles], comes from an entry of a
    listing page that the exclusion rules accept: its url is the link of
    that entry, which is not empty, without its last ten characters.  It
    holds the content served at its url, and its title is the text of the
    heading of the first article element of that content: the title is
    empty when that heading is, and no test rejects it.  The url is not
    empty as long as nothing is served at the empty address. *)
Theorem C1_accumulated_articles (self : Extractor) (a : Article) :
  reachable get_page_html BeautifulSoup self ->
  In a (articles self) ->
  accumulated_ok get_page_html BeautifulSoup a /\
  (get_page_html EmptyString = None -> url a <> EmptyString).
Proof.
  intros Hr Hin. apply reachable_all_ok in Hr.
  unfold all_ok in Hr. rewrite Forall_forall in Hr.
  pose proof (Hr a Hin) as Hok. split; [exact Hok|].
  intros Hnone Hurl. destruct Hok as (Hf & _). rewrite Hurl in Hf. congruence.
Qed.

End TraversalProperties.

(** ** Which exceptions leave the extractor *)

Lemma contained_ret {S A} (x : A) : contained (@ret S A x).
Proof. intros s msg. discriminate. Qed.

Lemma contained_modify {S} (f : S -> S) : contained (modify f).
Proof. intros s msg. discriminate. Qed.

Lemma contained_lift {S A} (r : result A) :
  no_article_exception r -> contained (@lift S A r).
Proof. intros H s. exact H. Qed.

Lemma contained_bind {S A B} (c : M S A) (k : A -> M S B) :
  contained c -> (forall x, contained (k x)) -> contained (bind c k).
Proof.
  intros Hc Hk s msg. unfold bind. pose proof (Hc s msg) as H1.
  destruct (c s) as [[x|e] s1]; simpl in *.
  - apply Hk.
  - intros H. apply H1. congruence.
Qed.

Lemma contained_for_each {S A} (l : list A) (body : A -> M S unit) :
  (forall x, contained (body x)) -> contained (for_each l body).
Proof.
  intros Hb. induction l as [|x l IH]; simpl.
  - apply contained_ret.
  - apply contained_bind; [apply Hb | intros _; exact IH].
Qed.

Lemma rbind_no_article_exception {A B} (r : result A) (k : A -> result B) :
  no_article_exception r -> (forall x, no_article_exception (k x)) ->
  no_article_exception (rbind r k).
Proof.
  intros Hr Hk msg. destruct r as [x|e]; simpl; [apply Hk|].
  intros H. apply (Hr msg). congruence.
Qed.

Lemma deref_no_article_exception {A} (o : option A) : no_article_exception (deref o).
Proof. intros msg. destruct o; discriminate. Qed.

Lemma getitem_opt_no_article_exception (key : string) (o : option node) :
  no_article_exception (getitem_opt key o).
Proof.
  intros msg. unfold getitem_opt, getitem.
  destruct o as [n|]; [destruct (lookup key (node_attrs n))|]; discriminate.
Qed.

Lemma Return_no_article_exception {A} (x : A) : no_article_exception (Return x).
Proof. intros msg. discriminate. Qed.

Lemma and_then_no_article_exception (a b : result bool) :
  no_article_exception a -> no_article_exception b ->
  no_article_exception (and_then a b).
Proof.
  intros Ha Hb. apply rbind_no_article_exception; [exact Ha|].
  intros [|]; [exact Hb | apply Return_no_article_exception].
Qed.

(** The exclusion rules raise attribute, type and key errors only. *)
Lemma accepts_no_article_exception (art_html : node) :
  no_article_exception (accepts art_html).
Proof.
  unfold accepts.
  repeat first
    [ apply and_then_no_article_exception
    | apply rbind_no_article_exception; [|intros ?]
    | apply deref_no_article_exception
    | apply getitem_opt_no_article_exception
    | apply Return_no_article_exception ].
Qed.

Section Containment.

Variable get_page_html : string -> option string.
Variable BeautifulSoup : string -> node.

Lemma archive_size_no_article_exception (day month year : Z) :
  no_article_exception (archive_size get_page_html BeautifulSoup day month year).
Proof.
  unfold archive_size.
  destruct (get_page_html (archive_url year month day 1));
    [|apply Return_no_article_exception].
  cbv zeta.
  repeat first
    [ apply rbind_no_article_exception; [|intros ?]
    | apply deref_no_article_exception
    | apply Return_no_article_exception ].
  intros msg. unfold last_item. destruct (rev _); discriminate.
Qed.

Lemma try_article_contained (art_html : node) :
  contained (try_article get_page_html BeautifulSoup art_html).
Proof.
  intros s msg. unfold try_article.
  destruct (build_article get_page_html BeautifulSoup art_html) as [a|[m| | | | | |]];
    discriminate.
Qed.

Lemma extract_page_contained (day month year page_num : Z) :
  contained (extract_page get_page_html BeautifulSoup day month year page_num).
Proof.
  unfold extract_page. apply contained_bind; [apply contained_modify|]. intros _.
  destruct (get_page_html (archive_url year month day page_num));
    [|apply contained_ret].
  cbv zeta. apply contained_for_each. intros e.
  apply contained_bind; [apply contained_lift, accepts_no_article_exception|].
  intros [|]; [apply try_article_contained | apply contained_ret].
Qed.

Lemma extract_day_contained (day month year : Z) :
  contained (extract_day get_page_html BeautifulSoup day month year).
Proof.
  unfold extract_day. apply contained_bind; [apply contained_modify|]. intros _.
  apply contained_bind; [apply contained_lift, archive_size_no_article_exception|].
  intros pages. apply contained_bind; [apply contained_modify|]. intros _.
  apply contained_for_each. intros i. apply extract_page_contained.
Qed.

(** No [ArticleException] leaves [extract_articles], in any mode. *)
Lemma extract_articles_contained
      (day month year : Z) (page_num day_end month_end year_end : option Z) :
  contained (extract_articles get_page_html BeautifulSoup day month year
                              page_num day_end month_end year_end).
Proof.
  unfold extract_articles.
  destruct page_num; [apply extract_page_contained|].
  destruct day_end; [|apply extract_day_contained].
  destruct month_end; [|apply extract_day_contained].
  destruct year_end; [|apply extract_day_contained].
  unfold extract_range. apply contained_bind; [apply contained_modify|]. intros _.
  apply contained_bind.
  { apply contained_lift. intros msg. unfold datetime.new.
    destruct (_ && _); [destruct (valid _)|]; discriminate. }
  intros d1. apply contained_bind.
  { apply contained_lift. intros msg. unfold datetime.new.
    destruct (_ && _); [destruct (valid _)|]; discriminate. }
  intros d2. apply contained_for_each. intros d. apply extract_day_contained.
Qed.

(** C3 (as the code has it). No [ArticleException], the failure of
    constructing, fetching or parsing one article, leaves page mode.  On a
    listing page on whose entries the exclusion rules all evaluate, page
    mode returns normally: of the entries the rules accept, those whose
    article is constructed, fetched and parsed are appended in listing
    order, and each of the others leaves one debug line and is skipped,
    the traversal going on with the next entry.  An exception the
    exclusion rules raise on an entry that has a preview paragraph is not
    caught: the entries before it are handled as above, the call raises
    that exception, and the entries after it are not visited. *)
Theorem C3_article_failures_are_logged_and_skipped
        (day month year page_num : Z) (self : Extractor) :
  no_article_exception
    (fst (extract_articles get_page_html BeautifulSoup
                           day month year (Some page_num) None None None self)) /\
  (Forall evaluable (listing_entries get_page_html BeautifulSoup day month year page_num) ->
  extract_articles get_page_html BeautifulSoup day month year (Some page_num) None None None self
  = (Return tt,
     mkExtractor
       (articles self ++ extracted get_page_html BeautifulSoup (listing_entries get_page_html BeautifulSoup day month year page_num))
       (journal self ++ Enter (PageCall day month year page_num)
                     :: logged get_page_html BeautifulSoup (listing_entries get_page_html BeautifulSoup day month year page_num))) /\
  (List.length (extracted get_page_html BeautifulSoup (listing_entries get_page_html BeautifulSoup day month year page_num)) +
   List.length (logged get_page_html BeautifulSoup (listing_entries get_page_html BeautifulSoup day month year page_num)))%nat
  = List.length (filter accepted (listing_entries get_page_html BeautifulSoup day month year page_num))) /\
  (forall before art_html after ex,
      listing_entries get_page_html BeautifulSoup day month year page_num
      = before ++ art_html :: after ->
      Forall evaluable before ->
      find "p" None art_html <> None ->
      accepts art_html = Raise ex ->
      extract_articles get_page_html BeautifulSoup day month year (Some page_num)
                       None None None self
      = (Raise ex,
         mkExtractor
           (articles self ++ extracted get_page_html BeautifulSoup before)
           (journal self ++ Enter (PageCall day month year page_num)
                         :: logged get_page_html BeautifulSoup before))).
Proof.
  split; [intros msg; apply extract_articles_contained|].
  split.
  - intros H. split; [|apply extracted_or_logged].
    unfold extract_articles, extract_page, listing_entries in *.
    unfold bind at 1. unfold record, modify.
    destruct (get_page_html (archive_url year month day page_num)) as [data|].
    + cbv zeta. rewrite page_loop by exact H. simpl.
      now rewrite <- app_assoc.
    + unfold ret. simpl. unfold extracted, logged. simpl.
      now rewrite app_nil_r.
  - intros before art_html after ex Hl Hb _ Hex.
    unfold extract_articles, extract_page, listing_entries in *.
    unfold bind at 1. unfold record, modify.
    destruct (get_page_html (archive_url year month day page_num)) as [data|].
    + cbv zeta. rewrite Hl.
      rewrite (page_loop_raise get_page_html BeautifulSoup before after art_html ex)
        by assumption.
      simpl.
      now rewrite <- app_assoc.
    + destruct before; discriminate.
Qed.

End Containment.

(** ** The extractor on the sample archive *)

(** C1, the claim as stated fails: after day mode on the sample archive
    the result set holds an article whose title is the empty string (its
    page has an empty heading). *)
Lemma C1_empty_title_in_result_set :
  let self := snd (extract_articles Sample.get_page_html Sample.BeautifulSoup
                                    4 3 2015 None None None None Extractor_init) in
  reachable Sample.get_page_html Sample.BeautifulSoup self /\
  exists a, In a (articles self) /\
            url a = "http://www.repubblica.it/cronaca/a2/?" /\
            title a = EmptyString.
Proof.
  cbv zeta. split.
  - apply reachable_call, reachable_init.
  - vm_compute. eexists. split; [right; left; reflexivity|]. now split.
Qed.

Lemma C1_witness :
  let self := snd (extract_articles Sample.get_page_html Sample.BeautifulSoup
                                    4 3 2015 None None None None Extractor_init) in
  let a := hd (defaults EmptyString) (articles self) in
  accumulated_ok Sample.get_page_html Sample.BeautifulSoup a /\
  (Sample.get_page_html EmptyString = None -> url a <> EmptyString).
Proof.
  cbv zeta.
  apply (@C1_accumulated_articles Sample.get_page_html Sample.BeautifulSoup
           (snd (extract_articles Sample.get_page_html Sample.BeautifulSoup
                                  4 3 2015 None None None None Extractor_init))).
  - apply reachable_call, reachable_init.
  - vm_compute. left. reflexivity.
Defined.

(** C3, the claim as stated fails: the first entry of the listing has
    neither label nor link, the exclusion rules raise on it, and the
    exception leaves [extract_articles]; the entry after it, which the
    rules accept, is never reached. *)
Lemma C3_rule_failure_leaves_page_mode :
  let run := extract_articles Sample.get_page_html Sample.BeautifulSoup
                              7 3 2015 (Some 1) None None None Extractor_init in
  listing_entries Sample.get_page_html Sample.BeautifulSoup 7 3 2015 1
  = [Sample.entry_bare; Sample.entry_one] /\
  accepts Sample.entry_bare = Raise AttributeError /\
  accepted Sample.entry_one = true /\
  fst run = Raise AttributeError /\
  articles (snd run) = [] /\
  journal (snd run) = [Enter (PageCall 7 3 2015 1)].
Proof. vm_compute. repeat split. Qed.

Lemma C3_witness :
  extract_articles Sample.get_page_html Sample.BeautifulSoup
                   4 3 2015 (Some 1) None None None Extractor_init
  = (Return tt,
     mkExtractor
       (articles Extractor_init ++
        extracted Sample.get_page_html Sample.BeautifulSoup
          (listing_entries Sample.get_page_html Sample.BeautifulSoup 4 3 2015 1))
       (journal Extractor_init ++
        Enter (PageCall 4 3 2015 1)
        :: logged Sample.get_page_html Sample.BeautifulSoup
             (listing_entries Sample.get_page_html Sample.BeautifulSoup 4 3 2015 1))) /\
  (List.length (extracted Sample.get_page_html Sample.BeautifulSoup
                  (listing_entries Sample.get_page_html Sample.BeautifulSoup 4 3 2015 1)) +
   List.length (logged Sample.get_page_html Sample.BeautifulSoup
                  (listing_entries Sample.get_page_html Sample.BeautifulSoup 4 3 2015 1)))%nat
  = List.length (filter accepted
                  (listing_entries Sample.get_page_html Sample.BeautifulSoup 4 3 2015 1)).
Proof.
  apply (proj1 (proj2 (@C3_article_failures_are_logged_and_skipped
                         Sample.get_page_html Sample.BeautifulSoup
                         4 3 2015 1 Extractor_init))).
  vm_compute. repeat constructor; eexists; reflexivity.
Defined.

(** The first listing page of the sample: three accepted entries, two
    records, one debug line. *)
Example sample_page_outcome :
  map title (extracted Sample.get_page_html Sample.BeautifulSoup
               (listing_entries Sample.get_page_html Sample.BeautifulSoup 4 3 2015 1))
  = ["Titolo uno"; EmptyString] /\
  logged Sample.get_page_html Sample.BeautifulSoup
         (listing_entries Sample.get_page_html Sample.BeautifulSoup 4 3 2015 1)
  = [Debug "ArticleException: Article HTML is empty."].
Proof. vm_compute. now split. Qed.

(** C4, the claim as stated fails: the pagination text holds the tokens
    1, 10, 57, 1 and 6; the largest is 57 and [archive_size] returns the
    last, 6. *)
Lemma C4_last_token_is_not_the_largest :
  archive_size Sample.get_page_html Sample.BeautifulSoup 8 3 2015 = Return 6 /\
  re_findall_digits (get_text (Sample.pagination "Risultati 1 - 10 di 57, pagina 1 di 6"))
  = ["1"; "10"; "57"; "1"; "6"] /\
  largest_token (get_text (Sample.pagination "Risultati 1 - 10 di 57, pagina 1 di 6")) = 57 /\
  archive_size Sample.get_page_html Sample.BeautifulSoup 8 3 2015
  <> Return (largest_token
               (get_text (Sample.pagination "Risultati 1 - 10 di 57, pagina 1 di 6"))).
Proof. vm_compute. repeat split. discriminate. Qed.

Lemma C4_witness :
  archive_size Sample.get_page_html Sample.BeautifulSoup 8 3 2015 = Return (py_int "6").
Proof.
  apply (@C4_archive_size_last_token Sample.get_page_html Sample.BeautifulSoup
           8 3 2015 Sample.listing_8_html
           (Sample.pagination "Risultati 1 - 10 di 57, pagina 1 di 6")
           (Tag "p" [] [NavigableString "Risultati 1 - 10 di 57, pagina 1 di 6"])
           ["1"; "10"; "57"; "1"] "6"); reflexivity.
Defined.

Lemma C5_witness :
  archive_size Sample.get_page_html Sample.BeautifulSoup 5 3 2015 = Return (-1) /\
  -1 <> 0 /\
  exists self',
    extract_articles Sample.get_page_html Sample.BeautifulSoup
                     5 3 2015 None None None None Extractor_init = (Return tt, self') /\
    articles self' = articles Extractor_init /\
    page_calls (journal self') = page_calls (journal Extractor_init) /\
    journal self' = journal Extractor_init ++
                    [Enter (DayCall 5 3 2015); Info (extracting_msg 5 3 2015)].
Proof.
  apply (@C5_unavailable_page_count Sample.get_page_html Sample.BeautifulSoup
           5 3 2015 Extractor_init).
  reflexivity.
Defined.

Lemma C8_witness :
  let run := extract_articles Sample.get_page_html Sample.BeautifulSoup
                              4 3 2015 None (Some 6) (Some 3) (Some 2015)
                              Extractor_init in
  fst run = Return tt /\
  day_calls (journal (snd run))
  = day_calls (journal Extractor_init) ++
    map ymd (datespan (mkdate 2015 3 4) (mkdate 2015 3 6)).
Proof.
  cbv zeta.
  destruct (proj1 (proj2 (proj2 (proj2
             (@C8_range_mode_enters_days_in_order
                Sample.get_page_html Sample.BeautifulSoup
                4 3 2015 6 3 2015 (mkdate 2015 3 4) (mkdate 2015 3 6) Extractor_init
                eq_refl eq_refl)))))
    as [(self' & _ & Hrun & Hcalls)
       | (before & d & after & s1 & e & s2 & _ & _ & _ & Hrun & _)].
  - rewrite Hrun. split; [reflexivity | exact Hcalls].
  - exfalso. vm_compute in Hrun. discriminate.
Defined.

(** A range over the sample archive, and ranges across a leap day and a
    new year. *)
Example sample_range_outcome :
  let run := extract_articles Sample.get_page_html Sample.BeautifulSoup
                              4 3 2015 None (Some 6) (Some 3) (Some 2015)
                              Extractor_init in
  fst run = Return tt /\
  day_calls (journal (snd run)) = [(4, 3, 2015); (5, 3, 2015)] /\
  map ymd (datespan (mkdate 2016 2 28) (mkdate 2016 3 2))
  = [(28, 2, 2016); (29, 2, 2016); (1, 3, 2016)] /\
  map ymd (datespan (mkdate 2015 12 30) (mkdate 2016 1 2))
  = [(30, 12, 2015); (31, 12, 2015); (1, 1, 2016)] /\
  datespan (mkdate 2015 3 6) (mkdate 2015 3 4) = [].
Proof. vm_compute. repeat split. Qed.

(** C8, the claim as stated fails: the listing of the first date has no
    pagination container, [archive_size] raises, the exception ends the
    run, and day mode is never entered for the second date of the
    interval. *)
Lemma C8_raising_day_ends_the_range :
  let run := extract_articles Sample.get_page_html Sample.BeautifulSoup
                              9 3 2015 None (Some 11) (Some 3) (Some 2015)
                              Extractor_init in
  map ymd (datespan (mkdate 2015 3 9) (mkdate 2015 3 11))
  = [(9, 3, 2015); (10, 3, 2015)] /\
  archive_size Sample.get_page_html Sample.BeautifulSoup 9 3 2015 = Raise AttributeError /\
  fst run = Raise AttributeError /\
  day_calls (journal (snd run)) = [(9, 3, 2015)].
Proof. vm_compute. repeat split. Qed.

(** An answer with an empty body is stored as the content of the article:
    the failure comes from [parse], with the line of [parse]. *)
Example empty_body_fails_in_parse :
  exec (download Sample.get_empty)
       (Sample.blank "http://www.repubblica.it/politica/a1/?" EmptyString)
  = Return (Sample.blank "http://www.repubblica.it/politica/a1/?" EmptyString) /\
  build_article Sample.get_empty Sample.BeautifulSoup Sample.entry_one
  = Raise (ArticleException
             (parse_error_msg
                (Sample.blank "http://www.repubblica.it/politica/a1/?" EmptyString))).
Proof. vm_compute. now split. Qed.

(** The hypothesis of C1 on the empty address is needed: with a fetch
    primitive that answers at every address, a link of ten characters
    gives an article whose url is empty. *)
Example empty_url_when_empty_address_is_served :
  option_map url
    (match build_article Sample.get_any Sample.BeautifulSoup Sample.entry_short with
     | Return a => Some a
     | Raise _ => None
     end) = Some EmptyString.
Proof. vm_compute. reflexivity. Qed.

(* ================================================================== *)
(** * Further properties *)

(** ** article.py *)

(** [as_dict] leaves out the content and nothing else: two articles have
    the same dictionary exactly when they agree on every attribute but
    [html]. *)
Theorem as_dict_forgets_html_only (a b : Article) :
  as_dict a = as_dict b <-> set_html (html b) a = b.
Proof.
  destruct a, b. unfold as_dict, set_html. simpl. split; intros H.
  - inversion H. reflexivity.
  - inversion H. reflexivity.
Qed.

(** [slot_kept s H F]: like a frame, or nothing when the block of [H]
    targets [s]. *)
Ltac slot_kept s H F :=
  try (pose proof H as F;
       eapply (@step_frame _ s) in F;
       [ | solve [ apply parse_title_acts | apply parse_description_acts
                 | apply parse_authors_acts | apply parse_date_acts
                 | apply parse_text_acts | apply parse_section_acts
                 | apply parse_subsection_acts | apply parse_keywords_acts
                 | apply parse_characters_acts | apply parse_image_acts ]
         | simpl; intros ? ->; discriminate ]).

Section FieldRules.

Variable BeautifulSoup : string -> node.

(** The ten blocks of a successful run, on the page of the article. *)
Lemma parse_chain (preview : option node) (a a' : Article) :
  parse BeautifulSoup preview a = (Return tt, a') ->
  exists a1 a2 a3 a4 a5 a6 a7 a8 a9,
    parse_title (BeautifulSoup (html a)) a = (Return tt, a1) /\
    parse_description (BeautifulSoup (html a)) preview a1 = (Return tt, a2) /\
    parse_authors (BeautifulSoup (html a)) preview a2 = (Return tt, a3) /\
    parse_date (BeautifulSoup (html a)) preview a3 = (Return tt, a4) /\
    parse_text (BeautifulSoup (html a)) a4 = (Return tt, a5) /\
    parse_section (BeautifulSoup (html a)) a5 = (Return tt, a6) /\
    parse_subsection preview a6 = (Return tt, a7) /\
    parse_keywords (BeautifulSoup (html a)) a7 = (Return tt, a8) /\
    parse_characters (BeautifulSoup (html a)) a8 = (Return tt, a9) /\
    parse_image (BeautifulSoup (html a)) a9 = (Return tt, a').
Proof. intros H. now apply parse_Return, parse_steps_Return in H. Qed.

(** [parse] ends by returning or by an [ArticleException]. *)
Lemma parse_outcome (preview : option node) (a : Article) :
  fst (parse BeautifulSoup preview a) = Return tt \/
  exists msg, fst (parse BeautifulSoup preview a) = Raise (ArticleException msg).
Proof.
  unfold parse. destruct (parse_fields BeautifulSoup preview a) as [[[]|e] s]; simpl; eauto.
Qed.

(** A run that does not return raised an [ArticleException]. *)
Lemma parse_not_Return (preview : option node) (a : Article) :
  (forall a', parse BeautifulSoup preview a <> (Return tt, a')) ->
  exists msg, fst (parse BeautifulSoup preview a) = Raise (ArticleException msg).
Proof.
  intros H. destruct (parse_outcome preview a) as [Hr|Hr]; [|exact Hr].
  exfalso. apply (H (snd (parse BeautifulSoup preview a))).
  destruct (parse BeautifulSoup preview a) as [r s]. simpl in *. now subst.
Qed.

(** Whether it returns or raises, [parse] leaves the url and the content
    of the article as they were, and it raises nothing but an
    [ArticleException]. *)
Theorem parse_keeps_url_and_content (preview : option node) (a : Article) :
  url (snd (parse BeautifulSoup preview a)) = url a /\
  html (snd (parse BeautifulSoup preview a)) = html a /\
  (fst (parse BeautifulSoup preview a) = Return tt \/
   exists msg, fst (parse BeautifulSoup preview a) = Raise (ArticleException msg)).
Proof.
  destruct (parse_updates BeautifulSoup preview (html a)) as (r & us & H).
  rewrite (H a eq_refl). simpl.
  destruct (apply_updates_url us a) as [Hu Hh].
  split; [exact Hu|]. split; [exact Hh|].
  destruct r; eauto.
Qed.

(** A page without an article element, or whose article element has no
    heading: [parse] raises an [ArticleException] naming the title and url
    the article had, and changes nothing of the article. *)
Theorem parse_without_heading (preview : option node) (a : Article) :
  (find "article" None (BeautifulSoup (html a)) = None \/
   exists article, find "article" None (BeautifulSoup (html a)) = Some article /\
                   find "h1" None article = None) ->
  parse BeautifulSoup preview a
  = (Raise (ArticleException (parse_error_msg a)), a).
Proof.
  intros H. unfold parse, parse_fields, parse_steps, parse_title.
  unfold bind at 1 2. unfold lift at 1.
  destruct H as [H | (article & Ha & Hh)].
  - rewrite H. reflexivity.
  - rewrite Ha. simpl. unfold bind at 1, lift. rewrite Hh. reflexivity.
Qed.

(** What a block does to the article when it returns. *)
Lemma lift_deref_Return {A} (o : option A) (x : A) (s s' : Article) :
  lift (deref o) s = (Return x, s') -> o = Some x /\ s' = s.
Proof.
  intros H. apply lift_Return in H. destruct H as [H ->].
  destruct o; [injection H as ->; now split | discriminate].
Qed.

Lemma parse_date_Return (soup : node) (preview : option node) (a a' : Article) :
  parse_date soup preview a = (Return tt, a') ->
  exists time,
    match preview with
    | Some pv => find "time" None pv
    | None => find "time" (Some ("itemprop", "datePublished")) soup
    end = Some time /\
    a' = set_publish_date (get_text time) a.
Proof.
  unfold parse_date. intros H.
  destruct preview as [pv|];
    apply bind_Return in H; destruct H as (time & s1 & Hl & H);
    apply lift_deref_Return in Hl; destruct Hl as [Hf ->];
    unfold modify in H; injection H as <-; now exists time.
Qed.

Lemma parse_subsection_Return (preview : option node) (a a' : Article) :
  parse_subsection preview a = (Return tt, a') ->
  match preview with
  | Some pv => exists span, find "span" None pv = Some span /\
                            a' = set_subsection (slice_from 5 (get_text span)) a
  | None => a' = a
  end.
Proof.
  unfold parse_subsection. intros H. destruct preview as [pv|].
  - apply bind_Return in H. destruct H as (span & s1 & Hl & H).
    apply lift_deref_Return in Hl. destruct Hl as [Hf ->].
    unfold modify in H. injection H as <-. now exists span.
  - unfold ret in H. now injection H as <-.
Qed.

(** The publish date of a successful run: with a preview, the text of the
    preview's time element, whatever the page holds; without one, the
    text of the page's date marker. *)
Theorem parse_publish_date (preview : option node) (a a' : Article) :
  parse BeautifulSoup preview a = (Return tt, a') ->
  exists time,
    match preview with
    | Some pv => find "time" None pv
    | None => find "time" (Some ("itemprop", "datePublished")) (BeautifulSoup (html a))
    end = Some time /\
    publish_date a' = get_text time.
Proof.
  intros H. apply parse_chain in H.
  destruct H as (a1 & a2 & a3 & a4 & a5 & a6 & a7 & a8 & a9 &
                 H1 & H2 & H3 & H4 & H5 & H6 & H7 & H8 & H9 & H10).
  slot_kept SPublishDate H5 F5. slot_kept SPublishDate H6 F6.
  slot_kept SPublishDate H7 F7. slot_kept SPublishDate H8 F8.
  slot_kept SPublishDate H9 F9. slot_kept SPublishDate H10 F10.
  apply parse_date_Return in H4. destruct H4 as (time & Hf & ->).
  exists time. split; [exact Hf|]. simpl in *. congruence.
Qed.

(** The markers a run cannot do without: with a preview, its time and
    span elements; without one, the date marker of the page.  When one is
    missing [parse] raises an [ArticleException], whatever else the page
    holds. *)
Theorem parse_needs_date_and_label (preview : option node) (a : Article) :
  match preview with
  | Some pv => find "time" None pv = None \/ find "span" None pv = None
  | None => find "time" (Some ("itemprop", "datePublished")) (BeautifulSoup (html a)) = None
  end ->
  exists msg, fst (parse BeautifulSoup preview a) = Raise (ArticleException msg).
Proof.
  intros Hm. apply parse_not_Return. intros a' H. apply parse_chain in H.
  destruct H as (a1 & a2 & a3 & a4 & a5 & a6 & a7 & a8 & a9 &
                 H1 & H2 & H3 & H4 & H5 & H6 & H7 & H8 & H9 & H10).
  apply parse_date_Return in H4. destruct H4 as (time & Hf & _).
  apply parse_subsection_Return in H7.
  destruct preview as [pv|].
  - destruct H7 as (span & Hs & _). destruct Hm; congruence.
  - congruence.
Qed.

(** The section of a successful run: the text of the section logo when
    the page has one, else of the sport logo, else what it was. *)
Theorem parse_section_rule (preview : option node) (a a' : Article) :
  parse BeautifulSoup preview a = (Return tt, a') ->
  section a' =
  match find "a" (Some ("class", "section-logo")) (BeautifulSoup (html a)),
        find "a" (Some ("class", "sport-logo")) (BeautifulSoup (html a)) with
  | Some section_logo, _ => get_text section_logo
  | None, Some sport_logo => get_text sport_logo
  | None, None => section a
  end.
Proof.
  intros H. apply parse_chain in H.
  destruct H as (a1 & a2 & a3 & a4 & a5 & a6 & a7 & a8 & a9 &
                 H1 & H2 & H3 & H4 & H5 & H6 & H7 & H8 & H9 & H10).
  slot_kept SSection H1 F1. slot_kept SSection H2 F2. slot_kept SSection H3 F3.
  slot_kept SSection H4 F4. slot_kept SSection H5 F5. slot_kept SSection H7 F7.
  slot_kept SSection H8 F8. slot_kept SSection H9 F9. slot_kept SSection H10 F10.
  simpl in *.
  assert (E : section a' = section a6) by congruence.
  assert (E0 : section a5 = section a) by congruence.
  rewrite E. unfold parse_section in H6.
  destruct (find "a" (Some ("class", "section-logo")) (BeautifulSoup (html a)));
    [|destruct (find "a" (Some ("class", "sport-logo")) (BeautifulSoup (html a)))];
    unfold modify, ret in H6; injection H6 as <-; simpl; congruence.
Qed.

(** The subsection of a successful run: with a preview, the text of the
    preview's first span without its first five characters; without a
    preview, what it was. *)
Theorem parse_subsection_rule (preview : option node) (a a' : Article) :
  parse BeautifulSoup preview a = (Return tt, a') ->
  match preview with
  | Some pv => exists span, find "span" None pv = Some span /\
                            subsection a' = slice_from 5 (get_text span)
  | None => subsection a' = subsection a
  end.
Proof.
  intros H. apply parse_chain in H.
  destruct H as (a1 & a2 & a3 & a4 & a5 & a6 & a7 & a8 & a9 &
                 H1 & H2 & H3 & H4 & H5 & H6 & H7 & H8 & H9 & H10).
  slot_kept SSubsection H1 F1. slot_kept SSubsection H2 F2.
  slot_kept SSubsection H3 F3. slot_kept SSubsection H4 F4.
  slot_kept SSubsection H5 F5. slot_kept SSubsection H6 F6.
  slot_kept SSubsection H8 F8. slot_kept SSubsection H9 F9.
  slot_kept SSubsection H10 F10.
  simpl in *.
  assert (E : subsection a' = subsection a7) by congruence.
  assert (E0 : subsection a6 = subsection a) by congruence.
  apply parse_subsection_Return in H7. destruct preview as [pv|].
  - destruct H7 as (span & Hs & ->). exists span. split; [exact Hs|].
    rewrite E. reflexivity.
  - subst a7. congruence.
Qed.

(** The loops of the keywords and characters blocks append the texts of
    the nodes, in order. *)
Lemma keywords_loop (l : list node) (a : Article) :
  exists a', for_each l (fun keyword => modify (keywords_append (get_text keyword))) a
             = (Return tt, a') /\
             keywords a' = keywords a ++ map get_text l /\
             characters a' = characters a.
Proof.
  revert a. induction l as [|x l IH]; intros a.
  - exists a. simpl. unfold ret. now rewrite app_nil_r.
  - simpl. unfold bind at 1, modify at 1.
    destruct (IH (keywords_append (get_text x) a)) as (a' & Hr & Hk & Hc).
    exists a'. split; [exact Hr|]. split; [|exact Hc].
    rewrite Hk. simpl. now rewrite <- app_assoc.
Qed.

Lemma characters_loop (l : list node) (a : Article) :
  exists a', for_each l (fun character => modify (characters_append (get_text character))) a
             = (Return tt, a') /\
             characters a' = characters a ++ map get_text l /\
             keywords a' = keywords a.
Proof.
  revert a. induction l as [|x l IH]; intros a.
  - exists a. simpl. unfold ret. now rewrite app_nil_r.
  - simpl. unfold bind at 1, modify at 1.
    destruct (IH (characters_append (get_text x) a)) as (a' & Hr & Hk & Hc).
    exists a'. split; [exact Hr|]. split; [|exact Hc].
    rewrite Hk. simpl. now rewrite <- app_assoc.
Qed.

(** The keywords and characters of a successful run: what the article
    held, followed by the page's keywords (the entries of the definition
    list when the page has one, even an empty one, else the links of the
    tag container) and by the entries of the page's character list. *)
Theorem parse_keywords_and_characters (preview : option node) (a a' : Article) :
  parse BeautifulSoup preview a = (Return tt, a') ->
  keywords a' = keywords a ++ page_keywords (BeautifulSoup (html a)) /\
  characters a' = characters a ++ page_characters (BeautifulSoup (html a)).
Proof.
  intros H. apply parse_chain in H.
  destruct H as (a1 & a2 & a3 & a4 & a5 & a6 & a7 & a8 & a9 &
                 H1 & H2 & H3 & H4 & H5 & H6 & H7 & H8 & H9 & H10).
  slot_kept SKeywords H1 K1. slot_kept SKeywords H2 K2. slot_kept SKeywords H3 K3.
  slot_kept SKeywords H4 K4. slot_kept SKeywords H5 K5. slot_kept SKeywords H6 K6.
  slot_kept SKeywords H7 K7. slot_kept SKeywords H9 K9. slot_kept SKeywords H10 K10.
  slot_kept SCharacters H1 C1. slot_kept SCharacters H2 C2. slot_kept SCharacters H3 C3.
  slot_kept SCharacters H4 C4. slot_kept SCharacters H5 C5. slot_kept SCharacters H6 C6.
  slot_kept SCharacters H7 C7. slot_kept SCharacters H8 C8. slot_kept SCharacters H10 C10.
  simpl in *.
  assert (Ek : keywords a8 = keywords a7 ++ page_keywords (BeautifulSoup (html a))).
  { unfold parse_keywords in H8. unfold page_keywords.
    destruct (find "dl" (Some ("class", "args")) (BeautifulSoup (html a))) as [kws|].
    - destruct (keywords_loop (find_all "dd" kws) a7) as (x & Hx & Hk & _).
      rewrite Hx in H8. injection H8 as <-. exact Hk.
    - destruct (find "div" (Some ("class", "detail_tag")) (BeautifulSoup (html a)))
        as [kws|].
      + destruct (keywords_loop (find_all "a" kws) a7) as (x & Hx & Hk & _).
        rewrite Hx in H8. injection H8 as <-. exact Hk.
      + unfold ret in H8. injection H8 as <-. now rewrite app_nil_r. }
  assert (Ec : characters a9 = characters a8 ++ page_characters (BeautifulSoup (html a))).
  { unfold parse_characters in H9. unfold page_characters.
    destruct (find "dl" (Some ("class", "character")) (BeautifulSoup (html a))) as [chars|].
    - destruct (characters_loop (find_all "dd" chars) a8) as (x & Hx & Hk & _).
      rewrite Hx in H9. injection H9 as <-. exact Hk.
    - unfold ret in H9. injection H9 as <-. now rewrite app_nil_r. }
  split; congruence.
Qed.

(** The image of a successful run: the [src] of the first image of the
    first figure when the page has both, else what it was.  A figure whose
    image has no [src] makes [parse] raise. *)
Theorem parse_image_rule (preview : option node) (a : Article) :
  (forall a', parse BeautifulSoup preview a = (Return tt, a') ->
     match find "figure" None (BeautifulSoup (html a)) with
     | Some figure =>
         match find "img" None figure with
         | Some img => lookup "src" (node_attrs img) = Some (image_url a')
         | None => image_url a' = image_url a
         end
     | None => image_url a' = image_url a
     end) /\
  (forall figure img,
      find "figure" None (BeautifulSoup (html a)) = Some figure ->
      find "img" None figure = Some img ->
      lookup "src" (node_attrs img) = None ->
      exists msg, fst (parse BeautifulSoup preview a) = Raise (ArticleException msg)).
Proof.
  assert (Hsucc : forall a', parse BeautifulSoup preview a = (Return tt, a') ->
     match find "figure" None (BeautifulSoup (html a)) with
     | Some figure =>
         match find "img" None figure with
         | Some img => lookup "src" (node_attrs img) = Some (image_url a')
         | None => image_url a' = image_url a
         end
     | None => image_url a' = image_url a
     end).
  { intros a' H. apply parse_chain in H.
    destruct H as (a1 & a2 & a3 & a4 & a5 & a6 & a7 & a8 & a9 &
                   H1 & H2 & H3 & H4 & H5 & H6 & H7 & H8 & H9 & H10).
    slot_kept SImageUrl H1 F1. slot_kept SImageUrl H2 F2. slot_kept SImageUrl H3 F3.
    slot_kept SImageUrl H4 F4. slot_kept SImageUrl H5 F5. slot_kept SImageUrl H6 F6.
    slot_kept SImageUrl H7 F7. slot_kept SImageUrl H8 F8. slot_kept SImageUrl H9 F9.
    simpl in *.
    assert (E0 : image_url a9 = image_url a) by congruence.
    unfold parse_image in H10.
    destruct (find "figure" None (BeautifulSoup (html a))) as [figure|].
    - destruct (find "img" None figure) as [img|].
      + apply bind_Return in H10. destruct H10 as (src & s1 & Hl & H10).
        apply lift_Return in Hl. destruct Hl as [Hg ->].
        unfold modify in H10. injection H10 as <-. simpl.
        unfold getitem in Hg. destruct (lookup "src" (node_attrs img));
          [now injection Hg as -> | discriminate].
      + unfold ret in H10. injection H10 as <-. exact E0.
    - unfold ret in H10. injection H10 as <-. exact E0. }
  split; [exact Hsucc|].
  intros figure img Hf Hi Hs. apply parse_not_Return. intros a' H.
  specialize (Hsucc a' H). rewrite Hf, Hi in Hsucc. congruence.
Qed.

(** The description and the authors of a successful run are the texts of
    the page's description and author markers when the page has them. *)
Theorem parse_description_and_authors_from_page
        (preview : option node) (a a' : Article) :
  parse BeautifulSoup preview a = (Return tt, a') ->
  (forall d, find "p" (Some ("itemprop", "description")) (BeautifulSoup (html a)) = Some d ->
             description a' = get_text d) /\
  (forall e, find "em" (Some ("itemprop", "author")) (BeautifulSoup (html a)) = Some e ->
             authors a' = get_text e).
Proof.
  intros H. apply parse_chain in H.
  destruct H as (a1 & a2 & a3 & a4 & a5 & a6 & a7 & a8 & a9 &
                 H1 & H2 & H3 & H4 & H5 & H6 & H7 & H8 & H9 & H10).
  slot_kept SDescription H3 D3. slot_kept SDescription H4 D4.
  slot_kept SDescription H5 D5. slot_kept SDescription H6 D6.
  slot_kept SDescription H7 D7. slot_kept SDescription H8 D8.
  slot_kept SDescription H9 D9. slot_kept SDescription H10 D10.
  slot_kept SAuthors H4 A4. slot_kept SAuthors H5 A5. slot_kept SAuthors H6 A6.
  slot_kept SAuthors H7 A7. slot_kept SAuthors H8 A8. slot_kept SAuthors H9 A9.
  slot_kept SAuthors H10 A10.
  simpl in *. split.
  - intros d Hd. unfold parse_description in H2. rewrite Hd in H2.
    unfold modify in H2. injection H2 as <-. simpl in *. congruence.
  - intros e He. unfold parse_authors in H3. rewrite He in H3.
    unfold modify in H3. injection H3 as <-. simpl in *. congruence.
Qed.

End FieldRules.
Lemma parse_without_heading_witness :
  parse Sample.BeautifulSoup None
        (Sample.blank "http://www.repubblica.it/none/?" Sample.listing_9_html)
  = (Raise (ArticleException
              (parse_error_msg
                 (Sample.blank "http://www.repubblica.it/none/?" Sample.listing_9_html))),
     Sample.blank "http://www.repubblica.it/none/?" Sample.listing_9_html).
Proof.
  apply (@parse_without_heading Sample.BeautifulSoup None
           (Sample.blank "http://www.repubblica.it/none/?" Sample.listing_9_html)).
  left. reflexivity.
Defined.


Lemma parse_publish_date_witness :
  publish_date
    (snd (parse Sample.BeautifulSoup (Some Sample.entry_one)
                (Sample.blank "http://www.repubblica.it/politica/a1/?"
                              Sample.page_one_html)))
  = "04 marzo 2015".
Proof.
  destruct (@parse_publish_date Sample.BeautifulSoup (Some Sample.entry_one)
              (Sample.blank "http://www.repubblica.it/politica/a1/?" Sample.page_one_html)
              _ eq_refl) as (time & Hf & Hd).
  vm_compute in Hf. injection Hf as <-. exact Hd.
Defined.

Lemma parse_needs_date_and_label_witness :
  exists msg,
    fst (parse Sample.BeautifulSoup (Some Sample.entry_bare)
               (Sample.blank "http://www.repubblica.it/politica/a1/?"
                             Sample.page_one_html))
    = Raise (ArticleException msg).
Proof.
  apply (@parse_needs_date_and_label Sample.BeautifulSoup (Some Sample.entry_bare)
           (Sample.blank "http://www.repubblica.it/politica/a1/?" Sample.page_one_html)).
  left. reflexivity.
Defined.

Lemma parse_section_rule_witness :
  section
    (snd (parse Sample2.BeautifulSoup None
                (set_section "Archivio"
                   (Sample.blank "http://www.repubblica.it/sport/a8/?"
                                 Sample2.page_logos_html))))
  = "Cronaca" /\
  section
    (snd (parse Sample2.BeautifulSoup None
                (set_section "Archivio" Sample2.article)))
  = "Sport".
Proof.
  split.
  - exact (@parse_section_rule Sample2.BeautifulSoup None
             (set_section "Archivio"
                (Sample.blank "http://www.repubblica.it/sport/a8/?"
                              Sample2.page_logos_html))
             _ eq_refl).
  - exact (@parse_section_rule Sample2.BeautifulSoup None
             (set_section "Archivio" Sample2.article) _ eq_refl).
Defined.

Lemma parse_subsection_rule_witness :
  subsection
    (snd (parse Sample.BeautifulSoup (Some Sample.entry_one)
                (Sample.blank "http://www.repubblica.it/politica/a1/?"
                              Sample.page_one_html)))
  = "Politica".
Proof.
  destruct (@parse_subsection_rule Sample.BeautifulSoup (Some Sample.entry_one)
              (Sample.blank "http://www.repubblica.it/politica/a1/?" Sample.page_one_html)
              _ eq_refl) as (span & Hf & Hs).
  vm_compute in Hf. injection Hf as <-. exact Hs.
Defined.

Lemma parse_keywords_and_characters_witness :
  keywords
    (snd (parse Sample.BeautifulSoup (Some Sample.entry_one)
                (Sample.blank "http://www.repubblica.it/politica/a1/?"
                              Sample.page_one_html)))
  = ["politica"; "governo"].
Proof.
  exact (proj1 (@parse_keywords_and_characters Sample.BeautifulSoup
                  (Some Sample.entry_one)
                  (Sample.blank "http://www.repubblica.it/politica/a1/?"
                                Sample.page_one_html)
                  _ eq_refl)).
Defined.

Lemma parse_description_and_authors_witness :
  description (snd (parse Sample2.BeautifulSoup None Sample2.article)) = "Sommario" /\
  authors (snd (parse Sample2.BeautifulSoup None Sample2.article)) = "Mario Rossi".
Proof.
  destruct (@parse_description_and_authors_from_page
              Sample2.BeautifulSoup None Sample2.article _ eq_refl) as [Hd Ha].
  split.
  - exact (Hd (Tag "p" [("itemprop", "description")] [NavigableString "Sommario"])
              eq_refl).
  - exact (Ha (Tag "em" [("itemprop", "author")] [NavigableString "Mario Rossi"])
              eq_refl).
Defined.

(** The page with every marker, parsed without a preview. *)
Example full_page_outcome :
  fst (parse Sample2.BeautifulSoup None Sample2.article) = Return tt /\
  as_dict (snd (parse Sample2.BeautifulSoup None Sample2.article))
  = [ ("url", Str "http://www.repubblica.it/sport/a9/?");
      ("title", Str "Titolo");
      ("description", Str "Sommario");
      ("authors", Str "Mario Rossi");
      ("publish_date", Str "2015-03-04");
      ("text", Str "Corpo");
      ("section", Str "Sport");
      ("subsection", Str EmptyString);
      ("keywords", Strs ["calcio"; "serie a"]);
      ("characters", Strs ["Totti"]);
      ("image_url", Str "http://img.repubblica.it/1.jpg") ].
Proof. vm_compute. now split. Qed.

(** ** extractor.py: the exclusion rules *)

(** An entry is accepted exactly when it has a paragraph without a span
    inside and with more than five characters of text, a span whose text
    past its first five characters is not the crossword label, and a link
    with an address that neither ends in the search suffix nor is the
    catalogue address. *)
Theorem accepts_true_iff (art_html : node) :
  accepts art_html = Return true <->
  exists p span a href,
    find "p" None art_html = Some p /\
    find "span" None p = None /\
    find "span" None art_html = Some span /\
    slice_from 5 (get_text span) <> "Il Cruciverba" /\
    find "a" None art_html = Some a /\
    lookup "href" (node_attrs a) = Some href /\
    slice_last 16 href <> ".html?ref=search" /\
    href <> catalogue /\
    5 < len (get_text p).
Proof.
  unfold accepts, catalogue, and_then, rbind, deref, getitem_opt, getitem, is_none.
  split.
  - intros H.
    destruct (find "p" None art_html) as [p|]; [|discriminate].
    destruct (find "span" None p) eqn:Hsp; [discriminate|].
    destruct (find "span" None art_html) as [span|]; [|discriminate].
    destruct (String.eqb_spec (slice_from 5 (get_text span)) "Il Cruciverba");
      [discriminate|]. simpl in H.
    destruct (find "a" None art_html) as [a|]; [|discriminate].
    destruct (lookup "href" (node_attrs a)) as [href|] eqn:Hh; [|discriminate].
    destruct (String.eqb_spec (slice_last 16 href) ".html?ref=search");
      [discriminate|]. simpl in H.
    destruct (String.eqb_spec href
      "https://quotidiano.repubblica.it/edicola/catalogogenerale.jsp?ref=search");
      [discriminate|]. simpl in H.
    destruct (Z.ltb_spec 5 (len (get_text p))); [|discriminate].
    exists p, span, a, href. repeat split; assumption.
  - intros (p & span & a & href & Hp & Hsp & Hs & Hl & Ha & Hh & Hx & Hc & Hn).
    rewrite Hp, Hsp, Hs, Ha, Hh.
    destruct (String.eqb_spec (slice_from 5 (get_text span)) "Il Cruciverba");
      [contradiction|]. simpl.
    destruct (String.eqb_spec (slice_last 16 href) ".html?ref=search");
      [contradiction|]. simpl.
    destruct (String.eqb_spec href
      "https://quotidiano.repubblica.it/edicola/catalogogenerale.jsp?ref=search");
      [contradiction|]. simpl.
    destruct (Z.ltb_spec 5 (len (get_text p))); [reflexivity | lia].
Qed.

(** The first rule decides alone in two cases.  An entry without a
    paragraph makes the rules raise [AttributeError]: the later test that
    the paragraph is there is never the one that excludes it.  An entry
    whose paragraph holds a span is excluded without raising, whatever
    else it lacks. *)
Theorem accepts_first_rule (art_html : node) :
  (find "p" None art_html = None -> accepts art_html = Raise AttributeError) /\
  (forall p span,
      find "p" None art_html = Some p -> find "span" None p = Some span ->
      accepts art_html = Return false).
Proof.
  unfold accepts, and_then, rbind, deref, is_none. split.
  - intros H. now rewrite H.
  - intros p span Hp Hs. now rewrite Hp, Hs.
Qed.

(** ** extractor.py: the page count *)

Lemma all_chars_app (p : ascii -> bool) (r : string) (c : ascii) :
  all_chars p r = true -> p c = true ->
  all_chars p (r +++ String c EmptyString) = true.
Proof.
  intros Hr Hc. induction r as [|d r IH]; simpl in *.
  - now rewrite Hc.
  - apply andb_true_iff in Hr. destruct Hr as [Hd Hr]. now rewrite Hd, IH.
Qed.

Lemma app_not_empty (r : string) (c : ascii) : r +++ String c EmptyString <> EmptyString.
Proof. destruct r; discriminate. Qed.

(** The runs are not empty and hold characters of the class only. *)
Lemma runs_tokens (p : ascii -> bool) (s : string) (cur : option string) :
  (forall r, cur = Some r -> all_chars p r = true /\ r <> EmptyString) ->
  Forall (fun t => all_chars p t = true /\ t <> EmptyString) (runs p cur s).
Proof.
  revert cur. induction s as [|c s IH]; intros cur Hcur; simpl.
  - destruct cur as [r|]; [|constructor].
    constructor; [now apply Hcur | constructor].
  - destruct (p c) eqn:Hc.
    + apply IH. intros r Hr. injection Hr as <-.
      destruct cur as [r|].
      * destruct (Hcur r eq_refl) as [Ha _].
        split; [now apply all_chars_app | apply app_not_empty].
      * simpl. rewrite Hc. now split.
    + destruct cur as [r|].
      * constructor; [now apply Hcur|]. apply IH. discriminate.
      * apply IH. discriminate.
Qed.

Lemma int_acc_nonneg (s : string) (acc : Z) :
  all_chars is_digit s = true -> 0 <= acc -> 0 <= int_acc acc s.
Proof.
  revert acc. induction s as [|c s IH]; intros acc Hs Hacc;
    cbn [int_acc all_chars] in *; [exact Hacc|].
  apply andb_true_iff in Hs. destruct Hs as [Hc Hs].
  apply IH; [exact Hs|].
  unfold is_digit in Hc. cbv zeta in Hc.
  apply andb_true_iff in Hc. destruct Hc as [Hlo _].
  apply Nat.leb_le in Hlo. unfold digit_value.
  assert (48 <= Z.of_nat (nat_of_ascii c)) by (apply (Nat2Z.inj_le 48); exact Hlo).
  lia.
Qed.

Section PageCount.

Variable get_page_html : string -> option string.
Variable BeautifulSoup : string -> node.

(** The value [-1] tells a failed fetch apart: when [archive_size] returns,
    it returns [-1] exactly when the first listing page could not be
    fetched, and a number that is not negative otherwise. *)
Theorem archive_size_sentinel (day month year n : Z) :
  archive_size get_page_html BeautifulSoup day month year = Return n ->
  (n = -1 <-> get_page_html (archive_url year month day 1) = None) /\
  (n <> -1 -> 0 <= n).
Proof.
  unfold archive_size.
  destruct (get_page_html (archive_url year month day 1)) as [data|].
  - cbv zeta. intros H.
    apply rbind_Return in H. destruct H as (pagination & _ & H).
    apply rbind_Return in H. destruct H as (p & _ & H).
    apply rbind_Return in H. destruct H as (tok & Ht & H).
    injection H as <-.
    assert (Hn : 0 <= py_int tok).
    { unfold last_item in Ht.
      destruct (rev (re_findall_digits (get_text p))) as [|x l] eqn:Hr; [discriminate|].
      injection Ht as ->.
      assert (Hin : In tok (re_findall_digits (get_text p))).
      { apply in_rev. rewrite Hr. now left. }
      pose proof (runs_tokens is_digit (get_text p) None ltac:(discriminate)) as Hall.
      rewrite Forall_forall in Hall. destruct (Hall tok Hin) as [Hd _].
      apply int_acc_nonneg; [exact Hd | lia]. }
    split; [split; [lia | discriminate] | intros _; exact Hn].
  - intros H. injection H as <-. split; [now split | congruence].
Qed.

(** A first listing page that is fetched but has no pagination container,
    or one without a paragraph, or with no digit in the paragraph:
    [archive_size] raises ([AttributeError], [AttributeError],
    [IndexError]), and day mode ends with the same exception before any
    page is entered, the articles being as they were. *)
Theorem day_mode_stops_on_unreadable_page_count
        (day month year : Z) (data : string) (self : Extractor) :
  get_page_html (archive_url year month day 1) = Some data ->
  let stops e :=
    archive_size get_page_html BeautifulSoup day month year = Raise e /\
    extract_articles get_page_html BeautifulSoup day month year None None None None self
    = (Raise e, mkExtractor (articles self)
                            (journal self ++ [Enter (DayCall day month year)])) in
  (find "div" (Some ("class", "pagination")) (BeautifulSoup data) = None ->
   stops AttributeError) /\
  (forall pagination,
      find "div" (Some ("class", "pagination")) (BeautifulSoup data) = Some pagination ->
      find "p" None pagination = None -> stops AttributeError) /\
  (forall pagination p,
      find "div" (Some ("class", "pagination")) (BeautifulSoup data) = Some pagination ->
      find "p" None pagination = Some p ->
      re_findall_digits (get_text p) = [] -> stops IndexError).
Proof.
  intros Hd. cbv zeta.
  assert (Hday : forall e,
             archive_size get_page_html BeautifulSoup day month year = Raise e ->
             extract_articles get_page_html BeautifulSoup day month year
                              None None None None self
             = (Raise e, mkExtractor (articles self)
                                     (journal self ++ [Enter (DayCall day month year)]))).
  { intros e He. unfold extract_articles, extract_day, bind, record, modify, lift.
    rewrite He. reflexivity. }
  assert (Hsize : forall e,
             archive_size get_page_html BeautifulSoup day month year = Raise e ->
             archive_size get_page_html BeautifulSoup day month year = Raise e /\
             extract_articles get_page_html BeautifulSoup day month year
                              None None None None self
             = (Raise e, mkExtractor (articles self)
                                     (journal self ++ [Enter (DayCall day month year)])))
    by (intros e He; split; [exact He | now apply Hday]).
  split; [|split].
  - intros Hp. apply Hsize. unfold archive_size. rewrite Hd. cbv zeta. now rewrite Hp.
  - intros pagination Hp Hq. apply Hsize. unfold archive_size.
    rewrite Hd. cbv zeta. rewrite Hp. simpl. now rewrite Hq.
  - intros pagination p Hp Hq Ht. apply Hsize. unfold archive_size.
    rewrite Hd. cbv zeta. rewrite Hp. simpl. rewrite Hq. simpl. now rewrite Ht.
Qed.

End PageCount.

(** ** extractor.py: the order of the calls *)

Lemma calls_of_app (j k : list event) : calls_of (j ++ k) = calls_of j ++ calls_of k.
Proof. apply flat_map_app. Qed.

(** A loop whose rounds extend the journal by the calls [g x]: the loop
    records the calls of the rounds it ran, in order, and it ran them all
    when it returned. *)
Lemma for_each_trace {A} (g : A -> list call) (l : list A)
      (body : A -> M Extractor unit) :
  (forall x self, exists evs,
        journal (snd (body x self)) = journal self ++ evs /\ calls_of evs = g x) ->
  forall self, exists visited rest evs,
      l = visited ++ rest /\
      journal (snd (for_each l body self)) = journal self ++ evs /\
      calls_of evs = flat_map g visited /\
      (fst (for_each l body self) = Return tt -> rest = []).
Proof.
  intros Hb. induction l as [|x l IH]; intros self.
  - exists [], [], []. simpl. now rewrite app_nil_r.
  - simpl. unfold bind.
    destruct (Hb x self) as (evs1 & Hj1 & Hc1).
    destruct (body x self) as [[[]|e] s1]; simpl in Hj1.
    + destruct (IH s1) as (visited & rest & evs & -> & Hj & Hc & Hr).
      exists (x :: visited), rest, (evs1 ++ evs). split; [reflexivity|].
      split; [now rewrite Hj, Hj1, app_assoc|]. split; [|exact Hr].
      rewrite calls_of_app, Hc1, Hc. reflexivity.
    + exists [x], l, evs1. simpl. split; [reflexivity|].
      split; [exact Hj1|]. split; [now rewrite app_nil_r | discriminate].
Qed.

(** [range(a, b)] holds the integers from [a] up to, not including, [b],
    in ascending order. *)
Lemma py_range_spec (a b : Z) :
  (forall i, In i (py_range a b) <-> a <= i < b) /\
  StronglySorted Z.lt (py_range a b).
Proof.
  unfold py_range. split.
  - intros i. rewrite in_map_iff. split.
    + intros (k & <- & Hk). apply in_seq in Hk. lia.
    + intros Hi. exists (Z.to_nat (i - a)). split; [lia|]. apply in_seq. lia.
  - generalize (Z.to_nat (b - a)) as n. generalize 0%nat as s.
    intros s n. revert s. induction n as [|n IH]; intros s; simpl; constructor.
    + apply IH.
    + apply Forall_forall. intros x Hx. apply in_map_iff in Hx.
      destruct Hx as (k & <- & Hk). apply in_seq in Hk. lia.
Qed.

Section CallOrder.

Variable get_page_html : string -> option string.
Variable BeautifulSoup : string -> node.

Lemma try_article_calls (art_html : node) (self : Extractor) :
  exists evs,
    journal (snd (try_article get_page_html BeautifulSoup art_html self))
    = journal self ++ evs /\ calls_of evs = [].
Proof.
  unfold try_article.
  destruct (build_article get_page_html BeautifulSoup art_html) as [a|[msg| | | | | |]].
  2: { exists [Debug msg]. now split. }
  all: exists []; simpl; now rewrite app_nil_r.
Qed.

Lemma extract_page_calls (day month year page_num : Z) (self : Extractor) :
  exists evs,
    journal (snd (extract_page get_page_html BeautifulSoup day month year page_num self))
    = journal self ++ evs /\ calls_of evs = [PageCall day month year page_num].
Proof.
  unfold extract_page, bind at 1, record, modify.
  destruct (get_page_html (archive_url year month day page_num)) as [data|].
  - cbv zeta.
    match goal with
    | |- context [for_each ?l ?b ?s] =>
        destruct (for_each_trace (fun _ => []) l b) with (self := s)
          as (visited & rest & evs & _ & Hj & Hc & _)
    end.
    + intros e s. unfold bind, lift.
      destruct (accepts e) as [[|]|ex]; simpl.
      * apply try_article_calls.
      * exists []. now rewrite app_nil_r.
      * exists []. now rewrite app_nil_r.
    + exists (Enter (PageCall day month year page_num) :: evs).
      rewrite Hj. simpl. rewrite <- app_assoc. split; [reflexivity|].
      now rewrite Hc, flat_map_nil.
  - exists [Enter (PageCall day month year page_num)]. now split.
Qed.

(** Day mode with a page count [n] runs page mode over the page numbers
    1 to [n], in ascending order, each once and no other number; a count
    of zero or less enters no page and returns.  The call ends in one of
    two ways.  Either the page-mode call of every number returns: then
    day mode returns and the calls it entered are those of all the
    numbers, in order.  Or the page-mode calls of the numbers before some
    number return and the call of that number raises: then day mode
    raises the same exception in the state that call left, and the calls
    it entered are those of the numbers up to and including that one, none
    after it. *)
Theorem day_mode_enters_pages_in_order (day month year n : Z) (self : Extractor) :
  archive_size get_page_html BeautifulSoup day month year = Return n ->
  let run := extract_articles get_page_html BeautifulSoup
                              day month year None None None None self in
  let entered := mkExtractor
                   (articles self)
                   (journal self ++ [Enter (DayCall day month year);
                                     Info (extracting_msg day month year)]) in
  let page_mode := fun i : Z =>
                     extract_articles get_page_html BeautifulSoup
                                      day month year (Some i) None None None in
  (forall i, In i (py_range 1 (n + 1)) <-> 1 <= i <= n) /\
  StronglySorted Z.lt (py_range 1 (n + 1)) /\
  (n <= 0 -> run = (Return tt, entered)) /\
  ((exists self',
       for_each (py_range 1 (n + 1)) page_mode entered = (Return tt, self') /\
       run = (Return tt, self') /\
       calls_of (journal self')
       = calls_of (journal self) ++
         DayCall day month year :: map (PageCall day month year) (py_range 1 (n + 1))) \/
   (exists before i after s1 e s2,
       py_range 1 (n + 1) = before ++ i :: after /\
       for_each before page_mode entered = (Return tt, s1) /\
       page_mode i s1 = (Raise e, s2) /\
       run = (Raise e, s2) /\
       calls_of (journal s2)
       = calls_of (journal self) ++
         DayCall day month year :: map (PageCall day month year) (before ++ [i]))) /\
  ((forall i s e, 1 <= i <= n -> fst (page_mode i s) <> Raise e) ->
   fst run = Return tt /\
   calls_of (journal (snd run))
   = calls_of (journal self) ++
     DayCall day month year :: map (PageCall day month year) (py_range 1 (n + 1))).
Proof.
  intros Hn. cbv zeta.
  destruct (py_range_spec 1 (n + 1)) as [Hin Hs].
  assert (Hin' : forall i, In i (py_range 1 (n + 1)) <-> 1 <= i <= n)
    by (intros i; rewrite Hin; lia).
  split; [exact Hin'|]. split; [exact Hs|].
  assert (Hrun : extract_articles get_page_html BeautifulSoup day month year
                                  None None None None self
                 = for_each (py_range 1 (n + 1))
                     (fun i : Z =>
                        extract_articles get_page_html BeautifulSoup
                                         day month year (Some i) None None None)
                     (mkExtractor
                        (articles self)
                        (journal self ++ [Enter (DayCall day month year);
                                          Info (extracting_msg day month year)]))).
  { unfold extract_articles at 1. unfold extract_day, bind at 1 2, record at 1, modify, lift.
    rewrite Hn. unfold bind at 1, record, modify. simpl articles. simpl journal.
    now rewrite <- app_assoc. }
  rewrite Hrun.
  split.
  { intros Hle. unfold py_range. replace (Z.to_nat (n + 1 - 1)) with 0%nat by lia.
    reflexivity. }
  match goal with
  | |- context [for_each ?l ?b ?s] =>
      destruct (@for_each_outcome _ _ calls_of
                  (fun i => [PageCall day month year i]) l b calls_of_app)
        with (self := s)
        as [(self' & Hr & Hp)
           | (before & i & after & s1 & e & s2 & Hl & Hr & Hd & Hf & Hp)]
  end.
  - intros i s. unfold extract_articles. apply extract_page_calls.
  - simpl journal in Hp. rewrite calls_of_app, flat_map_singleton in Hp.
    simpl in Hp. rewrite <- app_assoc in Hp. simpl in Hp.
    split.
    + left. exists self'. split; [exact Hr|]. split; [exact Hr | exact Hp].
    + intros _. rewrite Hr. simpl. split; [reflexivity | exact Hp].
  - simpl journal in Hp. rewrite calls_of_app, flat_map_singleton in Hp.
    simpl in Hp. rewrite <- app_assoc in Hp. simpl in Hp.
    split.
    + right. exists before, i, after, s1, e, s2.
      split; [exact Hl|]. split; [exact Hr|]. split; [exact Hd|].
      split; [exact Hf | exact Hp].
    + intros Hno. exfalso. apply (Hno i s1 e).
      * apply Hin'. rewrite Hl. apply in_or_app. right. now left.
      * now rewrite Hd.
Qed.

(** ** extractor.py: the result set only grows *)

Lemma extends_refl (s : Extractor) : extends s s.
Proof. exists [], []. now rewrite !app_nil_r. Qed.

Lemma extends_trans (s1 s2 s3 : Extractor) :
  extends s1 s2 -> extends s2 s3 -> extends s1 s3.
Proof.
  intros (n1 & e1 & Ha1 & Hj1) (n2 & e2 & Ha2 & Hj2).
  exists (n1 ++ n2), (e1 ++ e2). rewrite Ha2, Hj2, Ha1, Hj1, <- !app_assoc. now split.
Qed.

Lemma for_each_extends {A} (l : list A) (body : A -> M Extractor unit) :
  (forall x s, extends s (snd (body x s))) ->
  forall s, extends s (snd (for_each l body s)).
Proof.
  intros Hb. induction l as [|x l IH]; intros s; [apply extends_refl|].
  simpl. unfold bind. pose proof (Hb x s) as H1.
  destruct (body x s) as [[[]|e] s1]; simpl in *; [|exact H1].
  eapply extends_trans; [exact H1 | apply IH].
Qed.

Lemma record_extends (e : event) (s : Extractor) :
  extends s (mkExtractor (articles s) (journal s ++ [e])).
Proof. exists [], [e]. simpl. now rewrite app_nil_r. Qed.

Lemma try_article_extends (art_html : node) (s : Extractor) :
  extends s (snd (try_article get_page_html BeautifulSoup art_html s)).
Proof.
  unfold try_article.
  destruct (build_article get_page_html BeautifulSoup art_html) as [a|[msg| | | | | |]];
    simpl; try apply extends_refl.
  - exists [a], []. simpl. now rewrite app_nil_r.
  - apply record_extends.
Qed.

Lemma extract_page_extends (day month year page_num : Z) (s : Extractor) :
  extends s (snd (extract_page get_page_html BeautifulSoup day month year page_num s)).
Proof.
  unfold extract_page, bind at 1, record, modify.
  eapply extends_trans; [apply (record_extends (Enter (PageCall day month year page_num)))|].
  destruct (get_page_html (archive_url year month day page_num)) as [data|];
    [|apply extends_refl].
  cbv zeta. apply for_each_extends. intros e s0. unfold bind, lift.
  destruct (accepts e) as [[|]|ex]; simpl;
    [apply try_article_extends | apply extends_refl | apply extends_refl].
Qed.

Lemma extract_day_extends (day month year : Z) (s : Extractor) :
  extends s (snd (extract_day get_page_html BeautifulSoup day month year s)).
Proof.
  unfold extract_day, bind at 1 2, record at 1, modify, lift.
  eapply extends_trans; [apply (record_extends (Enter (DayCall day month year)))|].
  destruct (archive_size get_page_html BeautifulSoup day month year) as [pages|e];
    simpl; [|apply extends_refl].
  unfold bind at 1, record, modify.
  eapply extends_trans;
    [apply (record_extends (Info (extracting_msg day month year)))|].
  apply for_each_extends. intros i s0. apply extract_page_extends.
Qed.

(** Whatever its arguments and whether it returns or raises, a call of
    [extract_articles] only appends: the articles and the journal the
    extractor held come first, unchanged and in the same order, in what
    it holds after the call. *)
Theorem extract_articles_only_appends
        (day month year : Z) (page_num day_end month_end year_end : option Z)
        (self : Extractor) :
  extends self (snd (extract_articles get_page_html BeautifulSoup day month year
                                      page_num day_end month_end year_end self)).
Proof.
  unfold extract_articles.
  destruct page_num; [apply extract_page_extends|].
  destruct day_end as [de|]; [|apply extract_day_extends].
  destruct month_end as [me|]; [|apply extract_day_extends].
  destruct year_end as [ye|]; [|apply extract_day_extends].
  unfold extract_range, bind at 1 2 3, record, modify, lift.
  eapply extends_trans;
    [apply (record_extends (Enter (RangeCall day month year de me ye)))|].
  destruct (datetime.new year month day) as [d1|e]; simpl; [|apply extends_refl].
  destruct (datetime.new ye me de) as [d2|e]; simpl; [|apply extends_refl].
  apply for_each_extends. intros d s0. apply extract_day_extends.
Qed.

End CallOrder.

(** ** extractor.py: when nothing can be fetched, and degenerate ranges *)

Lemma datespan_not_before (start_date end_date : date) :
  ltb start_date end_date = false -> datespan start_date end_date = [].
Proof.
  intros H. unfold datespan.
  destruct (Z.to_nat (rank end_date - rank start_date)); simpl; [reflexivity|].
  now rewrite H.
Qed.

Section Degenerate.

Variable get_page_html : string -> option string.
Variable BeautifulSoup : string -> node.


Lemma offline_day (day month year : Z) (s : Extractor) :
  get_page_html (archive_url year month day 1) = None ->
  extract_day get_page_html BeautifulSoup day month year s
  = (Return tt, mkExtractor (articles s)
                            (journal s ++ [Enter (DayCall day month year);
                                           Info (extracting_msg day month year)])).
Proof.
  intros H. unfold extract_day, archive_size, bind, record, modify, lift.
  rewrite H. simpl. now rewrite <- app_assoc.
Qed.





(** Range mode builds the start date, then the end date, before any day
    is entered, and the first of the two that cannot be built ends the
    call: with [OverflowError] when one of its three numbers does not fit
    a C int, with [ValueError] when they fit and are not a date of the
    calendar.  On two calendar dates with the end not after the start,
    the start date itself included, the call returns without entering any
    day.  In all these cases the articles are as they were. *)
Theorem range_mode_degenerate
        (day month year day_end month_end year_end : Z) (self : Extractor) :
  let run := extract_articles get_page_html BeautifulSoup day month year None
                              (Some day_end) (Some month_end) (Some year_end) self in
  let entered := mkExtractor
                   (articles self)
                   (journal self ++
                    [Enter (RangeCall day month year day_end month_end year_end)]) in
  let fits := fun y m d : Z => fits_c_int y && fits_c_int m && fits_c_int d in
  (fits year month day = false -> run = (Raise OverflowError, entered)) /\
  (fits year month day = true -> valid (mkdate year month day) = false ->
   run = (Raise ValueError, entered)) /\
  (fits year month day = true -> valid (mkdate year month day) = true ->
   fits year_end month_end day_end = false ->
   run = (Raise OverflowError, entered)) /\
  (fits year month day = true -> valid (mkdate year month day) = true ->
   fits year_end month_end day_end = true ->
   valid (mkdate year_end month_end day_end) = false ->
   run = (Raise ValueError, entered)) /\
  (fits year month day = true -> valid (mkdate year month day) = true ->
   fits year_end month_end day_end = true ->
   valid (mkdate year_end month_end day_end) = true ->
   ltb (mkdate year month day) (mkdate year_end month_end day_end) = false ->
   run = (Return tt, entered)).
Proof.
  cbv zeta. unfold extract_articles, extract_range.
  unfold bind, record, modify, lift, new.
  repeat split.
  - intros F1. now rewrite F1.
  - intros F1 V1. now rewrite F1, V1.
  - intros F1 V1 F2. now rewrite F1, V1, F2.
  - intros F1 V1 F2 V2. now rewrite F1, V1, F2, V2.
  - intros F1 V1 F2 V2 Hlt. rewrite F1, V1, F2, V2. simpl.
    now rewrite (datespan_not_before _ _ Hlt).
Qed.

(** What a record built from a listing entry holds of the entry and of
    the page. *)
Lemma build_article_fields (art_html : node) (a : Article) :
  build_article get_page_html BeautifulSoup art_html = Return a ->
  exists href,
    getitem_opt "href" (find "a" None art_html) = Return href /\
    url a = slice_drop_last 10 href /\
    get_page_html (url a) = Some (html a) /\
    (exists time, find "time" None art_html = Some time /\
                  publish_date a = get_text time) /\
    (exists span, find "span" None art_html = Some span /\
                  subsection a = slice_from 5 (get_text span)) /\
    keywords a = page_keywords (BeautifulSoup (html a)) /\
    characters a = page_characters (BeautifulSoup (html a)).
Proof.
  unfold build_article. intros H.
  apply rbind_Return in H. destruct H as (href & Hhref & H).
  apply rbind_Return in H. destruct H as (a0 & Hinit & H).
  apply rbind_Return in H. destruct H as (a1 & Hd & H).
  apply download_Return in Hd. destruct Hd as (h & Hf & ->).
  unfold LaRepubblicaArticle_init, Article_init in Hinit.
  destruct (href =? EmptyString)%string; [discriminate|].
  simpl in Hinit. injection Hinit as <-.
  unfold exec in H.
  destruct (parse BeautifulSoup (Some art_html) _) as [[[]|e] a2] eqn:Hp; [|discriminate].
  injection H as ->.
  destruct (parse_title_final _ _ _ _ Hp) as (Hu & Hh & _).
  apply parse_chain in Hp.
  destruct Hp as (b1 & b2 & b3 & b4 & b5 & b6 & b7 & b8 & b9 &
                  H1 & H2 & H3 & H4 & H5 & H6 & H7 & H8 & H9 & H10).
  slot_kept SPublishDate H5 P5. slot_kept SPublishDate H6 P6.
  slot_kept SPublishDate H7 P7. slot_kept SPublishDate H8 P8.
  slot_kept SPublishDate H9 P9. slot_kept SPublishDate H10 P10.
  slot_kept SSubsection H8 S8. slot_kept SSubsection H9 S9.
  slot_kept SSubsection H10 S10.
  slot_kept SKeywords H1 K1. slot_kept SKeywords H2 K2. slot_kept SKeywords H3 K3.
  slot_kept SKeywords H4 K4. slot_kept SKeywords H5 K5. slot_kept SKeywords H6 K6.
  slot_kept SKeywords H7 K7. slot_kept SKeywords H9 K9. slot_kept SKeywords H10 K10.
  slot_kept SCharacters H1 C1. slot_kept SCharacters H2 C2. slot_kept SCharacters H3 C3.
  slot_kept SCharacters H4 C4. slot_kept SCharacters H5 C5. slot_kept SCharacters H6 C6.
  slot_kept SCharacters H7 C7. slot_kept SCharacters H8 C8. slot_kept SCharacters H10 C10.
  apply parse_date_Return in H4. destruct H4 as (time & Ht & E4).
  apply parse_subsection_Return in H7. destruct H7 as (span & Hs & E7).
  assert (Ep : publish_date b4 = get_text time) by (rewrite E4; reflexivity).
  assert (Es : subsection b7 = slice_from 5 (get_text span))
    by (rewrite E7; reflexivity).
  clear E4 E7. simpl in *.
  assert (Ek : keywords b8 = keywords b7 ++ page_keywords (BeautifulSoup h)).
  { unfold parse_keywords in H8. unfold page_keywords.
    destruct (find "dl" (Some ("class", "args")) (BeautifulSoup h)) as [kws|].
    - destruct (keywords_loop (find_all "dd" kws) b7) as (x & Hx & Hk & _).
      rewrite Hx in H8. injection H8 as <-. exact Hk.
    - destruct (find "div" (Some ("class", "detail_tag")) (BeautifulSoup h)) as [kws|].
      + destruct (keywords_loop (find_all "a" kws) b7) as (x & Hx & Hk & _).
        rewrite Hx in H8. injection H8 as <-. exact Hk.
      + unfold ret in H8. injection H8 as <-. now rewrite app_nil_r. }
  assert (Ec : characters b9 = characters b8 ++ page_characters (BeautifulSoup h)).
  { unfold parse_characters in H9. unfold page_characters.
    destruct (find "dl" (Some ("class", "character")) (BeautifulSoup h)) as [chars|].
    - destruct (characters_loop (find_all "dd" chars) b8) as (x & Hx & Hk & _).
      rewrite Hx in H9. injection H9 as <-. exact Hk.
    - unfold ret in H9. injection H9 as <-. now rewrite app_nil_r. }
  exists href. rewrite Hu, Hh. simpl.
  split; [exact Hhref|]. split; [reflexivity|]. split; [exact Hf|].
  split; [exists time; split; [exact Ht | congruence]|].
  split; [exists span; split; [exact Hs | congruence]|].
  split.
  - transitivity (keywords b8); [congruence|]. rewrite Ek.
    replace (keywords b7) with (@nil string) by congruence. reflexivity.
  - transitivity (characters b9); [congruence|]. rewrite Ec.
    replace (characters b8) with (@nil string) by congruence. reflexivity.
Qed.

(** Page mode returns only when the exclusion rules evaluate on every
    entry of the list. *)
Lemma page_loop_returns (entries : list node) (self self' : Extractor) :
  for_each entries
           (fun art_html =>
              keep <- lift (accepts art_html) ;;
              if keep then try_article get_page_html BeautifulSoup art_html else ret tt) self
  = (Return tt, self') ->
  Forall evaluable entries.
Proof.
  revert self. induction entries as [|e l IH]; intros self H; constructor.
  - simpl in H. unfold bind at 1 2, lift at 1 in H.
    destruct (accepts e) as [keep|ex] eqn:He; [now exists keep | discriminate].
  - simpl in H. unfold bind at 1 in H.
    destruct ((keep <- lift (accepts e) ;;
               if keep then try_article get_page_html BeautifulSoup e else ret tt) self)
      as [[[]|ex] s1]; [exact (IH _ H) | discriminate].
Qed.

(** What page mode appends.  The articles after a call of page mode are
    the articles before it followed by new records, whether the call
    returns or raises.  Every new record comes from an entry of the
    listing page that the exclusion rules accept: its url is the entry's
    link without its last ten characters, its content is what is served
    there, its date and subsection are read from the entry, and its
    keywords and characters are exactly the page's.  When the call
    returns, no such entry is left out: the record of every accepted entry
    whose article is constructed, fetched and parsed is among the new
    ones. *)
Theorem page_mode_appends_records_of_accepted_entries
        (day month year page_num : Z) (self : Extractor) :
  let run := extract_articles get_page_html BeautifulSoup day month year
                              (Some page_num) None None None self in
  let entries := listing_entries get_page_html BeautifulSoup day month year page_num in
  exists added,
    articles (snd run) = articles self ++ added /\
    (forall a, In a added ->
       exists art_html href,
         In art_html entries /\
         accepts art_html = Return true /\
         getitem_opt "href" (find "a" None art_html) = Return href /\
         url a = slice_drop_last 10 href /\
         get_page_html (url a) = Some (html a) /\
         (exists time, find "time" None art_html = Some time /\
                       publish_date a = get_text time) /\
         (exists span, find "span" None art_html = Some span /\
                       subsection a = slice_from 5 (get_text span)) /\
         keywords a = page_keywords (BeautifulSoup (html a)) /\
         characters a = page_characters (BeautifulSoup (html a))) /\
    (fst run = Return tt ->
     forall art_html a,
       In art_html entries ->
       accepts art_html = Return true ->
       build_article get_page_html BeautifulSoup art_html = Return a ->
       In a added).
Proof.
  cbv zeta. unfold extract_articles, extract_page, listing_entries.
  unfold bind at 1 3. unfold record, modify.
  destruct (get_page_html (archive_url year month day page_num)) as [data|].
  2: { exists []. simpl. rewrite app_nil_r. split; [reflexivity|].
       split; [intros a []|]. intros _ e a []. }
  cbv zeta.
  set (entries := find_all "article" (BeautifulSoup data)).
  set (body := fun art_html : node =>
                 keep <- lift (accepts art_html) ;;
                 if keep then try_article get_page_html BeautifulSoup art_html else ret tt).
  set (s0 := mkExtractor (articles self)
                         (journal self ++ [Enter (PageCall day month year page_num)])).
  set (from_entry := fun a : Article =>
         exists art_html href,
           In art_html entries /\
           accepts art_html = Return true /\
           getitem_opt "href" (find "a" None art_html) = Return href /\
           url a = slice_drop_last 10 href /\
           get_page_html (url a) = Some (html a) /\
           (exists time, find "time" None art_html = Some time /\
                         publish_date a = get_text time) /\
           (exists span, find "span" None art_html = Some span /\
                         subsection a = slice_from 5 (get_text span)) /\
           keywords a = page_keywords (BeautifulSoup (html a)) /\
           characters a = page_characters (BeautifulSoup (html a))).
  assert (Hinv : exists added,
             articles (snd (for_each entries body s0)) = articles self ++ added /\
             forall a, In a added -> from_entry a).
  { apply (@for_each_keeps_in _
             (fun s => exists added, articles s = articles self ++ added /\
                                     forall a, In a added -> from_entry a)).
    - intros e Hin s (added & Ha & Hall). unfold body, bind, lift.
      destruct (accepts e) as [[|]|ex] eqn:Hacc; simpl;
        [|exists added; now split|exists added; now split].
      unfold try_article.
      destruct (build_article get_page_html BeautifulSoup e) as [b|[msg| | | | | |]] eqn:Hb;
        simpl; try (exists added; now split).
      exists (added ++ [b]). rewrite Ha, <- app_assoc. split; [reflexivity|].
      intros a Hia. apply in_app_or in Hia. destruct Hia as [Hia | [<- | []]];
        [now apply Hall|].
      destruct (build_article_fields _ _ Hb) as (href & Hrest).
      exists e, href. split; [exact Hin|]. split; [exact Hacc | exact Hrest].
    - exists []. simpl. now rewrite app_nil_r. }
  destruct Hinv as (added & Ha & Hall).
  exists added. split; [exact Ha|]. split; [exact Hall|].
  intros Hret e a Hin Hacc Hb.
  destruct (for_each entries body s0) as [r s'] eqn:Hrun.
  simpl in Hret, Ha. subst r.
  pose proof (page_loop_returns _ _ _ Hrun) as Hev.
  unfold body in Hrun. rewrite (page_loop get_page_html BeautifulSoup _ _ Hev) in Hrun.
  injection Hrun as <-. simpl in Ha. apply app_inv_head in Ha. rewrite <- Ha.
  unfold extracted. apply in_flat_map. exists e. split.
  - apply filter_In. split; [exact Hin|]. unfold accepted. now rewrite Hacc.
  - rewrite Hb. now left.
Qed.

End Degenerate.

(** ** utility.py: more of [datespan] *)

Lemma rank_le (a b : date) :
  valid a = true -> valid b = true -> le a b -> rank a <= rank b.
Proof.
  intros Ha Hb [H | ->]; [|lia]. pose proof (rank_lt _ _ Ha Hb H). lia.
Qed.

Lemma ltb_irrefl (a : date) : ltb a a = false.
Proof. apply ltb_false_iff. lia. Qed.

Lemma datespan_loop_split (fuel : nat) (a b c : date) :
  valid a = true -> valid b = true -> valid c = true ->
  le a b -> le b c ->
  rank c - rank a <= Z.of_nat fuel ->
  datespan_loop fuel a c = datespan_loop fuel a b ++ datespan_loop fuel b c.
Proof.
  revert a. induction fuel as [|fuel IH]; intros a Ha Hb Hc Hab Hbc Hf.
  - reflexivity.
  - destruct Hab as [Hab | ->].
    + assert (Hac : lt a c).
      { destruct Hbc as [Hbc | <-]; [eapply lt_trans; eauto | exact Hab]. }
      destruct (next_day_spec _ _ Ha Hb Hab) as (Hv & _ & Hr & Hnb).
      pose proof (rank_le _ _ Hv Hb Hnb) as Hrb.
      pose proof (rank_le _ _ Hb Hc Hbc).
      rewrite (datespan_loop_fuel (S fuel) fuel b c) by (auto; lia).
      simpl. unfold lt in Hab, Hac. rewrite Hab, Hac. simpl. f_equal.
      apply IH; auto; lia.
    + simpl. now rewrite ltb_irrefl.
Qed.

(** Two adjoining spans make one: for dates in calendar order, the dates
    from the first to the third are those from the first to the second
    followed by those from the second to the third. *)
Theorem datespan_split (a b c : date) :
  valid a = true -> valid b = true -> valid c = true ->
  le a b -> le b c ->
  datespan a c = datespan a b ++ datespan b c.
Proof.
  intros Ha Hb Hc Hab Hbc. unfold datespan.
  pose proof (rank_le _ _ Ha Hb Hab). pose proof (rank_le _ _ Hb Hc Hbc).
  rewrite (datespan_loop_split (Z.to_nat (rank c - rank a)) a b c) by (auto; lia).
  f_equal; apply datespan_loop_fuel; auto; lia.
Qed.

(** The loop of [datespan] ends: between two calendar dates it stops
    within the bound the model gives it, and any larger bound yields the
    same dates. *)
Theorem datespan_ends (fuel : nat) (start_date end_date : date) :
  valid start_date = true -> valid end_date = true ->
  rank end_date - rank start_date <= Z.of_nat fuel ->
  datespan_loop fuel start_date end_date = datespan start_date end_date.
Proof.
  intros Hs He Hf. unfold datespan. apply datespan_loop_fuel; auto; lia.
Qed.

(** [datespan] yields nothing exactly when the end date is not after the
    start date, and otherwise starts with the start date and ends with
    the day before the end date. *)
Theorem datespan_ends_of_the_span (start_date end_date : date) :
  valid start_date = true -> valid end_date = true ->
  (datespan start_date end_date = [] <-> ltb start_date end_date = false) /\
  (ltb start_date end_date = true ->
   exists rest, datespan start_date end_date = start_date :: rest) /\
  (forall x, In x (datespan start_date end_date) -> le (next_day x) end_date).
Proof.
  intros Hs He. split; [|split].
  - split; [|apply datespan_not_before].
    intros Hnil. destruct (ltb start_date end_date) eqn:Hlt; [|reflexivity].
    pose proof (rank_lt _ _ Hs He Hlt) as Hr. unfold datespan in Hnil.
    destruct (Z.to_nat (rank end_date - rank start_date)) eqn:Hn; [lia|].
    simpl in Hnil. rewrite Hlt in Hnil. discriminate.
  - intros Hlt. pose proof (rank_lt _ _ Hs He Hlt) as Hr. unfold datespan.
    destruct (Z.to_nat (rank end_date - rank start_date)) eqn:Hn; [lia|].
    simpl. rewrite Hlt. eauto.
  - intros x Hx. destruct (datespan_spec _ _ Hs He) as (Hin & _ & _).
    apply Hin in Hx. destruct Hx as (Hvx & _ & Hxe).
    now destruct (next_day_spec _ _ Hvx He Hxe) as (_ & _ & _ & Hle).
Qed.

(** ** parser.py with extractor.py *)

(** [get_page_html] returns the data of an answer with status 200 and
    nothing in every other case, a raised exception included.  When the
    request for the first listing page of a date is not answered with
    status 200, the page count is [-1] and day mode returns having added
    no article and entered no page. *)
Theorem unanswered_request_ends_the_day
        (request : string -> result (Z * string)) (BeautifulSoup : string -> node)
        (day month year : Z) (self : Extractor) :
  (forall url data,
      parser.get_page_html request url = Some data <-> request url = Return (200, data)) /\
  ((forall data, request (archive_url year month day 1) <> Return (200, data)) ->
   archive_size (parser.get_page_html request) BeautifulSoup day month year = Return (-1) /\
   extract_articles (parser.get_page_html request) BeautifulSoup
                    day month year None None None None self
   = (Return tt,
      mkExtractor (articles self)
                  (journal self ++ [Enter (DayCall day month year);
                                    Info (extracting_msg day month year)]))).
Proof.
  assert (Hiff : forall url data,
             parser.get_page_html request url = Some data <->
             request url = Return (200, data)).
  { intros url data. unfold parser.get_page_html.
    destruct (request url) as [[status d]|e].
    - destruct (Z.eqb_spec status 200) as [->|Hne]; split; intros H;
        try discriminate; congruence.
    - split; discriminate. }
  split; [exact Hiff|].
  intros Hno.
  assert (Hnone : parser.get_page_html request (archive_url year month day 1) = None).
  { destruct (parser.get_page_html request (archive_url year month day 1)) as [d|] eqn:Hg;
      [|reflexivity].
    apply Hiff in Hg. exfalso. exact (Hno d Hg). }
  split.
  - unfold archive_size. now rewrite Hnone.
  - unfold extract_articles. now apply offline_day.
Qed.

(** ** run.py *)

Section RunProperties.

Variable get_page_html : string -> option string.
Variable BeautifulSoup : string -> node.
Variable int : string -> result Z.

(** [run] with an argument count other than 6, 7 or 9 (8 included) prints
    the usage message and returns; with a newspaper name other than
    [LaRepubblica] it raises [ExtractorException].  In both cases nothing
    is extracted and nothing is written. *)
Theorem run_rejects_bad_invocations (argv : list string) :
  let arg_len := Z.of_nat (List.length argv) in
  (arg_len <> 6 -> arg_len <> 7 -> arg_len <> 9 ->
   run get_page_html BeautifulSoup int argv = mkOutcome None [Usage arg_len] None) /\
  (arg_len = 6 \/ arg_len = 7 \/ arg_len = 9 ->
   argv_at argv 2 <> "LaRepubblica" ->
   run get_page_html BeautifulSoup int argv
   = mkOutcome (Some (ExtractorException
                        "ExtractorException: Selected newspaperis not supported (yet!)"))
               [] None).
Proof.
  cbv zeta. unfold run. split.
  - intros H6 H7 H9.
    destruct (Z.eqb_spec (Z.of_nat (List.length argv)) 6); [contradiction|].
    destruct (Z.eqb_spec (Z.of_nat (List.length argv)) 7); [contradiction|].
    destruct (Z.eqb_spec (Z.of_nat (List.length argv)) 9); [contradiction|].
    reflexivity.
  - intros Hlen Hname.
    assert (Hok : negb ((Z.of_nat (List.length argv) =? 6)
                        || (Z.of_nat (List.length argv) =? 7)
                        || (Z.of_nat (List.length argv) =? 9)) = false).
    { destruct Hlen as [-> | [-> | ->]]; reflexivity. }
    rewrite Hok. cbv zeta. unfold choose_extractor.
    destruct (String.eqb_spec (argv_at argv 2) "LaRepubblica"); [contradiction|].
    reflexivity.
Qed.

(** The numbers [run] reads: the third to fifth arguments give the date;
    with six arguments that is all, with seven the sixth gives the page
    number, and otherwise the sixth to eighth give the end date. *)
Lemma run_arguments_Return (argv : list string) (day month year : Z)
      (mode : option Z * option Z * option Z * option Z) :
  run_arguments int argv = Return (day, month, year, mode) ->
  let arg_len := Z.of_nat (List.length argv) in
  int (argv_at argv 3) = Return day /\
  int (argv_at argv 4) = Return month /\
  int (argv_at argv 5) = Return year /\
  ((arg_len = 6 /\ mode = (None, None, None, None)) \/
   (arg_len = 7 /\
    exists page_num,
      int (argv_at argv 6) = Return page_num /\
      mode = (Some page_num, None, None, None)) \/
   (arg_len <> 6 /\ arg_len <> 7 /\
    exists day_end month_end year_end,
      int (argv_at argv 6) = Return day_end /\
      int (argv_at argv 7) = Return month_end /\
      int (argv_at argv 8) = Return year_end /\
      mode = (None, Some day_end, Some month_end, Some year_end))).
Proof.
  cbv zeta. unfold run_arguments. intros H.
  apply rbind_Return in H. destruct H as (d & Hd & H).
  apply rbind_Return in H. destruct H as (m & Hm & H).
  apply rbind_Return in H. destruct H as (y & Hy & H).
  destruct (Z.eqb_spec (Z.of_nat (List.length argv)) 6) as [H6|H6].
  { injection H as <- <- <- <-. repeat (split; [assumption|]). left. now split. }
  destruct (Z.eqb_spec (Z.of_nat (List.length argv)) 7) as [H7|H7].
  { apply rbind_Return in H. destruct H as (p & Hp & H).
    injection H as <- <- <- <-. repeat (split; [assumption|]).
    right. left. split; [assumption|]. now exists p. }
  apply rbind_Return in H. destruct H as (de & Hde & H).
  apply rbind_Return in H. destruct H as (me & Hme & H).
  apply rbind_Return in H. destruct H as (ye & Hye & H).
  injection H as <- <- <- <-. repeat (split; [assumption|]).
  right. right. split; [assumption|]. split; [assumption|]. now exists de, me, ye.
Qed.

(** [run] writes the table only after the extraction has returned.  If it
    writes one, the argument count is 6, 7 or 9, the newspaper is
    [LaRepubblica], and the file is named by the first argument.  The
    third to fifth arguments read as the date; six arguments give day
    mode, seven give page mode on the number the sixth reads as, nine give
    range mode up to the date the sixth to eighth read as.  The one call
    of [extract_articles] with these numbers on a fresh extractor has
    returned, the records written are the dictionaries of the articles
    that call left, in order, and [run] raises nothing and sends out the
    table and then the closing message.  An extraction that raises leaves
    no table, even for the articles it had accumulated. *)
Theorem run_writes_after_extraction
        (argv : list string) (filename : string)
        (records : list (list (string * value))) :
  In (Csv filename records) (outputs (run get_page_html BeautifulSoup int argv)) ->
  let arg_len := Z.of_nat (List.length argv) in
  argv_at argv 2 = "LaRepubblica" /\
  filename = argv_at argv 1 /\
  exists day month year page_num day_end month_end year_end extractor,
    int (argv_at argv 3) = Return day /\
    int (argv_at argv 4) = Return month /\
    int (argv_at argv 5) = Return year /\
    ((arg_len = 6 /\
      (page_num, day_end, month_end, year_end) = (None, None, None, None)) \/
     (arg_len = 7 /\
      exists p,
        int (argv_at argv 6) = Return p /\
        (page_num, day_end, month_end, year_end) = (Some p, None, None, None)) \/
     (arg_len = 9 /\
      exists de me ye,
        int (argv_at argv 6) = Return de /\
        int (argv_at argv 7) = Return me /\
        int (argv_at argv 8) = Return ye /\
        (page_num, day_end, month_end, year_end) = (None, Some de, Some me, Some ye))) /\
    extract_articles get_page_html BeautifulSoup day month year
                     page_num day_end month_end year_end Extractor_init
    = (Return tt, extractor) /\
    records = map as_dict (articles extractor) /\
    run get_page_html BeautifulSoup int argv
    = mkOutcome None [Csv filename records; Completed] (Some extractor).
Proof.
  cbv zeta. unfold run.
  destruct (negb ((Z.of_nat (List.length argv) =? 6)
                  || (Z.of_nat (List.length argv) =? 7)
                  || (Z.of_nat (List.length argv) =? 9))) eqn:Hlen.
  { simpl. intros [H|[]]. discriminate. }
  cbv zeta. unfold choose_extractor.
  destruct (String.eqb_spec (argv_at argv 2) "LaRepubblica") as [Hn|Hn];
    [|simpl; intros []].
  destruct (run_arguments int argv) as [[[[day month] year] [[[p de] me] ye]]|e] eqn:Hargs;
    [|simpl; intros []].
  destruct (extract_articles get_page_html BeautifulSoup day month year p de me ye
                             Extractor_init) as [[[]|e] ex] eqn:Hx;
    [|simpl; intros []].
  simpl. intros [H|[H|[]]]; [|discriminate].
  unfold articles_to_csv in H. injection H as <- <-.
  split; [exact Hn|]. split; [reflexivity|].
  exists day, month, year, p, de, me, ye, ex.
  destruct (run_arguments_Return _ _ _ _ _ Hargs) as (Hd & Hm & Hy & Hmode).
  split; [exact Hd|]. split; [exact Hm|]. split; [exact Hy|].
  split; [|split; [exact Hx|split; reflexivity]].
  destruct Hmode as [[H6 Hmode] | [[H7 Hmode] | (H6 & H7 & Hmode)]].
  - left. now split.
  - right. left. now split.
  - right. right. split; [|exact Hmode].
    apply negb_false_iff in Hlen. apply orb_true_iff in Hlen.
    destruct Hlen as [Hlen | Hlen]; [apply orb_true_iff in Hlen; destruct Hlen as [Hlen | Hlen]|];
      apply Z.eqb_eq in Hlen; congruence.
Qed.

End RunProperties.

(** ** The further properties on the samples *)

Lemma archive_size_sentinel_witness :
  (1 = -1 <-> Sample.get_page_html (archive_url 2015 3 4 1) = None) /\
  (1 <> -1 -> 0 <= 1).
Proof.
  apply (@archive_size_sentinel Sample.get_page_html Sample.BeautifulSoup 4 3 2015 1).
  reflexivity.
Defined.

Lemma day_mode_stops_on_unreadable_page_count_witness :
  archive_size Sample.get_page_html Sample.BeautifulSoup 9 3 2015 = Raise AttributeError /\
  extract_articles Sample.get_page_html Sample.BeautifulSoup
                   9 3 2015 None None None None Extractor_init
  = (Raise AttributeError,
     mkExtractor (articles Extractor_init)
                 (journal Extractor_init ++ [Enter (DayCall 9 3 2015)])).
Proof.
  apply (proj1 (@day_mode_stops_on_unreadable_page_count
                  Sample.get_page_html Sample.BeautifulSoup
                  9 3 2015 Sample.listing_9_html Extractor_init eq_refl)).
  reflexivity.
Defined.

Lemma day_mode_enters_pages_in_order_witness :
  let run := extract_articles Sample.get_page_html Sample.BeautifulSoup
                              8 3 2015 None None None None Extractor_init in
  fst run = Return tt /\
  calls_of (journal (snd run))
  = calls_of (journal Extractor_init) ++
    DayCall 8 3 2015 :: map (PageCall 8 3 2015) [1; 2; 3; 4; 5; 6].
Proof.
  cbv zeta.
  destruct (proj1 (proj2 (proj2 (proj2
             (@day_mode_enters_pages_in_order
                Sample.get_page_html Sample.BeautifulSoup
                8 3 2015 6 Extractor_init eq_refl)))))
    as [(self' & _ & Hrun & Hcalls)
       | (before & i & after & s1 & e & s2 & _ & _ & _ & Hrun & _)].
  - rewrite Hrun. split; [reflexivity | exact Hcalls].
  - exfalso. vm_compute in Hrun. discriminate.
Defined.

(** Day mode on the sample: one page, entered once. *)
Example sample_day_calls :
  calls_of (journal (snd (extract_articles Sample.get_page_html Sample.BeautifulSoup
                                           4 3 2015 None None None None Extractor_init)))
  = [DayCall 4 3 2015; PageCall 4 3 2015 1].
Proof. vm_compute. reflexivity. Qed.


Lemma page_mode_appends_records_witness :
  let run := extract_articles Sample.get_page_html Sample.BeautifulSoup
                              4 3 2015 (Some 1) None None None Extractor_init in
  exists added,
    articles (snd run) = articles Extractor_init ++ added /\
    map url added = ["http://www.repubblica.it/politica/a1/?";
                     "http://www.repubblica.it/cronaca/a2/?"] /\
    (fst run = Return tt ->
     forall art_html a,
       In art_html (listing_entries Sample.get_page_html Sample.BeautifulSoup 4 3 2015 1) ->
       accepts art_html = Return true ->
       build_article Sample.get_page_html Sample.BeautifulSoup art_html = Return a ->
       In a added).
Proof.
  cbv zeta.
  destruct (@page_mode_appends_records_of_accepted_entries
              Sample.get_page_html Sample.BeautifulSoup 4 3 2015 1 Extractor_init)
    as (added & Ha & _ & Hall).
  exists added. split; [exact Ha|]. split; [|exact Hall].
  vm_compute in Ha. rewrite <- Ha. reflexivity.
Defined.

Lemma datespan_split_witness :
  datespan (mkdate 2016 2 27) (mkdate 2016 3 2)
  = datespan (mkdate 2016 2 27) (mkdate 2016 2 29) ++
    datespan (mkdate 2016 2 29) (mkdate 2016 3 2).
Proof.
  apply (@datespan_split (mkdate 2016 2 27) (mkdate 2016 2 29) (mkdate 2016 3 2));
    try reflexivity; left; reflexivity.
Defined.

Lemma datespan_ends_witness :
  datespan_loop 1000 (mkdate 2015 12 30) (mkdate 2016 1 2)
  = datespan (mkdate 2015 12 30) (mkdate 2016 1 2).
Proof.
  apply (@datespan_ends 1000 (mkdate 2015 12 30) (mkdate 2016 1 2));
    [reflexivity | reflexivity | vm_compute; discriminate].
Defined.

Lemma datespan_ends_of_the_span_witness :
  datespan (mkdate 2016 2 28) (mkdate 2016 3 2) <> [] /\
  (exists rest, datespan (mkdate 2016 2 28) (mkdate 2016 3 2) = mkdate 2016 2 28 :: rest) /\
  le (next_day (mkdate 2016 2 28)) (mkdate 2016 3 2) /\
  le (next_day (mkdate 2016 2 29)) (mkdate 2016 3 2) /\
  le (next_day (mkdate 2016 3 1)) (mkdate 2016 3 2).
Proof.
  destruct (@datespan_ends_of_the_span (mkdate 2016 2 28) (mkdate 2016 3 2)
              eq_refl eq_refl) as (Hnil & Hhead & Hlast).
  split.
  { intros H. apply Hnil in H. vm_compute in H. discriminate. }
  split; [apply Hhead; reflexivity|].
  repeat split; apply Hlast; vm_compute; auto.
Defined.

(** The request primitive of the second sample: the page of 4 March is
    served, the one of 5 March answers 404 and the one of 6 March raises;
    both give the page count [-1]. *)
Example sample_requests :
  parser.get_page_html Sample2.request (archive_url 2015 3 4 1)
  = Some Sample.listing_4_html /\
  parser.get_page_html Sample2.request (archive_url 2015 3 5 1) = None /\
  parser.get_page_html Sample2.request (archive_url 2015 3 6 1) = None /\
  archive_size (parser.get_page_html Sample2.request) Sample.BeautifulSoup 5 3 2015
  = Return (-1) /\
  archive_size (parser.get_page_html Sample2.request) Sample.BeautifulSoup 6 3 2015
  = Return (-1).
Proof. vm_compute. repeat split. Qed.

Lemma run_writes_after_extraction_witness :
  let argv := ["run.py"; "articles.csv"; "LaRepubblica"; "4"; "3"; "2015"; "1"] in
  let extractor := snd (extract_articles Sample.get_page_html Sample.BeautifulSoup
                                         4 3 2015 (Some 1) None None None
                                         Extractor_init) in
  map title (articles extractor) = ["Titolo uno"; EmptyString] /\
  run Sample.get_page_html Sample.BeautifulSoup Sample2.int argv
  = mkOutcome None [Csv "articles.csv" (map as_dict (articles extractor)); Completed]
              (Some extractor).
Proof.
  cbv zeta. split; [vm_compute; reflexivity|].
  destruct (@run_writes_after_extraction
              Sample.get_page_html Sample.BeautifulSoup Sample2.int
              ["run.py"; "articles.csv"; "LaRepubblica"; "4"; "3"; "2015"; "1"]
              "articles.csv"
              (map as_dict
                 (articles (snd (extract_articles
                                   Sample.get_page_html Sample.BeautifulSoup
                                   4 3 2015 (Some 1) None None None Extractor_init)))))
    as (_ & _ & day & month & year & page_num & day_end & month_end & year_end
        & extractor & Hd & Hm & Hy & Hmode & Hx & _ & Hrun).
  { vm_compute. left. reflexivity. }
  destruct Hmode as [[H6 _] | [(_ & p & Hp & Hmode) | [H9 _]]];
    [vm_compute in H6; discriminate| |vm_compute in H9; discriminate].
  vm_compute in Hd, Hm, Hy, Hp.
  injection Hd as <-. injection Hm as <-. injection Hy as <-. injection Hp as <-.
  injection Hmode as -> -> -> ->.
  rewrite Hrun. rewrite Hx. reflexivity.
Defined.

(** [run] on the sample: a day that is extracted and written, an argument
    count of eight, and a page on which the exclusion rules raise, which
    leaves no table. *)
Example sample_runs :
  outputs (run Sample.get_page_html Sample.BeautifulSoup Sample2.int
               ["run.py"; "articles.csv"; "LaRepubblica"; "5"; "3"; "2015"])
  = [Csv "articles.csv" []; Completed] /\
  run Sample.get_page_html Sample.BeautifulSoup Sample2.int
      ["run.py"; "articles.csv"; "LaRepubblica"; "4"; "3"; "2015"; "6"; "3"]
  = mkOutcome None [Usage 8] None /\
  outputs (run Sample.get_page_html Sample.BeautifulSoup Sample2.int
               ["run.py"; "articles.csv"; "LaRepubblica"; "7"; "3"; "2015"; "1"])
  = [] /\
  raised (run Sample.get_page_html Sample.BeautifulSoup Sample2.int
              ["run.py"; "articles.csv"; "LaRepubblica"; "7"; "3"; "2015"; "1"])
  = Some (Propagated AttributeError) /\
  raised (run Sample.get_page_html Sample.BeautifulSoup Sample2.int
              ["run.py"; "articles.csv"; "LaRepubblica"; "quattro"; "3"; "2015"])
  = Some (Propagated ValueError).
Proof. vm_compute. repeat split. Qed.
